(** * Fishing prediction system: a shallow embedding of the core

    The development follows the Python sources module by module:
    - [Py]         : the Python and pandas operations the code relies on
                     (slices, stable sort, string methods, exceptions)
    - [Split]      : the chronological train/validation split of
                     [AjiPredictor.fit]                  (ml/models.py)
    - [Model]      : [AjiPredictor]: predict, save, load and the
                     retention cleanup, over a model directory
                                                         (ml/models.py)
    - [Weather]    : the three weather tables
    - [Visitors]   : [VisitorAnalyzer]         (api/visitor_analysis.py)
    - [Historical] : the historical query           (api/historical.py)
    - [DataLoader] : the training loader            (ml/data_loader.py)
    - [Api]        : [FishingPredictor.predict_aji]    (api/predict.py)
    - [Features]   : the daily target and the feature matrix
                                             (ml/feature_engineering.py)
    - [Main]       : request preparation, accuracy figures and
                     confidence of the main interface     (api/main.py)
    - [Serving]    : the artifact the service loads    (api/predict.py)
    - [Scraping]   : appending scraped rows to a sheet
                                                 (api/scraping_core.py)
    - [Strict]     : concrete libraries and data for the examples

    Library code (date parsing, pandas conversions, the regressor) enters
    as type classes, so that every general theorem holds for whatever
    these functions compute. The product [len(X) * (1 - f)] that [fit]
    truncates is modelled with the kernel's binary64 floats, so that
    rounding is the machine's; predictions and statistics are exact
    rationals. *)

From Stdlib Require Import ZArith QArith Qround Floats Lia Ascii String.
From Stdlib Require OrdersEx.
From stdpp Require Import gmap strings list fin_maps sorting.

Open Scope Z_scope.

(* ===================================================================== *)
(** * Python numeric conversions *)
(* ===================================================================== *)

Module Py.

(** [float(n)] for a Python int that fits a machine word (row counts do). *)
Definition float_of_int (n : Z) : float :=
  PrimFloat.of_uint63 (Uint63.of_Z n).

(** [int(x)] on a float: truncation toward zero; [int(nan)] raises
    ValueError and [int(inf)] raises OverflowError, both rendered [None]. *)
Definition int_of_float (x : float) : option Z :=
  match Prim2SF x with
  | S754_zero _ => Some 0
  | S754_finite s m e =>
      let mag :=
        if 0 <=? e then Z.shiftl (Z.pos m) e else Z.shiftr (Z.pos m) (- e) in
      Some (if s then - mag else mag)
  | S754_infinity _ => None
  | S754_nan => None
  end.

(** The binary64 value a decimal literal [p/q] denotes: IEEE division is
    correctly rounded, and [p], [q] below 2^53 convert exactly. *)
Definition float_of_Q (q : Q) : float :=
  PrimFloat.div (float_of_int (Qnum q)) (float_of_int (Z.pos (Qden q))).

(** Slices [l[:k]] and [l[k:]] (also [DataFrame.iloc]): a negative bound
    counts from the end, and bounds are clamped to the length. *)
Definition slice_bound {A} (l : list A) (k : Z) : nat :=
  if 0 <=? k then Z.to_nat k else (length l - Z.to_nat (- k))%nat.

Definition slice_to {A} (l : list A) (k : Z) : list A :=
  take (slice_bound l k) l.

Definition slice_from {A} (l : list A) (k : Z) : list A :=
  drop (slice_bound l k) l.

(** A dict literal, in insertion order; [d.get(k)] / [Series.map(d)]. *)
Fixpoint dict_get {V} (d : list (string * V)) (k : string) : option V :=
  match d with
  | [] => None
  | (k', v) :: d' => if String.eqb k' k then Some v else dict_get d' k
  end.

(** Exceptions, and a computation that returns or raises. *)
Inductive exn : Type :=
  | ValueError (msg : string)
  | KeyError (key : string)
  | IndexError
  | TypeError.

Inductive result (A : Type) : Type :=
  | Ok (a : A)
  | Raise (e : exn).
Arguments Ok {A} a.
Arguments Raise {A} e.

(** Sequencing: an exception cuts the rest short ([x ← c; k]). *)
#[global] Instance result_ret : MRet result := fun A a => Ok a.

#[global] Instance result_bind : MBind result := fun A B k c =>
  match c with
  | Ok a => k a
  | Raise e => Raise e
  end.

(** [str(e)] *)
Definition exn_message (e : exn) : string :=
  match e with
  | ValueError msg => msg
  | KeyError key => key
  | IndexError => "list index out of range"
  | TypeError => "unsupported operand"
  end.

(** What [astype(int)] raises on a column that holds a NaN. *)
Definition nan_to_int : exn :=
  ValueError "cannot convert float NaN to integer".

(** [try: c except: h] *)
Definition try_except {A} (c : result A) (h : exn -> A) : A :=
  match c with
  | Ok a => a
  | Raise e => h e
  end.

(** A library call that fails without a value. *)
Definition of_option {A} (o : option A) (e : exn) : result A :=
  match o with
  | Some a => Ok a
  | None => Raise e
  end.

(** [sum(l) / len(l)] over exact rationals, in lowest terms. *)
Definition Qsum (l : list Q) : Q := foldr Qplus 0%Q l.

Definition mean (l : list Q) : Q :=
  Qred (Qsum l / inject_Z (Z.of_nat (length l))).

(** Rounding to the nearest integer, ties to the even one ([round(x)],
    [np.rint]). *)
Definition round_half_even (x : Q) : Z :=
  let fl := Qfloor x in
  let twice_frac := Qnum (Qred ((x - inject_Z fl) * 2)) in
  let den := Z.pos (Qden (Qred ((x - inject_Z fl) * 2))) in
  if twice_frac <? den then fl
  else if den <? twice_frac then fl + 1
  else if Z.even fl then fl else fl + 1.

(** [round(x, 1)]: one decimal place. *)
Definition round1 (x : Q) : Q :=
  Qred (inject_Z (round_half_even (x * 10)) / 10).

(** [int(x)] on an exact rational: truncation toward zero. *)
Definition int_of_Q (x : Q) : Z := Z.quot (Qnum x) (Z.pos (Qden x)).

(** [list.sort(key=..., reverse=True)]: descending by key, and stable
    (elements with equal keys keep their original order). *)
Fixpoint insert_desc {A} (key : A -> Z) (x : A) (l : list A) : list A :=
  match l with
  | [] => [x]
  | y :: l' => if key y <=? key x then x :: l else y :: insert_desc key x l'
  end.

Definition sort_desc {A} (key : A -> Z) (l : list A) : list A :=
  foldr (insert_desc key) [] l.

(** Newest first: every element is at least as new as all that follow. *)
Definition descending {A} (key : A -> Z) : list A -> Prop :=
  StronglySorted (fun a b => key b <= key a).

(** ** Strings *)

Fixpoint starts_with (p s : string) : bool :=
  match p, s with
  | EmptyString, _ => true
  | String a p', String b s' => Ascii.eqb a b && starts_with p' s'
  | String _ _, EmptyString => false
  end.

Fixpoint strip_prefix (p s : string) : option string :=
  match p, s with
  | EmptyString, _ => Some s
  | String a p', String b s' =>
      if Ascii.eqb a b then strip_prefix p' s' else None
  | String _ _, EmptyString => None
  end.

Fixpoint ends_with_aux (n : nat) (suffix s : string) : bool :=
  match n, s with
  | O, _ => String.eqb suffix s
  | S n', String _ s' => ends_with_aux n' suffix s'
  | S _, EmptyString => false
  end.

(** [s.endswith(suffix)] *)
Definition ends_with (suffix s : string) : bool :=
  ends_with_aux (String.length s - String.length suffix) suffix s
  && (String.length suffix <=? String.length s)%nat.

Fixpoint contains_char (c : ascii) (s : string) : bool :=
  match s with
  | EmptyString => false
  | String a s' => Ascii.eqb a c || contains_char c s'
  end.

(** [s.split(c)] for a one-character separator: never empty. *)
Fixpoint split_on (c : ascii) (s : string) : list string :=
  match s with
  | EmptyString => [EmptyString]
  | String a s' =>
      if Ascii.eqb a c then EmptyString :: split_on c s'
      else match split_on c s' with
           | [] => [String a EmptyString]
           | w :: ws => String a w :: ws
           end
  end.

(** [re.sub('p1|p2|...', '', s)] for non-empty literal patterns: at each
    position the first pattern that matches is dropped, left to right,
    without overlap. [skip] counts the characters of a match that are
    still to be dropped. *)
Definition first_match (olds : list string) (s : string) : option string :=
  list_find (fun old => starts_with old s = true) olds ≫= fun r => Some r.2.

Fixpoint remove_any_aux (olds : list string) (skip : nat) (s : string)
    : string :=
  match s with
  | EmptyString => EmptyString
  | String a s' =>
      match skip with
      | S k => remove_any_aux olds k s'
      | O =>
          match first_match olds s with
          | Some old => remove_any_aux olds (String.length old - 1) s'
          | None => String a (remove_any_aux olds O s')
          end
      end
  end.

Definition remove_any (olds : list string) (s : string) : string :=
  remove_any_aux olds O s.

(** [s.replace(old, '')] for a non-empty [old]. *)
Definition remove_all (old s : string) : string := remove_any [old] s.

(** [l[-1]] and [l[-2]]; [None] is IndexError. *)
Definition nth_last {A} (l : list A) (i : nat) : option A :=
  if (i <? length l)%nat then l !! (length l - S i)%nat else None.

(** [os.path.join(d, name)] for a relative [name], and
    [os.path.basename]. *)
Definition path_join (d name : string) : string := d ++ "/" ++ name.

Definition basename (path : string) : string :=
  default path (last (split_on "/" path)).

(** ** Numbers in text (ASCII digits) *)

Definition digit_of (a : ascii) : option Z :=
  let n := nat_of_ascii a in
  if ((48 <=? n) && (n <=? 57))%nat then Some (Z.of_nat (n - 48)) else None.

Definition is_digit (a : ascii) : bool := bool_decide (is_Some (digit_of a)).

Fixpoint parse_digits (acc : Z) (s : string) : option Z :=
  match s with
  | EmptyString => Some acc
  | String a s' =>
      match digit_of a with
      | Some d => parse_digits (acc * 10 + d) s'
      | None => None
      end
  end.

(** [int(s)] on a non-empty run of digits. *)
Definition parse_number (s : string) : option Z :=
  match s with
  | EmptyString => None
  | _ => parse_digits 0 s
  end.

Definition digit_char (d : Z) : ascii :=
  ascii_of_nat (48 + Z.to_nat (d mod 10)).

(** [n] written with exactly [width] decimal digits (['%04d'], ['%02d']). *)
Fixpoint digits (width : nat) (n : Z) : string :=
  match width with
  | O => EmptyString
  | S w => digits w (n / 10) ++ String (digit_char n) EmptyString
  end.

Fixpoint drop_non_digits (s : string) : string :=
  match s with
  | EmptyString => EmptyString
  | String a s' => if is_digit a then s else drop_non_digits s'
  end.

Fixpoint take_digits (s : string) : string * string :=
  match s with
  | EmptyString => (EmptyString, EmptyString)
  | String a s' =>
      if is_digit a
      then let '(ds, rest) := take_digits s' in (String a ds, rest)
      else (EmptyString, s)
  end.

(** The first run of digits of [s], as [re.search] / [str.extract] with
    the digit pattern and [int] read it; [None] when [s] has no digit. *)
Definition extract_int (s : string) : option Z :=
  parse_number (take_digits (drop_non_digits s)).1.

(** The first decimal number of [s] (digits, then optionally a point and
    more digits), as [str.extract] with the water-temperature pattern and
    [float] read it. *)
Definition extract_decimal (s : string) : option Q :=
  let '(ip, rest) := take_digits (drop_non_digits s) in
  match parse_number ip with
  | None => None
  | Some i =>
      match rest with
      | String "." rest' =>
          let fp := (take_digits rest').1 in
          match parse_digits 0 fp with
          | Some f =>
              Some (Qred (inject_Z i
                          + inject_Z f / inject_Z (10 ^ Z.of_nat (String.length fp))))
          | None => Some (inject_Z i)
          end
      | _ => Some (inject_Z i)
      end
  end.

(** [s.strip()], on ASCII blanks. *)
Definition is_blank (a : ascii) : bool :=
  bool_decide (nat_of_ascii a ∈ [32; 9; 10; 13; 11; 12]%nat).

Fixpoint lstrip (s : string) : string :=
  match s with
  | EmptyString => EmptyString
  | String a s' => if is_blank a then lstrip s' else s
  end.

Fixpoint rstrip (s : string) : string :=
  match s with
  | EmptyString => EmptyString
  | String a s' =>
      match rstrip s' with
      | EmptyString => if is_blank a then EmptyString
                       else String a EmptyString
      | t => String a t
      end
  end.

Definition strip_spaces (s : string) : string := rstrip (lstrip s).

(** [s.lower()], on the ASCII letters. *)
Definition lower_char (a : ascii) : ascii :=
  let n := nat_of_ascii a in
  if ((65 <=? n) && (n <=? 90))%nat then ascii_of_nat (n + 32) else a.

Fixpoint lower (s : string) : string :=
  match s with
  | EmptyString => EmptyString
  | String a s' => String (lower_char a) (lower s')
  end.

(** ** Calendar dates *)

Record date := Date { year : Z; month : Z; day : Z }.

(** Days since 1970-01-01 in the proleptic Gregorian calendar. *)
Definition days_from_civil (d : date) : Z :=
  let y := if month d <=? 2 then year d - 1 else year d in
  let era := y / 400 in
  let yoe := y - era * 400 in
  let mp := (month d + 9) mod 12 in
  let doy := (153 * mp + 2) / 5 + day d - 1 in
  let doe := yoe * 365 + yoe / 4 - yoe / 100 + doy in
  era * 146097 + doe - 719468.

(** [datetime.weekday()] / [dt.dayofweek]: Monday is 0, Sunday is 6. *)
Definition weekday (d : date) : Z := (days_from_civil d + 3) mod 7.

(** The date parsers are library code and stay abstract:
    [strptime_slash s] is [datetime.strptime(s, '%Y/%m/%d')] and
    [strptime_dash s] is [datetime.strptime(s, '%Y-%m-%d')]; [None] when
    they raise. *)
Class DateLib := {
  strptime_slash : string -> option date;
  strptime_dash : string -> option date
}.

(** The pandas conversions, abstract as well: [to_datetime s] is
    [pd.to_datetime(s, errors='coerce')] and [to_numeric s] is
    [pd.to_numeric(s, errors='coerce')], [None] being NaT / NaN;
    [series_std l] is [Series.std()] (sample deviation), NaN on fewer
    than two values. *)
Class Pandas := {
  to_datetime : string -> option date;
  to_numeric : string -> option Q;
  series_std : list Q -> option Q
}.

(** [min] and [max] of a non-empty sequence of rationals. *)
Definition Qmin_list (x : Q) (l : list Q) : Q :=
  foldl (fun m y => if Qle_bool y m then y else m) x l.

Definition Qmax_list (x : Q) (l : list Q) : Q :=
  foldl (fun m y => if Qle_bool m y then y else m) x l.

(** [s.replace(a, b)] for single characters. *)
Fixpoint replace_char (a b : ascii) (s : string) : string :=
  match s with
  | EmptyString => EmptyString
  | String c s' =>
      String (if Ascii.eqb c a then b else c) (replace_char a b s')
  end.



(** [sorted(names)] on strings: ascending by code point. *)
Fixpoint insert_string (x : string) (l : list string) : list string :=
  match l with
  | [] => [x]
  | y :: l' => if String.leb x y then x :: l else y :: insert_string x l'
  end.

Definition sorted_strings (l : list string) : list string :=
  foldr insert_string [] l.

(** The distinct values of an integer key, ascending (the group keys of
    [groupby]). *)
Fixpoint insert_Z (k : Z) (ks : list Z) : list Z :=
  match ks with
  | [] => [k]
  | k' :: ks' =>
      if k =? k' then ks
      else if k <? k' then k :: ks
      else k' :: insert_Z k ks'
  end.

Definition group_keys (ks : list Z) : list Z := foldr insert_Z [] ks.

End Py.

(* ===================================================================== *)
(** * ml/models.py, [AjiPredictor.fit]: the chronological split *)
(* ===================================================================== *)

Module Split.

(** [train_size = int(len(X) * (1 - validation_split))] *)
Definition train_size (n : nat) (validation_split : float) : option Z :=
  Py.int_of_float
    (PrimFloat.mul (Py.float_of_int (Z.of_nat n))
                   (PrimFloat.sub 1%float validation_split)).

Record partition (R T : Type) := Partition {
  X_train : list R;
  X_val   : list R;
  y_train : list T;
  y_val   : list T
}.
Arguments Partition {R T}.
Arguments X_train {R T}.
Arguments X_val {R T}.
Arguments y_train {R T}.
Arguments y_val {R T}.

(** Lines 105-109 of [fit]: the four [iloc] slices. [None] is the
    exception [int] raises on a non-finite product. *)
Definition fit_partition {R T} (X : list R) (y : list T)
    (validation_split : float) : option (partition R T) :=
  match train_size (length X) validation_split with
  | Some k =>
      Some (Partition (Py.slice_to X k) (Py.slice_from X k)
                      (Py.slice_to y k) (Py.slice_from y k))
  | None => None
  end.

(** What the specification's sentence computes, over the exact decimal. *)
Definition spec_train_size (n : nat) (f : Q) : Z :=
  Qfloor (inject_Z (Z.of_nat n) * (1 - f)).

(** The decimals 0.9 and 0.2 as Python reads them. *)
Definition f09 : float := Py.float_of_Q (9 # 10).
Definition f02 : float := Py.float_of_Q (2 # 10).

End Split.

(* ===================================================================== *)
(** * ml/models.py: [AjiPredictor] and the model directory *)
(* ===================================================================== *)

Module Model.

Open Scope string_scope.

(** Points in time are integers on one timeline (file times, the clock,
    parsed file-name stamps). The two library conversions are kept
    abstract: [strptime s] is [datetime.strptime(s, '%Y%m%d_%H%M%S')]
    ([None] when it raises) and [strftime t] is
    [t.strftime('%Y%m%d_%H%M%S')]. *)
Class TimeLib := {
  strptime : string -> option Z;
  strftime : Z -> string
}.

(** The regressor library (scikit-learn, XGBoost): a model object and its
    [predict], one value per row, which may raise. *)
Class Regression := {
  Regressor : Type;
  raw_predict : Regressor -> list (list Q) -> Py.result (list Q)
}.

Section Predictor.
Context `{TL : TimeLib} `{RG : Regression}.
Variable History : Type.

(** The attributes of an [AjiPredictor] instance. *)
Record predictor := Predictor {
  model_type : string;
  model : Regressor;
  feature_columns : option (list string);
  is_trained : bool;
  model_dir : string;
  training_history : History
}.

(** The dict [save_model] pickles, and what a file may hold. *)
Record model_data := ModelData {
  md_model : Regressor;
  md_model_type : string;
  md_feature_columns : option (list string);
  md_training_history : History;
  md_is_trained : bool
}.

Inductive blob : Type :=
  | PickleBundle (d : model_data)
  | PickleObject (m : Regressor)
  | Garbage.

(** [f_ctime] is what [os.path.getctime] reports, [f_mtime] what
    [os.path.getmtime] reports; [f_locked] tells that [os.remove] raises
    on the file (no permission, or held open elsewhere). *)
Record file := File {
  f_content : blob;
  f_ctime : Z;
  f_mtime : Z;
  f_locked : bool
}.

(** The argument of [predict]: a DataFrame with named columns, or a bare
    array. *)
Inductive matrix : Type :=
  | DataFrame (columns : list string) (rows : list (list Q))
  | NdArray (rows : list (list Q)).

Fixpoint column_index (columns : list string) (c : string) : option nat :=
  match columns with
  | [] => None
  | c' :: cs => if String.eqb c' c then Some O else S <$> column_index cs c
  end.

(** [X[cols]] on a DataFrame: the named columns in the order asked for;
    KeyError when one is absent (column names taken distinct). *)
Definition select_columns (columns : list string) (rows : list (list Q))
    (cols : list string) : Py.result (list (list Q)) :=
  idx ← mapM (M := Py.result)
         (fun c => Py.of_option (column_index columns c) (Py.KeyError c)) cols;
  Py.Ok (map (fun row : list Q => omap (M := list) (fun i => row !! i) idx) rows).

Definition string_list_eqb (a b : list string) : bool :=
  bool_decide (a = b).

(** [np.maximum(predictions, 0)] *)
Definition clip0 (x : Q) : Q := if Qle_bool 0 x then x else 0%Q.

(** [AjiPredictor.predict] *)
Definition predict (p : predictor) (X : matrix) : Py.result (list Q) :=
  if negb (is_trained p)
  then Py.Raise (Py.ValueError "モデルが訓練されていません。先にfit()を実行してください")
  else
    rows ← match X with
           | DataFrame columns rows =>
               match feature_columns p with
               | Some fc =>
                   if string_list_eqb columns fc then Py.Ok rows
                   else select_columns columns rows fc
               | None => Py.Raise (Py.KeyError "None")
               end
           | NdArray rows => Py.Ok rows
           end;
    predictions ← raw_predict (model p) rows;
    Py.Ok (map clip0 predictions).

(** [AjiPredictor.predict_single] *)
Definition predict_single (p : predictor)
    (month season weather temp tide visitors : Q) : Py.result Q :=
  predictions ←
    predict p (NdArray [[month; season; weather; temp; tide; visitors]]);
  Py.of_option (head predictions) Py.IndexError.

(** [glob.glob(os.path.join(model_dir, f"aji_{model_type}_*.pkl"))]:
    the entries of the directory whose name starts with the kind's prefix
    and ends in [.pkl] (the kind tags hold no wildcard character). The
    listing comes in the order of the directory, which is arbitrary. *)
Definition glob_match (dir kind path : string) : bool :=
  match Py.strip_prefix (dir ++ "/") path with
  | Some name =>
      negb (Py.contains_char "/" name)
      && Py.starts_with ("aji_" ++ kind ++ "_") name
      && Py.ends_with ".pkl" name
      && (String.length ("aji_" ++ kind ++ "_") + 4 <=? String.length name)%nat
  | None => false
  end.

Definition glob (fs : gmap string file) (dir kind : string)
    : list (string * file) :=
  filter (fun e => glob_match dir kind e.1 = true) (map_to_list fs).

(** [extract_datetime], the sort key of [cleanup_old_models]: the stamp in
    the file name, or the file's ctime when anything in the [try] raises
    (fewer than two [_]-separated parts, or an unparsable stamp). *)
Definition filename_stamp (filepath : string) : option Z :=
  let parts := Py.split_on "_" (Py.basename filepath) in
  match Py.nth_last parts 1, Py.nth_last parts 0 with
  | Some a, Some b => strptime (a ++ "_" ++ Py.remove_all ".pkl" b)
  | _, _ => None
  end.

Definition extract_datetime (e : string * file) : Z :=
  match filename_stamp e.1 with
  | Some t => t
  | None => f_ctime e.2
  end.

(** The retention key as the specification words it: the stamp in the
    file name, or the file's modification time. *)
Definition spec_extract_datetime (e : string * file) : Z :=
  match filename_stamp e.1 with
  | Some t => t
  | None => f_mtime e.2
  end.

Record cleanup_result := CleanupResult {
  deleted_files : list string;
  kept_files : list string
}.

(** [os.remove] inside [try/except]: on a file that is no longer there,
    or that is locked, it raises; the exception is caught, the file is
    left out of [deleted_files], and the loop goes on. *)
Definition remove_files (fs : gmap string file) (paths : list string)
    : list string * gmap string file :=
  foldl (fun (acc : list string * gmap string file) path =>
           match acc.2 !! path with
           | Some f =>
               if f_locked f then acc
               else ((acc.1 ++ [Py.basename path])%list, delete path acc.2)
           | None => acc
           end)
        ([], fs) paths.

(** [AjiPredictor.cleanup_old_models] *)
Definition cleanup_old_models (p : predictor) (fs : gmap string file)
    (keep_count : Z) : cleanup_result * gmap string file :=
  let model_files := glob fs (model_dir p) (model_type p) in
  if (Z.of_nat (length model_files) <=? keep_count)%Z
  then (CleanupResult [] (model_files.*1), fs)
  else
    let sorted := Py.sort_desc extract_datetime model_files in
    let files_to_keep := Py.slice_to sorted keep_count in
    let files_to_delete := Py.slice_from sorted keep_count in
    let '(deleted, fs') := remove_files fs (files_to_delete.*1) in
    (CleanupResult deleted (map Py.basename (files_to_keep.*1)), fs').

(** [AjiPredictor.save_model]; [now] is the clock reading of the call. *)
Definition save_model (p : predictor) (fs : gmap string file) (now : Z)
    (filename : option string) : Py.result string * gmap string file :=
  if negb (is_trained p)
  then (Py.Raise (Py.ValueError "訓練されていないモデルは保存できません"), fs)
  else
    let filename :=
      match filename with
      | None => "aji_" ++ model_type p ++ "_" ++ strftime now ++ ".pkl"
      | Some f => f
      end in
    let filepath := Py.path_join (model_dir p) filename in
    let data := ModelData (model p) (model_type p) (feature_columns p)
                          (training_history p) (is_trained p) in
    let fs1 := <[filepath := File (PickleBundle data) now now false]> fs in
    let '(_, fs2) := cleanup_old_models p fs1 2 in
    (Py.Ok filepath, fs2).

(** [AjiPredictor.load_model]: the flag it returns and the instance
    afterwards. The five attributes are assigned before
    [len(self.feature_columns)] is printed, which raises on [None]. *)
Definition load_model (q : predictor) (fs : gmap string file)
    (filepath : string) : bool * predictor :=
  match fs !! filepath with
  | None => (false, q)
  | Some f =>
      match f_content f with
      | PickleBundle d =>
          let q' := Predictor (md_model_type d) (md_model d)
                              (md_feature_columns d) (md_is_trained d)
                              (model_dir q) (md_training_history d) in
          (bool_decide (is_Some (md_feature_columns d)), q')
      | PickleObject _ => (false, q)
      | Garbage => (false, q)
      end
  end.

End Predictor.

End Model.

(* ===================================================================== *)
(** * Weather text normalisation (three tables) *)
(* ===================================================================== *)

Module Weather.

Open Scope string_scope.

(** api/visitor_analysis.py, [VisitorAnalyzer.weather_mapping]. *)
Definition weather_mapping : list (string * string) :=
  [ ("晴れ", "sunny"); ("曇り", "cloudy"); ("雨", "rainy"); ("雪", "snowy");
    ("快晴", "sunny"); ("薄曇り", "cloudy"); ("小雨", "rainy");
    ("大雨", "rainy"); ("暴風雨", "rainy");
    ("曇り時々晴れ", "cloudy");
    ("晴れのち曇り", "sunny");
    ("曇りのち雨", "rainy");
    ("雨のち晴れ", "sunny");
    ("雨のち曇り", "cloudy");
    ("曇りのち晴れ一時雨", "cloudy");
    ("曇りのち晴れ", "sunny");
    ("雨一時曇り", "rainy");
    ("雨時々曇り", "rainy");
    ("雨のち曇り時々晴れ", "cloudy");
    ("晴れのち雨", "rainy");
    ("曇り時々雨", "rainy") ].

(** [_clean_data]: [df['天気'].map(self.weather_mapping)] followed by
    [fillna('cloudy')]. *)
Definition visitor_weather (raw : string) : string :=
  default "cloudy" (Py.dict_get weather_mapping raw).

(** ml/feature_engineering.py, [encode_categorical_features]. *)
Definition feature_weather_mapping : list (string * Z) :=
  [ ("晴れ", 0); ("晴", 0); ("曇り", 1); ("曇", 1); ("雨", 2); ("雪", 3) ].

(** [df['天気'].map(weather_mapping)] followed by [fillna(1)]. *)
Definition encode_weather (raw : string) : Z :=
  default 1 (Py.dict_get feature_weather_mapping raw).

(** api/predict.py, [FishingPredictor.map_weather] and the
    [weather_encoding] table of [predict_aji]. *)
Definition map_weather (weather : string) : string :=
  default "cloudy"
    (Py.dict_get
       [ ("晴れ", "sunny"); ("快晴", "sunny"); ("曇り", "cloudy");
         ("薄曇り", "cloudy"); ("雨", "rainy"); ("小雨", "rainy");
         ("雪", "snowy") ] weather).

Definition weather_encoding : list (string * Z) :=
  [ ("sunny", 0); ("cloudy", 1); ("rainy", 2); ("snowy", 3) ].

Definition weather_encoded (weather : string) : Z :=
  default 1 (Py.dict_get weather_encoding (map_weather weather)).

(** The compound phrase of the specification's example. *)
Definition cloudy_then_sunny : string := "曇りのち晴れ".

End Weather.

(* ===================================================================== *)
(** * api/visitor_analysis.py: [VisitorAnalyzer] *)
(* ===================================================================== *)

Module Visitors.

Open Scope string_scope.

Definition weekday_names : list (Z * string) :=
  [ (0, "monday"); (1, "tuesday"); (2, "wednesday"); (3, "thursday");
    (4, "friday"); (5, "saturday"); (6, "sunday") ]%Z.

Definition weekday_name (n : Z) : option string :=
  (list_find (fun e : Z * string => e.1 = n) weekday_names) ≫=
    fun r => Some r.2.2.

Definition weather_types : list string :=
  [ "sunny"; "cloudy"; "rainy"; "snowy" ].

Definition weekday_types : list string :=
  [ "monday"; "tuesday"; "wednesday"; "thursday"; "friday"; "saturday";
    "sunday" ].

(** [_estimate_missing_pattern]: the two factor tables and the baseline. *)
Definition weekday_factors : list (string * Q) :=
  [ ("monday", 8 # 10); ("tuesday", 85 # 100); ("wednesday", 9 # 10);
    ("thursday", 95 # 100); ("friday", 1); ("saturday", 13 # 10);
    ("sunday", 125 # 100) ]%Q.

Definition weather_factors : list (string * Q) :=
  [ ("sunny", 11 # 10); ("cloudy", 1); ("rainy", 7 # 10);
    ("snowy", 5 # 10) ]%Q.

Definition baseline : Q := 300.

(** A ledger row as the sheet gives it, and a row of the cleaned frame
    (columns 日付, 天気英語, 曜日英語, 来場者数). *)
Record raw_row := RawRow {
  raw_date : string;
  raw_weather : string;
  raw_visitors : string
}.

Record row := Row {
  r_date : Py.date;
  r_weather : string;
  r_weekday : string;
  r_visitors : Q
}.

(** One entry of the [averages] dict; [estimated] is the key that only
    estimated cells carry. *)
Record cell := Cell {
  average : Q;
  std : Q;
  count : Z;
  cell_min : Z;
  cell_max : Z;
  estimated : bool
}.

Record statistics := Statistics {
  total_records : Z;
  date_range : option (Py.date * Py.date);
  weather_counts : list (string * Z);
  weekday_counts : list (string * Z);
  pattern_counts : list (string * Z);
  overall_average : option Q;
  stat_status : option string;
  error_message : option string
}.

Record averages_result := AveragesResult {
  averages : list (string * cell);
  stats : statistics;
  status : string
}.

(** The dict [get_visitor_estimate] returns; keys that a branch does not
    set are [None]. *)
Record estimate := Estimate {
  e_date : string;
  e_weather : string;
  e_weekday : option string;
  estimated_visitors : Q;
  data_count : option Z;
  confidence : string;
  pattern_key : option string;
  error : option string
}.

Definition pattern (weather weekday : string) : string :=
  weather ++ "_" ++ weekday.

(** [_estimate_missing_pattern(weather, weekday, existing_averages)] *)
Definition _estimate_missing_pattern (weather weekday : string)
    (existing_averages : list (string * cell)) : Q :=
  let same_weather_avgs :=
    omap (M := list)
      (fun e : string * cell =>
         if Py.starts_with (weather ++ "_") e.1 && (0 <? count e.2)%Z
         then Some (average e.2) else None)
      existing_averages in
  let base_avg :=
    match same_weather_avgs with
    | [] => baseline
    | _ => Py.mean same_weather_avgs
    end in
  Py.round1
    (base_avg
     * default 1%Q (Py.dict_get weekday_factors weekday)
     * default 1%Q (Py.dict_get weather_factors weather))%Q.

(** [_get_fallback_averages] *)
Definition _get_fallback_averages : averages_result :=
  AveragesResult []
    (Statistics 0 None [] [] [] None (Some "error")
       (Some "データ取得に失敗しました"))
    "error".

Definition count_where (f : row -> string) (df : list row) (v : string)
    : option (string * Z) :=
  let n := length (filter (fun r => f r = v) df) in
  if (n =? 0)%nat then None else Some (v, Z.of_nat n).

Definition date_key (r : row) : Z := Py.days_from_civil (r_date r).

Definition frame_date_range (df : list row) : option (Py.date * Py.date) :=
  match df with
  | [] => None
  | r :: rest =>
      Some (r_date (foldl (fun m x => if (date_key x <? date_key m)%Z
                                      then x else m) r rest),
            r_date (foldl (fun m x => if (date_key m <? date_key x)%Z
                                      then x else m) r rest))
  end.

Section Analyzer.
Context `{PD : Py.Pandas} `{DL : Py.DateLib}.

(** [_clean_data], on the three columns it needs. *)
Definition _clean_data (records : list raw_row) : list row :=
  omap (M := list)
    (fun r =>
       d ← Py.to_datetime
             (Py.remove_any
                [ "(月)"; "(火)"; "(水)"; "(木)"; "(金)"; "(土)"; "(日)" ]
                (raw_date r));
       wd ← weekday_name (Py.weekday d);
       v ← Py.to_numeric (Py.remove_any [ "名"; "人" ] (raw_visitors r));
       if Qle_bool 0 v && Qle_bool v 2000
       then Some (Row d (Weather.visitor_weather (raw_weather r)) wd v)
       else None)
    records.

(** [fetch_latest_data]: [None] is a sheet that cannot be read (no
    connection, or the read raises); the result is then the empty
    frame. *)
Definition fetch_latest_data (sheet : option (list raw_row)) : list row :=
  match sheet with
  | Some records => _clean_data records
  | None => []
  end.

(** The body of the double loop of [calculate_visitor_averages] for one
    pattern, on the dicts built so far. *)
Definition add_pattern (df : list row)
    (acc : list (string * cell) * list (string * Z))
    (wk : string * string) : list (string * cell) * list (string * Z) :=
  let '(weather, weekday) := wk in
  let filtered_data :=
    filter (fun r => r_weather r = weather /\ r_weekday r = weekday) df in
  let key := pattern weather weekday in
  match r_visitors <$> filtered_data with
  | v :: vs =>
      let n := Z.of_nat (length (v :: vs)) in
      (acc.1 ++ [ (key,
                   Cell (Py.round1 (Py.mean (v :: vs)))
                        (match Py.series_std (v :: vs) with
                         | Some s => Py.round1 s
                         | None => 0%Q
                         end)
                        n
                        (Py.int_of_Q (Py.Qmin_list v vs))
                        (Py.int_of_Q (Py.Qmax_list v vs))
                        false) ],
       acc.2 ++ [ (key, n) ])%list
  | [] =>
      let estimated_avg := _estimate_missing_pattern weather weekday acc.1 in
      ((acc.1 ++ [ (key, Cell estimated_avg 0 0 0 0 true) ])%list, acc.2)
  end.

Definition patterns : list (string * string) :=
  weather ← weather_types; weekday ← weekday_types; [ (weather, weekday) ].

(** [calculate_visitor_averages]; [calculation_time] is left out. *)
Definition calculate_visitor_averages (sheet : option (list raw_row))
    : averages_result :=
  let df := fetch_latest_data sheet in
  match df with
  | [] => _get_fallback_averages
  | _ =>
      let '(avgs, pcounts) := foldl (add_pattern df) ([], []) patterns in
      AveragesResult avgs
        (Statistics (Z.of_nat (length df)) (frame_date_range df)
           (omap (M := list) (count_where r_weather df) weather_types)
           (omap (M := list) (count_where r_weekday df) weekday_types)
           pcounts
           (Some (Py.round1 (Py.mean (r_visitors <$> df))))
           None None)
        "success"
  end.

(** [get_visitor_estimate] *)
Definition get_visitor_estimate (sheet : option (list raw_row))
    (date weather : string) : estimate :=
  Py.try_except
    (target_date ← Py.of_option (Py.strptime_dash date)
                      (Py.ValueError "time data does not match format");
     weekday_name ← Py.of_option (weekday_name (Py.weekday target_date))
                       (Py.KeyError "weekday");
     let averages_data := calculate_visitor_averages sheet in
     let key := pattern weather weekday_name in
     let pattern_data :=
       default (Cell 300 0 0 0 0 false)
               (Py.dict_get (averages averages_data) key) in
     Py.Ok (Estimate date weather (Some weekday_name)
              (average pattern_data) (Some (count pattern_data))
              (if (5 <=? count pattern_data)%Z then "high"
               else if (2 <=? count pattern_data)%Z then "medium"
               else "low")
              (Some key) None))
    (fun e =>
       Estimate date weather None 300 None "low" None
         (Some (Py.exn_message e))).

(** The estimate for a cell as the specification words it: the average of
    the observed means of the cells of the finished table that share the
    weather, or the baseline when there is none, times the two
    factors. *)
Definition spec_estimate (table : list (string * cell))
    (weather weekday : string) : Q :=
  _estimate_missing_pattern weather weekday table.

End Analyzer.

End Visitors.

(* ===================================================================== *)
(** * api/historical.py: the historical query *)
(* ===================================================================== *)

Module Historical.

Open Scope string_scope.

(** A row of the sheet (columns 日付, 天気, 水温, 潮, 来場者数, 魚種, 釣果数,
    サイズ, 釣り場, コメント), every cell as text, and the row of the frame
    [load_fishing_data] returns. *)
Record raw_record := RawRecord {
  raw_date : string;
  raw_weather : string;
  raw_water_temp : string;
  raw_tide : string;
  raw_visitors : string;
  raw_fish : string;
  raw_catch : string;
  raw_size : string;
  raw_place : string;
  raw_comment : string
}.

Record record := FishingRecord {
  date : Py.date;
  weather : string;
  water_temp : option Q;
  tide : string;
  visitors : Z;
  fish : string;
  catch : Q;
  size : string;
  place : string;
  comment : string
}.

Definition date_key (r : record) : Z := Py.days_from_civil (date r).

(** [strftime('%Y-%m-%d')] and [str(date.to_period('M'))]. *)
Definition format_date (d : Py.date) : string :=
  Py.digits 4 (Py.year d) ++ "-" ++ Py.digits 2 (Py.month d) ++ "-"
  ++ Py.digits 2 (Py.day d).

Definition format_month (d : Py.date) : string :=
  Py.digits 4 (Py.year d) ++ "-" ++ Py.digits 2 (Py.month d).

(** One entry of [records] in the response. *)
Record out_record := OutRecord {
  o_date : string;
  o_weather : string;
  o_water_temp : option Q;
  o_tide : string;
  o_visitors : Z;
  o_fish : string;
  o_catch : Z;
  o_size : string;
  o_place : string;
  o_comment : string
}.

Definition to_out (r : record) : out_record :=
  OutRecord (format_date (date r)) (weather r) (water_temp r) (tide r)
            (visitors r) (fish r) (Py.int_of_Q (catch r)) (size r) (place r)
            (comment r).

(** [groupby(key)['釣果数'].agg(['count', 'sum', 'mean']).round(1)]:
    one line per key, keys ascending. *)
Record group_stats := GroupStats {
  days : Z;
  total_catch : Z;
  avg_catch : Q
}.

Fixpoint insert_key (k : string) (ks : list string) : list string :=
  match ks with
  | [] => [k]
  | k' :: ks' =>
      if String.eqb k k' then ks
      else if String.ltb k k' then k :: ks
      else k' :: insert_key k ks'
  end.

Definition group_by (key : record -> string) (df : list record)
    : list (string * group_stats) :=
  map (fun k =>
         let g := catch <$> filter (fun r => key r = k) df in
         (k, GroupStats (Z.of_nat (length g))
                        (Py.int_of_Q (Py.round1 (Py.Qsum g)))
                        (Py.round1 (Py.mean g))))
      (foldr insert_key [] (key <$> df)).

Inductive summary : Type :=
  | NoMatch
  | Summary (total_records original_records : Z)
            (total max_catch min_catch : Z) (avg : Q)
            (date_range : string * string)
            (by_month by_fish_type by_weather : list (string * group_stats)).

(** [generate_summary] *)
Definition generate_summary (df : list record) (original_count : Z)
    : summary :=
  match df with
  | [] => NoMatch
  | r :: rest =>
      let cs := catch <$> df in
      let oldest := foldl (fun m x => if (date_key x <? date_key m)%Z
                                      then x else m) r rest in
      let newest := foldl (fun m x => if (date_key m <? date_key x)%Z
                                      then x else m) r rest in
      Summary (Z.of_nat (length df)) original_count
              (Py.int_of_Q (Py.Qsum cs))
              (Py.int_of_Q (Py.Qmax_list (catch r) (catch <$> rest)))
              (Py.int_of_Q (Py.Qmin_list (catch r) (catch <$> rest)))
              (Py.round1 (Py.mean cs))
              (format_date (date oldest), format_date (date newest))
              (group_by (fun x => format_month (date x)) df)
              (group_by fish df)
              (group_by weather df)
  end.

(** The response of [get_historical_data]. *)
Inductive response : Type :=
  | Success (records : list out_record) (total_count returned_count : Z)
            (summary_ : summary)
  | Failure (error : string).

Section Query.
Context `{PD : Py.Pandas} `{DL : Py.DateLib}.

(** [load_fishing_data]. [sheet] is [None] when the ledger cannot be
    reached. The visitor column is converted with [astype(int)] as a
    whole, which raises as soon as one cell has no digit; dates and catch
    counts are coerced, and rows without them are dropped. *)
Definition load_fishing_data (sheet : option (list raw_record))
    : Py.result (list record) :=
  data ← Py.of_option sheet (Py.ValueError "Google Sheets client failed");
  match data with
  | [] => Py.Raise (Py.ValueError "釣果データが空です")
  | _ =>
      visitor_column ←
        mapM (M := Py.result)
          (fun r => Py.of_option (Py.extract_int (raw_visitors r))
                      Py.nan_to_int)
          data;
      Py.Ok
        (omap (M := list)
           (fun rv : raw_record * Z =>
              let r := rv.1 in
              d ← Py.strptime_slash
                    (default "" (head (Py.split_on "(" (raw_date r))));
              c ← Py.to_numeric (raw_catch r);
              if Qle_bool 0 c
              then Some (FishingRecord d (raw_weather r)
                           (Py.extract_decimal (raw_water_temp r))
                           (raw_tide r) rv.2 (raw_fish r) c (raw_size r)
                           (raw_place r) (raw_comment r))
              else None)
           (zip data visitor_column))
  end.

(** An optional text filter: [None] and the empty string switch it
    off. *)
Definition given (o : option string) : option string :=
  match o with
  | Some "" => None
  | _ => o
  end.

(** The filters of [get_historical_data], up to the sort. Records of one
    date stay in ledger order; pandas leaves their order open. *)
Definition filtered_records (df : list record) (fish_ : string)
    (start_date end_date weather_ tide_ : option string)
    : Py.result (list record) :=
  let df1 :=
    if negb (String.eqb fish_ "") && negb (String.eqb (Py.lower fish_) "all")
    then filter (fun r => fish r = fish_) df else df in
  df2 ← match given start_date with
        | Some s =>
            start_dt ← Py.of_option (Py.to_datetime s)
                          (Py.ValueError "Unknown datetime string format");
            Py.Ok (filter (fun r => Py.days_from_civil start_dt
                                    <= date_key r)%Z df1)
        | None => Py.Ok df1
        end;
  df3 ← match given end_date with
        | Some s =>
            end_dt ← Py.of_option (Py.to_datetime s)
                        (Py.ValueError "Unknown datetime string format");
            Py.Ok (filter (fun r => date_key r
                                    <= Py.days_from_civil end_dt)%Z df2)
        | None => Py.Ok df2
        end;
  let df4 := match given weather_ with
             | Some w => filter (fun r => weather r = w) df3
             | None => df3
             end in
  let df5 := match given tide_ with
             | Some t => filter (fun r => tide r = t) df4
             | None => df4
             end in
  Py.Ok (Py.sort_desc date_key df5).

(** [get_historical_data] *)
Definition get_historical_data (sheet : option (list raw_record))
    (fish_ : string) (start_date end_date : option string) (limit : Z)
    (weather_ tide_ : option string) : response :=
  Py.try_except
    (df ← load_fishing_data sheet;
     let original_count := Z.of_nat (length df) in
     filtered_df ←
       filtered_records df fish_ start_date end_date weather_ tide_;
     let display_df := Py.slice_to filtered_df limit in
     let records := to_out <$> display_df in
     Py.Ok (Success records (Z.of_nat (length filtered_df))
                    (Z.of_nat (length records))
                    (generate_summary filtered_df original_count)))
    (fun e => Failure (Py.exn_message e)).

End Query.

End Historical.

(* ===================================================================== *)
(** * ml/data_loader.py: [FishingDataLoader._preprocess_fishing_data] *)
(* ===================================================================== *)

Module DataLoader.

(** The columns the preprocessing adds: 日付_parsed, 釣果数, 水温_数値,
    来場者数_数値. *)
Record row := Row {
  raw : Historical.raw_record;
  date_parsed : Py.date;
  catch : Q;
  water_temp_value : option Q;
  visitors_value : option Z
}.

Section Loader.
Context `{PD : Py.Pandas} `{DL : Py.DateLib}.

(** [_parse_date]: the text before the first parenthesis; NaT on
    failure. *)
Definition _parse_date (date_str : string) : option Py.date :=
  Py.strptime_slash
    (Py.strip_spaces (default ""%string (head (Py.split_on "(" date_str)))).

(** [_extract_temperature]: the number the first match of the pattern
    denotes, as an exact rational. [float(match.group(1))] is the
    binary64 nearest to it: the same number whenever binary64 holds it
    exactly (whole and half degrees, for instance), and of the same sign
    always. Digits are the ASCII ones. *)
Definition _extract_temperature (temp_str : string) : option Q :=
  Py.extract_decimal temp_str.

Definition _extract_visitor_count (visitor_str : string) : option Z :=
  Py.extract_int visitor_str.

(** [_preprocess_fishing_data]: each field is converted on its own row,
    and only rows without a date are dropped. *)
Definition _preprocess_fishing_data (df : list Historical.raw_record)
    : list row :=
  omap (M := list)
    (fun r =>
       d ← _parse_date (Historical.raw_date r);
       Some (Row r d
               (default 0%Q (Py.to_numeric (Historical.raw_catch r)))
               (_extract_temperature (Historical.raw_water_temp r))
               (_extract_visitor_count (Historical.raw_visitors r))))
    df.

End Loader.

End DataLoader.

(* ===================================================================== *)
(** * api/predict.py: [FishingPredictor.predict_aji] *)
(* ===================================================================== *)

Module Api.

Open Scope string_scope.

Section FishingPredictor.
Context `{DL : Py.DateLib} `{RG : Model.Regression}.

(** [self.model] is [None] when even the fallback model could not be
    built. *)
Record fishing_predictor := FishingPredictor {
  fp_model : option Model.Regressor;
  fp_feature_columns : option (list string)
}.

Definition get_season (month : Z) : string :=
  if bool_decide (month ∈ [12; 1; 2]%Z) then "winter"
  else if bool_decide (month ∈ [3; 4; 5]%Z) then "spring"
  else if bool_decide (month ∈ [6; 7; 8]%Z) then "summer"
  else "autumn".

Definition get_weekday_type (weekday : Z) : string :=
  if (weekday =? 6)%Z then "sunday"
  else if (weekday =? 5)%Z then "saturday"
  else "weekday".

Definition map_tide (tide : string) : string :=
  default "medium"
    (Py.dict_get
       [ ("大潮", "spring"); ("中潮", "medium"); ("小潮", "neap");
         ("長潮", "long"); ("若潮", "young") ] tide).

Definition season_encoding : list (string * Z) :=
  [ ("spring", 0); ("summer", 1); ("autumn", 2); ("winter", 3) ]%Z.

Definition tide_encoding : list (string * Z) :=
  [ ("spring", 0); ("medium", 1); ("neap", 2); ("long", 3); ("young", 4) ]%Z.

(** [_calculate_confidence] *)
Definition _calculate_confidence (prediction : Q) : string :=
  if Qle_bool prediction 200 then
    if Qle_bool prediction 50 then "Low" else "Medium"
  else "High".

Inductive response : Type :=
  | Success (catch_count : Z) (confidence : string)
            (season weekday_type : string)
  | Failure (error : string).

(** [predict_aji]; the whole body sits in one [try], so every exception
    becomes a [Failure]. The advisory texts of [_get_recommendations] are
    left out of the response. *)
Definition predict_aji (fp : fishing_predictor) (date weather : string)
    (visitors : Z) (water_temp : Q) (tide : string) : response :=
  match fp_model fp with
  | None => Failure "予測モデルが読み込まれていません"
  | Some m =>
      Py.try_except
        (date_obj ← Py.of_option (Py.strptime_slash date)
                       (Py.ValueError "time data does not match format");
         let month := Py.month date_obj in
         let weekday := Py.weekday date_obj in
         let season := get_season month in
         let weekday_type := get_weekday_type weekday in
         let season_encoded :=
           default 1%Z (Py.dict_get season_encoding season) in
         let weather_encoded := Weather.weather_encoded weather in
         let tide_encoded :=
           default 1%Z (Py.dict_get tide_encoding (map_tide tide)) in
         let features :=
           [ [ inject_Z month; inject_Z season_encoded;
               inject_Z weather_encoded; water_temp;
               inject_Z tide_encoded; inject_Z visitors ] ] in
         predictions ← Model.raw_predict m features;
         prediction ← Py.of_option (head predictions) Py.IndexError;
         let predicted_catch := Z.max 0 (Py.round_half_even prediction) in
         Py.Ok (Success predicted_catch (_calculate_confidence prediction)
                        season weekday_type))
        (fun _ => Failure "予測中にエラーが発生しました")
  end.

End FishingPredictor.

End Api.

(* ===================================================================== *)
(** * ml/feature_engineering.py: [AjiFishingFeatureEngineer] *)
(* ===================================================================== *)

Module Features.

Open Scope string_scope.

Definition target_species : string := "アジ".

(** [create_time_features.get_season] *)
Definition get_season (month : Z) : string :=
  if bool_decide (month ∈ [3; 4; 5]%Z) then "春"
  else if bool_decide (month ∈ [6; 7; 8]%Z) then "夏"
  else if bool_decide (month ∈ [9; 10; 11]%Z) then "秋"
  else "冬".

(** The tables of [encode_categorical_features]; the weather table is
    [Weather.feature_weather_mapping]. *)
Definition tide_mapping : list (string * Z) :=
  [ ("大潮", 0); ("中潮", 1); ("小潮", 2); ("長潮", 3); ("若潮", 4) ]%Z.

Definition season_mapping : list (string * Z) :=
  [ ("春", 0); ("夏", 1); ("秋", 2); ("冬", 3) ]%Z.

(** [df['潮'].map(tide_mapping)] followed by [fillna(1)]. *)
Definition encode_tide (raw : string) : Z :=
  default 1%Z (Py.dict_get tide_mapping raw).

(** [df['季節'].map(season_mapping)]: no default. *)
Definition encode_season (season : string) : option Z :=
  Py.dict_get season_mapping season.

(** One row of the daily frame [create_target_variable] returns: the
    date, the summed catch, and the first non-null value of each
    environment column on that date. *)
Record daily := Daily {
  d_date : Py.date;
  d_catch : Q;
  d_weather : string;
  d_temp : option Q;
  d_tide : string;
  d_visitors : option Z
}.

(** One row of the feature matrix (columns 月, 季節_エンコード,
    天気_エンコード, 水温, 潮_エンコード, 来場者数); only the two measured
    columns can be null. *)
Record feature_row := FeatureRow {
  f_month : Q;
  f_season : option Q;
  f_weather : Q;
  f_temp : option Q;
  f_tide : Q;
  f_visitors : option Q
}.

Definition first_some {A} (l : list (option A)) : option A :=
  head (omap (M := list) id l).

(** The mean of a column, skipping nulls; NaN on a column of nulls. *)
Definition column_mean (col : list (option Q)) : option Q :=
  match omap (M := list) id col with
  | [] => None
  | vs => Some (Py.mean vs)
  end.

(** [col.fillna(col.mean())] *)
Definition fill_column (col : list (option Q)) : list (option Q) :=
  match column_mean col with
  | Some m => map (fun o => Some (default m o)) col
  | None => col
  end.

Section Engineer.
Context `{PD : Py.Pandas} `{DL : Py.DateLib}.

(** [clean_date] and [pd.to_datetime(..., errors='coerce')]. *)
Definition parse_date (date_str : string) : option Py.date :=
  Py.to_datetime (default "" (head (Py.split_on "(" date_str))).

(** The rows of the target species with their parsed date; rows whose
    date is NaT leave the grouping. *)
Definition dated_rows (fishing_df : list DataLoader.row)
    : list (Py.date * DataLoader.row) :=
  omap (M := list)
    (fun r =>
       if String.eqb (Historical.raw_fish (DataLoader.raw r)) target_species
       then d ← parse_date (Historical.raw_date (DataLoader.raw r));
            Some (d, r)
       else None)
    fishing_df.

Definition day_of (e : Py.date * DataLoader.row) : Z :=
  Py.days_from_civil e.1.

(** [groupby('日付').agg(...)] for one date. *)
Definition aggregate_day (rows : list (Py.date * DataLoader.row)) (k : Z)
    : option daily :=
  match filter (fun e => day_of e = k) rows with
  | [] => None
  | e :: es =>
      let g := e :: es in
      Some (Daily e.1
              (Py.Qsum ((fun x => DataLoader.catch x.2) <$> g))
              (Historical.raw_weather (DataLoader.raw e.2))
              (first_some ((fun x => DataLoader.water_temp_value x.2) <$> g))
              (Historical.raw_tide (DataLoader.raw e.2))
              (first_some ((fun x => DataLoader.visitors_value x.2) <$> g)))
  end.

(** [create_target_variable]: one row per date, dates ascending;
    ValueError when the species has no row. *)
Definition create_target_variable (fishing_df : list DataLoader.row)
    : Py.result (list daily) :=
  match filter (fun r => Historical.raw_fish (DataLoader.raw r)
                         = target_species) fishing_df with
  | [] => Py.Raise (Py.ValueError "アジのデータが見つかりません")
  | _ =>
      let rows := dated_rows fishing_df in
      Py.Ok (omap (M := list) (aggregate_day rows)
               (Py.group_keys (day_of <$> rows)))
  end.

(** [create_time_features] and [encode_categorical_features] on one
    daily row. *)
Definition features_of (d : daily) : feature_row :=
  let month := Py.month (d_date d) in
  FeatureRow (inject_Z month)
             (inject_Z <$> encode_season (get_season month))
             (inject_Z (Weather.encode_weather (d_weather d)))
             (d_temp d)
             (inject_Z (encode_tide (d_tide d)))
             (inject_Z <$> d_visitors d).

(** [X.fillna(X.mean())] on the columns that can hold a null. *)
Definition fillna_mean (X : list feature_row) : list feature_row :=
  let seasons := fill_column (f_season <$> X) in
  let temps := fill_column (f_temp <$> X) in
  let visitors := fill_column (f_visitors <$> X) in
  zip_with
    (fun r (c : option Q * option Q * option Q) =>
       FeatureRow (f_month r) c.1.1 (f_weather r) c.1.2 (f_tide r) c.2)
    X (zip (zip seasons temps) visitors).

(** [create_features]: [None] is the pair [(None, None)] returned when
    the species has no row or no valid date. *)
Definition create_features (fishing_df : list DataLoader.row)
    : Py.result (option (list feature_row * list Q)) :=
  match dated_rows fishing_df with
  | [] => Py.Ok None
  | _ =>
      daily_aji ← create_target_variable fishing_df;
      Py.Ok (Some (fillna_mean (features_of <$> daily_aji),
                   d_catch <$> daily_aji))
  end.

End Engineer.

End Features.

(* ===================================================================== *)
(** * api/main.py: request preparation and accuracy figures *)
(* ===================================================================== *)

Module Main.

Open Scope string_scope.

(** The fields of a [PredictionRequest] and the dict
    [prepare_prediction_data] returns. *)
Record prediction_request := PredictionRequest {
  req_date : string;
  req_weather : string;
  req_visitors : Z;
  req_water_temp : Q;
  req_tide : string
}.

Record prediction_data := PredictionData {
  pd_month : Z;
  pd_season : Z;
  pd_weather : Z;
  pd_temp : Q;
  pd_tide : Z;
  pd_visitors : Z
}.

Definition season_of_month (month : Z) : Z :=
  if bool_decide (month ∈ [3; 4; 5]%Z) then 0
  else if bool_decide (month ∈ [6; 7; 8]%Z) then 1
  else if bool_decide (month ∈ [9; 10; 11]%Z) then 2
  else 3.

Definition weather_mapping : list (string * Z) :=
  [ ("晴れ", 0); ("晴", 0); ("曇り", 1); ("曇", 1); ("雨", 2); ("雪", 3) ]%Z.

Definition tide_mapping : list (string * Z) :=
  [ ("大潮", 0); ("中潮", 1); ("小潮", 2); ("長潮", 3); ("若潮", 4) ]%Z.

Section Prepare.
Context `{DL : Py.DateLib}.

(** [prepare_prediction_data]; [strptime] raises on a malformed date. *)
Definition prepare_prediction_data (request : prediction_request)
    : Py.result prediction_data :=
  date_obj ← Py.of_option
                (Py.strptime_slash (Py.replace_char "-" "/" (req_date request)))
                (Py.ValueError "time data does not match format");
  let month := Py.month date_obj in
  Py.Ok (PredictionData month (season_of_month month)
           (default 0%Z (Py.dict_get weather_mapping (req_weather request)))
           (req_water_temp request)
           (default 0%Z (Py.dict_get tide_mapping (req_tide request)))
           (req_visitors request)).

(** [get_weekday_jp] *)
Definition get_weekday_jp (date_str : string) : string :=
  match Py.strptime_slash date_str with
  | Some d =>
      default "不明"
        ([ "月"; "火"; "水"; "木"; "金"; "土"; "日" ]
           !! Z.to_nat (Py.weekday d))
  | None => "不明"
  end.

End Prepare.

(** The dict [calculate_accuracy_metrics] returns. *)
Record accuracy_metrics := AccuracyMetrics {
  error_amount : Z;
  error_percent : Q;
  accuracy_grade : string;
  direction_correct : bool
}.

(** [calculate_accuracy_metrics] *)
Definition calculate_accuracy_metrics (predicted actual : Z)
    : accuracy_metrics :=
  let '(percent, grade) :=
    if (actual =? 0)%Z
    then (if (0 <? predicted)%Z then 100%Q else 0%Q,
          if (0 <? predicted)%Z then "poor" else "perfect")
    else
      let percent :=
        (inject_Z (Z.abs (predicted - actual)) / inject_Z actual * 100)%Q in
      (percent,
       if Qle_bool percent 15 then "excellent"
       else if Qle_bool percent 25 then "good"
       else if Qle_bool percent 40 then "fair"
       else "poor") in
  AccuracyMetrics (Z.abs (predicted - actual)) (Py.round1 percent) grade
    (((actual <? predicted) && (0 <? predicted))
     || ((predicted <? actual) && (0 <? actual))
     || (predicted =? actual))%Z.

(** [get_accuracy_grade_text] *)
Definition get_accuracy_grade_text (grade : string) : string :=
  default "不明"
    (Py.dict_get
       [ ("excellent", "優秀 (誤差15%以下)"); ("good", "良好 (誤差25%以下)");
         ("fair", "普通 (誤差40%以下)"); ("poor", "要改善 (誤差40%以上)");
         ("perfect", "完璧") ] grade).

(** The five factors of [get_prediction_confidence], [true] for +1 and
    [false] for -1. *)
Definition confidence_factors (data : prediction_data) (catch_count : Q)
    : list bool :=
  [ bool_decide (pd_season data ∈ [0; 1]%Z);
    bool_decide (pd_weather data ∈ [0; 1]%Z);
    Qle_bool 15 (pd_temp data) && Qle_bool (pd_temp data) 25;
    ((100 <=? pd_visitors data) && (pd_visitors data <=? 500))%Z;
    Qle_bool 50 catch_count && Qle_bool catch_count 500 ].

Definition total_score (factors : list bool) : Z :=
  foldr Z.add 0%Z ((fun b : bool => if b then 1 else -1)%Z <$> factors).

(** [get_prediction_confidence] *)
Definition get_prediction_confidence (data : prediction_data)
    (catch_count : Q) : string :=
  let score := total_score (confidence_factors data catch_count) in
  if (3 <=? score)%Z then "High"
  else if (score <=? -2)%Z then "Low"
  else "Medium".

(** [generate_recommendations] *)
Definition generate_recommendations (data : prediction_data)
    (catch_count : Q) : list string :=
  ([ if Qle_bool 15 (pd_temp data)
     then if Qle_bool (pd_temp data) 25
          then "水温が適温です。アジの活性が期待できます。"
          else "水温が高いです。朝夕の時間帯がお勧めです。"
     else "水温が低いです。朝夕の時間帯が狙い目です。" ]
   ++ (if (pd_tide data =? 2)%Z
       then [ "小潮で潮の動きが少ない日です。静かなポイントを狙いましょう。" ]
       else if (pd_tide data =? 0)%Z
       then [ "大潮で潮の動きが活発です。潮目を意識した釣りを心がけましょう。" ]
       else [])
   ++ (if (400 <? pd_visitors data)%Z
       then [ "混雑が予想されます。早めの到着をお勧めします。" ]
       else if (pd_visitors data <? 100)%Z
       then [ "比較的空いている日です。ゆっくり釣りを楽しめそうです。" ]
       else [])
   ++ (if Qle_bool catch_count 300
       then if Qle_bool 100 catch_count then []
            else [ "厳しい条件です。丁寧な釣りを心がけましょう。" ]
       else [ "好釣果が期待できます。十分な仕掛けの準備をお勧めします。" ]))%list.

End Main.

(* ===================================================================== *)
(** * api/predict.py: which artifact the service loads *)
(* ===================================================================== *)

Module Serving.

Open Scope string_scope.

(** The candidates of [FishingPredictor.load_model] among the names that
    [os.listdir] reports, and [sorted(aji_models)[-1]]. *)
Definition aji_models (names : list string) : list string :=
  filter (fun f => Py.starts_with "aji_" f = true
                   /\ Py.ends_with ".pkl" f = true) names.

Definition latest_model (names : list string) : option string :=
  last (Py.sorted_strings (aji_models names)).

End Serving.

(* ===================================================================== *)
(** * api/scraping_core.py: appending scraped rows to a sheet *)
(* ===================================================================== *)

Module Scraping.

Open Scope string_scope.




Section Append.
Context `{DL : Py.DateLib}.




End Append.

End Scraping.

(* ===================================================================== *)
(** * Concrete libraries and data for the examples *)
(* ===================================================================== *)

Module Strict.

Open Scope string_scope.

Definition in_range (lo hi x : Z) : bool := ((lo <=? x) && (x <=? hi))%Z.

(** The zero-padded reading of ['%Y%m%d_%H%M%S']; a point in time is the
    number YYYYMMDDhhmmss, which orders stamps chronologically. *)
Definition strptime_stamp (s : string) : option Z :=
  match Py.split_on "_" s with
  | [d; t] =>
      if ((String.length d =? 8) && (String.length t =? 6))%nat then
        match Py.parse_number d, Py.parse_number t with
        | Some dn, Some tn =>
            if in_range 1 12 (dn / 100 mod 100)
               && in_range 1 31 (dn mod 100)
               && in_range 0 23 (tn / 10000)
               && in_range 0 59 (tn / 100 mod 100)
               && in_range 0 59 (tn mod 100)
            then Some (dn * 1000000 + tn) else None
        | _, _ => None
        end
      else None
  | _ => None
  end.

Definition strftime_stamp (t : Z) : string :=
  Py.digits 8 (t / 1000000) ++ "_" ++ Py.digits 6 (t mod 1000000).

#[global] Instance time_lib : Model.TimeLib :=
  {| Model.strptime := strptime_stamp; Model.strftime := strftime_stamp |}.

(** The zero-padded reading of ['%Y<sep>%m<sep>%d']. *)
Definition strptime_date (sep : ascii) (s : string) : option Py.date :=
  match Py.split_on sep s with
  | [y; m; d] =>
      if ((String.length y =? 4) && (String.length m =? 2)
          && (String.length d =? 2))%nat then
        match Py.parse_number y, Py.parse_number m, Py.parse_number d with
        | Some yn, Some mn, Some dn =>
            if in_range 1 12 mn && in_range 1 31 dn
            then Some (Py.Date yn mn dn) else None
        | _, _, _ => None
        end
      else None
  | _ => None
  end.

#[global] Instance date_lib : Py.DateLib :=
  {| Py.strptime_slash := strptime_date "/";
     Py.strptime_dash := strptime_date "-" |}.

(** Sample standard deviation, to three decimals (the square root is
    taken on integers). *)
Definition std_approx (l : list Q) : option Q :=
  match l with
  | [] | [_] => None
  | _ =>
      let m := Py.mean l in
      let var := (Py.Qsum (map (fun x => (x - m) * (x - m)) l)
                  / inject_Z (Z.of_nat (length l) - 1))%Q in
      Some (Qred (inject_Z (Z.sqrt (Qfloor (var * 1000000))) / 1000))
  end.

#[global] Instance pandas : Py.Pandas :=
  {| Py.to_datetime := strptime_date "/";
     Py.to_numeric := fun s => inject_Z <$> Py.parse_number s;
     Py.series_std := std_approx |}.

(** A ledger with a single usable day: a sunny Tuesday with 500
    visitors. *)
Definition one_tuesday : option (list Visitors.raw_row) :=
  Some [ Visitors.RawRow "2024/08/06(火)" "晴れ" "500名" ].

(** Three days of the ledger, and the same ledger with a fourth day on
    which the visitor count was left blank. *)
Definition day1 : Historical.raw_record :=
  Historical.RawRecord "2025/01/31(金)" "晴れ" "11.0℃" "大潮" "174名" "アジ"
    "12" "15cm" "沖桟橋" "".

Definition day2 : Historical.raw_record :=
  Historical.RawRecord "2025/02/01(土)" "曇り" "10.5℃" "中潮" "320名" "アジ"
    "30" "16cm" "沖桟橋" "".

Definition day3 : Historical.raw_record :=
  Historical.RawRecord "2025/02/02(日)" "雨" "10.0℃" "中潮" "95名" "イワシ"
    "5" "12cm" "渡り桟橋" "".

Definition blank_visitors : Historical.raw_record :=
  Historical.RawRecord "2025/02/03(月)" "曇り" "10.2℃" "小潮" "" "アジ"
    "7" "15cm" "沖桟橋" "".

Definition ledger : option (list Historical.raw_record) :=
  Some [ day1; day2; day3 ].

(** The same three days as the query loader returns them. *)
Definition loaded_day1 : Historical.record :=
  Historical.FishingRecord (Py.Date 2025 1 31) "晴れ" (Some (11 # 1)%Q) "大潮"
    174 "アジ" (12 # 1)%Q "15cm" "沖桟橋" "".

Definition loaded_day2 : Historical.record :=
  Historical.FishingRecord (Py.Date 2025 2 1) "曇り" (Some (21 # 2)%Q) "中潮"
    320 "アジ" (30 # 1)%Q "16cm" "沖桟橋" "".

Definition loaded_day3 : Historical.record :=
  Historical.FishingRecord (Py.Date 2025 2 2) "雨" (Some (10 # 1)%Q) "中潮"
    95 "イワシ" (5 # 1)%Q "12cm" "渡り桟橋" "".

Definition loaded : list Historical.record :=
  [ loaded_day1; loaded_day2; loaded_day3 ].

(** A second catch of the first day, without a temperature reading, and
    the rows the training loader makes of the four, given out of date
    order. *)
Definition day1_evening : Historical.raw_record :=
  Historical.RawRecord "2025/01/31(金)" "晴れ" "" "大潮" "174名" "アジ"
    "8" "14cm" "渡り桟橋" "".

Definition training_rows : list DataLoader.row :=
  DataLoader._preprocess_fishing_data [ day2; day1_evening; day1; day3 ].

Definition ledger_with_blank : option (list Historical.raw_record) :=
  Some [ day1; day2; day3; blank_visitors ].

(** A linear regressor: the model object is its weight vector, and
    [predict] raises on a row of another width, as scikit-learn does. *)
Definition dot (w row : list Q) : Py.result Q :=
  if (length w =? length row)%nat
  then Py.Ok (Qred (Py.Qsum (zip_with Qmult w row)))
  else Py.Raise (Py.ValueError "X has a different number of features").

#[global] Instance linear : Model.Regression :=
  {| Model.Regressor := list Q;
     Model.raw_predict := fun w rows => mapM (M := Py.result) (dot w) rows |}.

(** A trained predictor whose model answers [10 * month - visitors]. *)
Definition trained : Model.predictor unit :=
  Model.Predictor unit "xgboost" [10; 0; 0; 0; 0; -1]%Q
    (Some ["月"; "季節_エンコード"; "天気_エンコード"; "水温";
           "潮_エンコード"; "来場者数"])
    true "models" tt.

(** A freshly constructed predictor: nothing trained, nothing loaded. *)
Definition fresh : Model.predictor unit :=
  Model.Predictor unit "xgboost" [] None false "models" tt.

(** Three artifacts whose names carry no stamp. [a] was modified last;
    [b] and [c] were modified earlier but are younger as files (copied
    into the directory later), so their ctime is later. Times are written
    YYYYMMDDhhmmss. *)
Definition unstamped (m c : Z) : Model.file unit :=
  Model.File unit (Model.Garbage unit) c m false.

Definition file_a : Model.file unit :=
  unstamped 20250103120000 20250103120000.

Definition file_b : Model.file unit :=
  unstamped 20250102120000 20250104120000.

Definition file_c : Model.file unit :=
  unstamped 20250101120000 20250105120000.

Definition unstamped_dir : gmap string (Model.file unit) :=
  <["models/aji_xgboost_a.pkl" := file_a]>
  (<["models/aji_xgboost_b.pkl" := file_b]>
  (<["models/aji_xgboost_c.pkl" := file_c]> ∅)).

(** Three stamped artifacts, the oldest of which cannot be removed. *)
Definition locked_dir : gmap string (Model.file unit) :=
  <["models/aji_xgboost_20250101_000000.pkl" :=
      Model.File unit (Model.Garbage unit) 20250101000000 20250101000000
        true]>
  (<["models/aji_xgboost_20250102_000000.pkl" :=
       unstamped 20250102000000 20250102000000]>
  (<["models/aji_xgboost_20250103_000000.pkl" :=
       unstamped 20250103000000 20250103000000]> ∅)).

(** A directory holding two artifacts stamped later than the clock of
    the save below (say, written before the clock was set back). *)
Definition future_dir : gmap string (Model.file unit) :=
  <["models/aji_xgboost_20990101_000000.pkl" :=
      unstamped 20250729000000 20250729000000]>
  (<["models/aji_xgboost_20990101_000001.pkl" :=
       unstamped 20250729000001 20250729000001]> ∅).

Definition save_time : Z := 20250730163124.

Definition sample_X : Model.matrix :=
  Model.NdArray [ [8; 1; 0; 27; 0; 200]; [8; 1; 0; 27; 0; 50] ]%Q.

End Strict.

(* ===================================================================== *)
(** * Theorems *)
(* ===================================================================== *)

Section SliceFacts.
Context {A : Type}.

Lemma slice_to_from (l : list A) (k : Z) :
    Py.slice_to l k ++ Py.slice_from l k = l.
Proof. unfold Py.slice_to, Py.slice_from. apply take_drop. Qed.

Lemma slice_to_length (l : list A) (k : Z) :
    0 <= k <= Z.of_nat (length l) ->
    length (Py.slice_to l k) = Z.to_nat k.
Proof.
  intros Hk. unfold Py.slice_to, Py.slice_bound.
    destruct (Z.leb_spec 0 k); [| lia].
    rewrite length_take. lia.
Qed.

Lemma slice_from_length (l : list A) (k : Z) :
    0 <= k <= Z.of_nat (length l) ->
    length (Py.slice_from l k) = (length l - Z.to_nat k)%nat.
Proof.
    intros Hk. unfold Py.slice_from, Py.slice_bound.
    destruct (Z.leb_spec 0 k); [| lia].
    now rewrite length_drop.
Qed.
End SliceFacts.

Module SplitFacts.
Import Split.

Example f09_literal : f09 = 0x1.ccccccccccccdp-1%float.
Proof. reflexivity. Qed.

Example f02_literal : f02 = 0x1.999999999999ap-3%float.
Proof. reflexivity. Qed.

(** C4, as stated, fails: with ten rows and validation fraction 0.9 the
    sentence asks for floor(10 * (1 - 0.9)) = 1 training row, and [fit]
    computes int(10 * (1 - 0.9)) = int(0.9999999999999998) = 0: the
    training partition is empty and all ten rows are validation rows. *)
Lemma C4_counterexample :
  let X := seq 0 10 in
  let y := seq 100 10 in
  spec_train_size 10 (9 # 10) = 1 /\
  train_size 10 (Py.float_of_Q (9 # 10)) = Some 0 /\
  fit_partition X y (Py.float_of_Q (9 # 10))
    = Some (Partition [] X [] y) /\
  ~ (forall (n : nat) (f : Q),
        train_size n (Py.float_of_Q f) = Some (spec_train_size n f)).
Proof.
  cbv zeta. split; [reflexivity |]. split; [vm_compute; reflexivity |].
  split; [vm_compute; reflexivity |].
  intros H. specialize (H 10%nat (9 # 10)). vm_compute in H. discriminate H.
Qed.

(** C4, amended: [fit] splits at [k = int(n * (1 - f))], the product taken
    in binary64 arithmetic and truncated. Whatever [k] is, the training
    rows followed by the validation rows are the input in its original
    order (no shuffling, nothing lost or duplicated), features and targets
    are cut at the same place, and for [0 <= k <= n] the training
    partition is the first [k] rows. With [f = 0.2] and [n = 100] the
    split is exactly 80 and 20. *)
Theorem C4_chronological_split {R T} (X : list R) (y : list T)
    (f : float) (k : Z) :
  train_size (length X) f = Some k ->
  exists p,
    fit_partition X y f = Some p /\
    X_train p ++ X_val p = X /\
    y_train p ++ y_val p = y /\
    (0 <= k <= Z.of_nat (length X) ->
       X_train p = take (Z.to_nat k) X /\
       X_val p = drop (Z.to_nat k) X /\
       length (X_train p) = Z.to_nat k /\
       length (X_val p) = (length X - Z.to_nat k)%nat) /\
    (length y = length X -> 0 <= k ->
       y_train p = take (Z.to_nat k) y /\ y_val p = drop (Z.to_nat k) y) /\
    (forall X100 : list R, length X100 = 100%nat ->
       train_size (length X100) f02 = Some 80 /\
       length (Py.slice_to X100 80) = 80%nat /\
       length (Py.slice_from X100 80) = 20%nat).
Proof.
  intros Hk. unfold fit_partition. rewrite Hk.
  eexists. split; [reflexivity |]. cbn [X_train X_val y_train y_val].
  split; [apply slice_to_from |]. split; [apply slice_to_from |].
  split; [| split].
  - intros Hr. unfold Py.slice_to, Py.slice_from, Py.slice_bound.
    destruct (Z.leb_spec 0 k); [| lia].
    rewrite length_take, length_drop. repeat split; lia.
  - intros _ Hr. unfold Py.slice_to, Py.slice_from, Py.slice_bound.
    destruct (Z.leb_spec 0 k); [| lia]. split; reflexivity.
  - intros X100 H100. rewrite H100. split; [vm_compute; reflexivity |].
    rewrite slice_to_length, slice_from_length by (rewrite H100; lia).
    rewrite H100. split; reflexivity.
Qed.

Lemma C4_chronological_split_witness :
  train_size (length (seq 0 100)) f02 = Some 80 /\
  exists p,
    fit_partition (seq 0 100) (seq 0 100) f02 = Some p /\
    X_train p = seq 0 80 /\ X_val p = seq 80 20.
Proof.
  split; [vm_compute; reflexivity |].
  destruct (C4_chronological_split (seq 0 100) (seq 0 100) f02 80)
    as (p & Hp & _ & _ & Hx & _).
  - vm_compute; reflexivity.
  - exists p. split; [exact Hp |].
    destruct Hx as (Ht & Hv & _); [cbn; lia |].
    rewrite Ht, Hv. split; reflexivity.
Defined.

End SplitFacts.

(* --------------------------------------------------------------------- *)
(** ** Weather text *)
(* --------------------------------------------------------------------- *)

Module WeatherFacts.
Import Weather.

(** C7, as stated, fails: the visitor-statistics table sends the phrase
    to "sunny" (its entry reads: the later part is sunny), not to
    "cloudy". *)
Lemma C7_counterexample :
  visitor_weather cloudy_then_sunny = "sunny"%string /\
  visitor_weather cloudy_then_sunny <> "cloudy"%string.
Proof. split; [reflexivity | discriminate]. Qed.

(** C7, amended: the four components that normalise weather text do not
    agree on the phrase. The feature encoding of training and the
    prediction module (api/predict.py) have no entry for it and fall
    back to cloudy (code 1); the request preparation of the served
    prediction endpoint (api/main.py, [prepare_prediction_data]) has no
    entry either but falls back to code 0, the code of 晴れ (sunny); the
    visitor-statistics normalisation has an entry for it and yields
    "sunny". *)
Theorem C7_cloudy_then_sunny :
  encode_weather cloudy_then_sunny = 1 /\
  Py.dict_get feature_weather_mapping cloudy_then_sunny = None /\
  map_weather cloudy_then_sunny = "cloudy"%string /\
  weather_encoded cloudy_then_sunny = 1 /\
  Py.dict_get Main.weather_mapping cloudy_then_sunny = None /\
  Py.dict_get Main.weather_mapping "晴れ" = Some 0 /\
  (forall (DL : Py.DateLib) (request : Main.prediction_request)
          (data : Main.prediction_data),
      Main.req_weather request = cloudy_then_sunny ->
      Main.prepare_prediction_data request = Py.Ok data ->
      Main.pd_weather data = 0) /\
  (exists data,
      Main.prepare_prediction_data (DL := Strict.date_lib)
        (Main.PredictionRequest "2025-08-06" cloudy_then_sunny 200 27 "大潮")
      = Py.Ok data /\
      Main.pd_weather data = 0) /\
  Py.dict_get weather_mapping cloudy_then_sunny = Some "sunny"%string /\
  visitor_weather cloudy_then_sunny = "sunny"%string.
Proof.
  repeat split.
  - intros DL request data Hw. unfold Main.prepare_prediction_data.
    rewrite Hw. unfold Py.of_option, mbind, Py.result_bind.
    destruct (Py.strptime_slash _); [| discriminate].
    intros [= <-]. reflexivity.
  - eexists. split; vm_compute; reflexivity.
Qed.

End WeatherFacts.

(* --------------------------------------------------------------------- *)
(** ** Predictions are never negative *)
(* --------------------------------------------------------------------- *)

Section PredictFacts.
Context `{DL : Py.DateLib} `{TL : Model.TimeLib} `{RG : Model.Regression}.
Variable History : Type.

Lemma clip0_nonneg (x : Q) : (0 <= Model.clip0 x)%Q.
Proof.
  unfold Model.clip0. destruct (Qle_bool 0 x) eqn:E.
  - now apply Qle_bool_iff.
  - apply Qle_refl.
Qed.

Lemma predict_inv (p : Model.predictor History) (X : Model.matrix)
    (preds : list Q) :
  Model.predict History p X = Py.Ok preds ->
  Model.is_trained History p = true /\
  exists raw, preds = map Model.clip0 raw.
Proof.
  unfold Model.predict. destruct (Model.is_trained History p); [| discriminate].
  cbn [negb]. intros H. split; [reflexivity |].
  match type of H with (?c ≫= _) = _ => destruct c as [rows | e] end;
    [| discriminate].
  cbn in H.
  destruct (Model.raw_predict (Model.model History p) rows) as [raw | e];
    [| discriminate].
  cbn in H. injection H as <-. now exists raw.
Qed.

(** C1: whatever the regressor answers and whatever the input, every
    value [predict] returns is at least 0, and so is the catch count of a
    successful [predict_aji]. *)
Theorem C1_predict_nonnegative (p : Model.predictor History)
    (X : Model.matrix) (preds : list Q) :
  Model.predict History p X = Py.Ok preds ->
  Forall (fun v => (0 <= v)%Q) preds /\
  (forall fp date weather visitors water_temp tide c conf s w,
      Api.predict_aji fp date weather visitors water_temp tide
        = Api.Success c conf s w ->
      0 <= c).
Proof.
  intros H. split.
  - apply predict_inv in H as [_ [raw ->]].
    induction raw as [| x raw IH]; cbn; constructor;
      [apply clip0_nonneg | exact IH].
  - clear. intros fp date weather visitors water_temp tide c conf s w.
    unfold Api.predict_aji. destruct (Api.fp_model fp) as [m |]; [| discriminate].
    destruct (Py.strptime_slash date) as [d |]; cbn; [| discriminate].
    match goal with |- context [Model.raw_predict m ?f] =>
      destruct (Model.raw_predict m f) as [ps | e] end; cbn; [| discriminate].
    destruct (head ps) as [x |]; cbn; [| discriminate].
    intros [= <- _ _ _]. apply Z.le_max_l.
Qed.

End PredictFacts.

Lemma C1_predict_nonnegative_witness :
  Model.predict unit Strict.trained Strict.sample_X = Py.Ok [0; 30]%Q /\
  Forall (fun v => (0 <= v)%Q) [0; 30]%Q.
Proof.
  split; [vm_compute; reflexivity |].
  apply (C1_predict_nonnegative unit Strict.trained Strict.sample_X).
  vm_compute; reflexivity.
Defined.

(* --------------------------------------------------------------------- *)
(** ** The descending sort *)
(* --------------------------------------------------------------------- *)

Section SortFacts.
Context {A : Type} (key : A -> Z).

Lemma insert_desc_perm (x : A) (l : list A) :
  Py.insert_desc key x l ≡ₚ x :: l.
Proof.
  induction l as [| y l IH]; cbn; [reflexivity |].
  destruct (key y <=? key x); [reflexivity |].
  rewrite IH. apply Permutation_swap.
Qed.

Lemma sort_desc_perm (l : list A) : Py.sort_desc key l ≡ₚ l.
Proof.
  induction l as [| x l IH]; cbn; [reflexivity |].
  rewrite insert_desc_perm. now rewrite IH.
Qed.

Lemma insert_desc_sorted (x : A) (l : list A) :
  Py.descending key l -> Py.descending key (Py.insert_desc key x l).
Proof.
  unfold Py.descending. induction l as [| y l IH]; cbn; intros Hs.
  - repeat constructor.
  - apply StronglySorted_inv in Hs as [Hl Hy].
    destruct (Z.leb_spec (key y) (key x)) as [Hle | Hlt].
    + constructor; [constructor; assumption |].
      constructor; [exact Hle |].
      eapply Forall_impl; [exact Hy |]. cbn. intros z Hz. lia.
    + constructor; [apply IH; exact Hl |].
      rewrite insert_desc_perm. constructor; [lia | exact Hy].
Qed.

Lemma sort_desc_sorted (l : list A) : Py.descending key (Py.sort_desc key l).
Proof.
  induction l as [| x l IH]; cbn; [constructor |].
  apply insert_desc_sorted, IH.
Qed.

(** In a descending list, whatever lies beyond a cut is no newer than
    whatever lies before it. *)
Lemma descending_cut (l : list A) (n : nat) (a b : A) :
  Py.descending key l -> a ∈ take n l -> b ∈ drop n l -> key b <= key a.
Proof.
  intros Hs Ha Hb. rewrite <- (take_drop n l) in Hs.
  exact (StronglySorted_app_1_elem_of _ _ _ a b Hs Ha Hb).
Qed.

End SortFacts.

(* --------------------------------------------------------------------- *)
(** ** Retention cleanup *)
(* --------------------------------------------------------------------- *)

Section RetentionFacts.
Context `{TL : Model.TimeLib} `{RG : Model.Regression}.
Variable History : Type.

Abbreviation file := (Model.file History).
Abbreviation glob := (Model.glob History).

Lemma remove_files_lookup (fs : gmap string file) (paths : list string)
    (k : string) :
  (Model.remove_files History fs paths).2 !! k
  = match fs !! k with
    | Some f =>
        if bool_decide (k ∈ paths) && negb (Model.f_locked History f)
        then None else Some f
    | None => None
    end.
Proof.
  unfold Model.remove_files.
  enough (Hgen : forall (acc : list string * gmap string file),
             (foldl (fun (acc : list string * gmap string file) path =>
                       match acc.2 !! path with
                       | Some f =>
                           if Model.f_locked History f then acc
                           else ((acc.1 ++ [Py.basename path])%list,
                                 delete path acc.2)
                       | None => acc
                       end) acc paths).2 !! k
             = match acc.2 !! k with
               | Some f =>
                   if bool_decide (k ∈ paths)
                      && negb (Model.f_locked History f)
                   then None else Some f
               | None => None
               end)
    by apply (Hgen ([], fs)).
  induction paths as [| path paths IH]; intros [done m].
  - cbn. now destruct (m !! k).
  - cbn [foldl fst snd].
    destruct (decide (k = path)) as [-> | Hne].
    + rewrite (bool_decide_eq_true_2 (path ∈ path :: paths)) by left.
      destruct (m !! path) as [f |] eqn:Hp; [| rewrite IH; cbn; now rewrite Hp].
      destruct (Model.f_locked History f) eqn:Hl; rewrite IH; cbn.
      * rewrite Hp, Hl. now rewrite andb_false_r.
      * now rewrite lookup_delete_eq.
    + assert (Hb : bool_decide (k ∈ path :: paths) = bool_decide (k ∈ paths)).
      { apply bool_decide_ext. rewrite elem_of_cons. tauto. }
      rewrite Hb.
      destruct (m !! path) as [f |] eqn:Hp; [| now rewrite IH].
      destruct (Model.f_locked History f); rewrite IH; cbn; [reflexivity |].
      now rewrite lookup_delete_ne.
Qed.

(** A path that is not on the list is left alone. *)
Lemma remove_files_other (fs : gmap string file) (paths : list string)
    (k : string) :
  k ∉ paths -> (Model.remove_files History fs paths).2 !! k = fs !! k.
Proof.
  intros Hk. rewrite remove_files_lookup.
  rewrite bool_decide_eq_false_2 by exact Hk. now destruct (fs !! k).
Qed.

Lemma elem_of_glob (fs : gmap string file) (dir kind : string)
    (e : string * file) :
  e ∈ glob fs dir kind <->
  fs !! e.1 = Some e.2 /\ Model.glob_match dir kind e.1 = true.
Proof.
  unfold Model.glob. rewrite list_elem_of_filter, elem_of_map_to_list'. tauto.
Qed.

Lemma NoDup_glob (fs : gmap string file) (dir kind : string) :
  NoDup (glob fs dir kind).
Proof. apply NoDup_filter, NoDup_map_to_list. Qed.

Lemma NoDup_glob_keys (fs : gmap string file) (dir kind : string) :
  NoDup (glob fs dir kind).*1.
Proof.
  apply NoDup_fmap_fst; [| apply NoDup_glob].
  intros k f1 f2 H1 H2.
  apply elem_of_glob in H1 as [H1 _]. apply elem_of_glob in H2 as [H2 _].
  cbn in H1, H2. congruence.
Qed.

(** The directory after a cleanup that had something to delete and could
    delete it: the entries of the kind are exactly the first [n] of the
    sorted listing. *)
Lemma glob_after_remove (fs : gmap string file) (dir kind : string)
    (sorted : list (string * file)) (n : nat) (e : string * file) :
  sorted ≡ₚ glob fs dir kind ->
  (forall x, x ∈ drop n sorted -> Model.f_locked History x.2 = false) ->
  e ∈ glob (Model.remove_files History fs (drop n sorted).*1).2 dir kind
  <-> e ∈ take n sorted.
Proof.
  intros Hperm Hfree.
  assert (Hdisj : forall k, k ∈ (take n sorted).*1 -> k ∉ (drop n sorted).*1).
  { pose proof (NoDup_glob_keys fs dir kind) as Hk.
    rewrite <- Hperm, <- (take_drop n sorted), fmap_app in Hk.
    apply NoDup_app in Hk. tauto. }
  rewrite elem_of_glob. split.
  - intros [Hl Hm]. rewrite remove_files_lookup in Hl.
    destruct (fs !! e.1) as [f |] eqn:Hf; [| discriminate].
    destruct (bool_decide (e.1 ∈ (drop n sorted).*1)
              && negb (Model.f_locked History f)) eqn:Hb; [discriminate |].
    injection Hl as Hl. subst f.
    assert (He : e ∈ sorted) by (rewrite Hperm; now apply elem_of_glob).
    rewrite <- (take_drop n sorted), elem_of_app in He.
    destruct He as [He | He]; [exact He |].
    exfalso. rewrite (Hfree e He), andb_true_r in Hb.
    apply bool_decide_eq_false in Hb. apply Hb.
    now apply list_elem_of_fmap_2.
  - intros He.
    assert (Hs : e ∈ glob fs dir kind).
    { rewrite <- Hperm, <- (take_drop n sorted), elem_of_app. now left. }
    apply elem_of_glob in Hs as [Hl Hm]. split; [| exact Hm].
    rewrite remove_files_other; [exact Hl |].
    apply Hdisj. now apply list_elem_of_fmap_2.
Qed.

(** C3, amended: when no artifact of the active kind is locked against
    deletion, after [cleanup_old_models] with [keep_count = 2] at most two
    artifacts of that kind remain (exactly two when there were at least
    two), each of them an artifact that was there before, and every one
    that was deleted is no newer than every one retained, where an
    artifact's time is the stamp in its file name or, when that cannot be
    read, the file's ctime ([os.path.getctime]). Files of other kinds are
    left alone. *)
Theorem C3_cleanup_retention (p : Model.predictor History)
    (fs : gmap string file) :
  let dir := Model.model_dir History p in
  let kind := Model.model_type History p in
  let fs' := (Model.cleanup_old_models History p fs 2).2 in
  (forall e, e ∈ glob fs dir kind -> Model.f_locked History e.2 = false) ->
  (length (glob fs' dir kind) <= 2)%nat /\
  length (glob fs' dir kind) = Nat.min 2 (length (glob fs dir kind)) /\
  (forall e, e ∈ glob fs' dir kind -> e ∈ glob fs dir kind) /\
  (forall e e', e ∈ glob fs' dir kind ->
                e' ∈ glob fs dir kind -> e' ∉ glob fs' dir kind ->
                Model.extract_datetime History e'
                <= Model.extract_datetime History e) /\
  (forall path, Model.glob_match dir kind path = false ->
                fs' !! path = fs !! path).
Proof.
  intros dir kind fs' Hfree. subst fs'. unfold Model.cleanup_old_models.
  fold dir kind.
  destruct (Z.leb_spec (Z.of_nat (length (glob fs dir kind))) 2) as [Hle | Hgt].
  - cbn [snd]. repeat split; try tauto; try lia.
  - set (sorted := Py.sort_desc (Model.extract_datetime History)
                     (glob fs dir kind)).
    assert (Hperm : sorted ≡ₚ glob fs dir kind) by apply sort_desc_perm.
    assert (Hsorted : Py.descending (Model.extract_datetime History) sorted)
      by apply sort_desc_sorted.
    assert (Hfree' : forall x, x ∈ drop 2 sorted ->
                               Model.f_locked History x.2 = false).
    { intros x Hx. apply Hfree. rewrite <- Hperm.
      rewrite <- (take_drop 2 sorted), elem_of_app. now right. }
    change (Py.slice_from sorted 2) with (drop 2 sorted).
    destruct (Model.remove_files History fs (drop 2 sorted).*1)
      as [deleted fs'] eqn:Hrm. cbn [snd].
    assert (Hfs' : fs' = (Model.remove_files History fs (drop 2 sorted).*1).2)
      by (now rewrite Hrm).
    assert (Hafter : forall e, e ∈ glob fs' dir kind <-> e ∈ take 2 sorted).
    { intros e. rewrite Hfs'. now apply glob_after_remove. }
    assert (Hpa : glob fs' dir kind ≡ₚ take 2 sorted).
    { apply NoDup_Permutation; [apply NoDup_glob | | exact Hafter].
      pose proof (NoDup_glob_keys fs dir kind) as Hk.
      rewrite <- Hperm, <- (take_drop 2 sorted), fmap_app in Hk.
      apply NoDup_app in Hk as [Hk _]. exact (NoDup_fmap_1 fst _ Hk). }
    assert (Hlen : length (glob fs' dir kind) = 2%nat).
    { rewrite Hpa, length_take, Hperm. lia. }
    split; [lia |]. split; [lia |]. split; [| split].
    + intros e He. apply Hafter in He. rewrite <- Hperm.
      rewrite <- (take_drop 2 sorted), elem_of_app. now left.
    + intros e e' He He' Hne'. apply Hafter in He.
      assert (Hd : e' ∈ drop 2 sorted).
      { rewrite <- Hperm, <- (take_drop 2 sorted), elem_of_app in He'.
        destruct He' as [Ht | Hd]; [| exact Hd].
        exfalso. apply Hne'. now apply Hafter. }
      exact (descending_cut _ sorted 2 e e' Hsorted He Hd).
    + intros path Hm. rewrite Hfs'. apply remove_files_other.
      intros Hin. apply list_elem_of_fmap in Hin as (e & -> & He).
      assert (Hs : e ∈ glob fs dir kind).
      { rewrite <- Hperm, <- (take_drop 2 sorted), elem_of_app. now right. }
      apply elem_of_glob in Hs as [_ Hs]. congruence.
Qed.

End RetentionFacts.

(** C3, as stated, fails on the fallback: of three artifacts whose names
    carry no stamp, the cleanup deletes the one modified last, because it
    orders them by ctime ([os.path.getctime]), not by modification time.
    It also fails when a deletion does: with the oldest of three stamped
    artifacts locked, all three are still there afterwards. *)
Lemma C3_counterexample :
  let fs' :=
    (Model.cleanup_old_models unit Strict.fresh Strict.unstamped_dir 2).2 in
  let a := ("models/aji_xgboost_a.pkl"%string, Strict.file_a) in
  let c := ("models/aji_xgboost_c.pkl"%string, Strict.file_c) in
  (Strict.unstamped_dir !! a.1 = Some a.2 /\
   fs' !! a.1 = None /\
   fs' !! c.1 = Some c.2 /\
   Model.filename_stamp a.1 = None /\
   Model.spec_extract_datetime unit c < Model.spec_extract_datetime unit a) /\
  length (Model.glob unit
            (Model.cleanup_old_models unit Strict.fresh Strict.locked_dir 2).2
            "models" "xgboost") = 3%nat.
Proof. cbv zeta. repeat split; vm_compute; reflexivity. Qed.

Lemma C3_cleanup_retention_witness :
  (forall e, e ∈ Model.glob unit Strict.unstamped_dir "models" "xgboost" ->
             Model.f_locked unit e.2 = false) /\
  (length (Model.glob unit
             (Model.cleanup_old_models unit Strict.fresh
                Strict.unstamped_dir 2).2 "models" "xgboost") <= 2)%nat.
Proof.
  assert (Hfree : forall e,
             e ∈ Model.glob unit Strict.unstamped_dir "models" "xgboost" ->
             Model.f_locked unit e.2 = false).
  { intros e He.
    set (l := Model.glob unit _ _ _) in He. vm_compute in l. subst l.
    repeat (apply elem_of_cons in He as [-> | He]; [reflexivity |]).
    now apply elem_of_nil in He. }
  split; [exact Hfree |].
  exact (proj1 (C3_cleanup_retention unit Strict.fresh Strict.unstamped_dir
                  Hfree)).
Defined.

(* --------------------------------------------------------------------- *)
(** ** Saving and loading *)
(* --------------------------------------------------------------------- *)

Section PersistenceFacts.
Context `{TL : Model.TimeLib} `{RG : Model.Regression}.
Variable History : Type.

Abbreviation pfile := (Model.file History).

(** C10: [save_model] on an instance that was never trained or loaded
    raises ValueError and leaves the file system as it was: nothing is
    written and no cleanup runs. *)
Theorem C10_save_untrained (p : Model.predictor History)
    (fs : gmap string pfile) (now : Z) (filename : option string) :
  Model.is_trained History p = false ->
  exists msg,
    Model.save_model History p fs now filename
    = (Py.Raise (Py.ValueError msg), fs).
Proof.
  intros Hu. unfold Model.save_model. rewrite Hu. cbn [negb].
  eexists. reflexivity.
Qed.

(** An entry that is strictly newer than every other artifact of its kind
    outlives the cleanup. *)
Lemma cleanup_keeps_newest (p : Model.predictor History)
    (fs : gmap string pfile) (path : string) (f : pfile) :
  fs !! path = Some f ->
  (forall e, e ∈ Model.glob History fs (Model.model_dir History p)
                   (Model.model_type History p) ->
             e.1 <> path ->
             Model.extract_datetime History e
             < Model.extract_datetime History (path, f)) ->
  (Model.cleanup_old_models History p fs 2).2 !! path = Some f.
Proof.
  intros Hf Hnew. unfold Model.cleanup_old_models.
  set (dir := Model.model_dir History p) in *.
  set (kind := Model.model_type History p) in *.
  destruct (Z.leb_spec (Z.of_nat (length (Model.glob History fs dir kind))) 2)
    as [Hle | Hgt]; [exact Hf |].
  set (sorted := Py.sort_desc (Model.extract_datetime History)
                   (Model.glob History fs dir kind)).
  assert (Hperm : sorted ≡ₚ Model.glob History fs dir kind)
    by apply sort_desc_perm.
  assert (Hsorted : Py.descending (Model.extract_datetime History) sorted)
    by apply sort_desc_sorted.
  change (Py.slice_from sorted 2) with (drop 2 sorted).
  destruct (Model.remove_files History fs (drop 2 sorted).*1)
    as [deleted fs'] eqn:Hrm. cbn [snd].
  replace fs' with (Model.remove_files History fs (drop 2 sorted).*1).2
    by (now rewrite Hrm).
  rewrite remove_files_other; [exact Hf |].
  intros Hin. apply list_elem_of_fmap in Hin as (e & He1 & He).
  assert (Hkeys : forall k, k ∈ (take 2 sorted).*1 -> k ∉ (drop 2 sorted).*1).
  { pose proof (NoDup_glob_keys History fs dir kind) as Hk.
    rewrite <- Hperm, <- (take_drop 2 sorted), fmap_app in Hk.
    apply NoDup_app in Hk. tauto. }
  assert (Heg : e ∈ Model.glob History fs dir kind).
  { rewrite <- Hperm, <- (take_drop 2 sorted), elem_of_app. now right. }
  assert (Hef : e = (path, f)).
  { apply elem_of_glob in Heg as [Hl _]. destruct e as [k g]. cbn in *.
    subst k. congruence. }
  destruct sorted as [| h t] eqn:Hs.
  { apply Permutation_length in Hperm. cbn in Hperm. lia. }
  assert (Hh : h ∈ take 2 (h :: t)) by (cbn; left).
  pose proof (descending_cut _ (h :: t) 2 h e Hsorted Hh He) as Hord.
  assert (Hhg : h ∈ Model.glob History fs dir kind).
  { rewrite <- Hperm. left. }
  assert (Hne : h.1 <> path).
  { intros Heq. apply (Hkeys h.1); [now apply list_elem_of_fmap_2 |].
    rewrite Heq, He1. now apply list_elem_of_fmap_2. }
  specialize (Hnew h Hhg Hne). rewrite Hef in Hord. lia.
Qed.

Lemma predict_ext (p q : Model.predictor History) (X : Model.matrix) :
  Model.model History q = Model.model History p ->
  Model.feature_columns History q = Model.feature_columns History p ->
  Model.is_trained History q = Model.is_trained History p ->
  Model.predict History q X = Model.predict History p X.
Proof. intros Hm Hc Ht. unfold Model.predict. now rewrite Hm, Hc, Ht. Qed.

(** C6, amended: for a trained instance, [save_model()] followed by
    [load_model] of the path it returned, into any instance, yields an
    instance that predicts exactly as the saved one on every input,
    provided every other artifact of the kind in the model directory is
    strictly older (by stamp, else ctime) than the artifact just written;
    the load reports success when the feature schema is a list. *)
Theorem C6_save_load_round_trip (p q : Model.predictor History)
    (fs : gmap string pfile) (now : Z) :
  let dir := Model.model_dir History p in
  let kind := Model.model_type History p in
  let path :=
    Py.path_join dir
      ("aji_" ++ kind ++ "_" ++ Model.strftime now ++ ".pkl")%string in
  let data :=
    Model.ModelData History (Model.model History p) kind
      (Model.feature_columns History p) (Model.training_history History p)
      (Model.is_trained History p) in
  let saved :=
    Model.File History (Model.PickleBundle History data) now now false in
  Model.is_trained History p = true ->
  (forall e, e ∈ Model.glob History fs dir kind -> e.1 <> path ->
             Model.extract_datetime History e
             < Model.extract_datetime History (path, saved)) ->
  exists fs' flag q',
    Model.save_model History p fs now None = (Py.Ok path, fs') /\
    fs' !! path = Some saved /\
    Model.load_model History q fs' path = (flag, q') /\
    (is_Some (Model.feature_columns History p) -> flag = true) /\
    forall X, Model.predict History q' X = Model.predict History p X.
Proof.
  intros dir kind path data saved Ht Hnew.
  assert (Hkept :
    (Model.cleanup_old_models History p (<[path := saved]> fs) 2).2 !! path
    = Some saved).
  { apply cleanup_keeps_newest; [apply lookup_insert_eq |].
    intros e He Hne. apply Hnew; [| exact Hne].
    apply elem_of_glob in He as [Hl Hm]. apply elem_of_glob.
    split; [| exact Hm]. now rewrite lookup_insert_ne in Hl. }
  exists (Model.cleanup_old_models History p (<[path := saved]> fs) 2).2.
  eexists _, _. split.
  { unfold Model.save_model. subst saved data. rewrite Ht. cbn [negb].
    cbv zeta. fold dir kind. fold path.
    match goal with
    | |- context [Model.cleanup_old_models History p ?m 2] =>
        destruct (Model.cleanup_old_models History p m 2)
    end. reflexivity. }
  split; [exact Hkept |].
  unfold Model.load_model. rewrite Hkept. cbn.
  split; [reflexivity |]. split.
  - intros Hs. now apply bool_decide_eq_true.
  - intros X. apply predict_ext; reflexivity.
Qed.

End PersistenceFacts.

Lemma C10_save_untrained_witness :
  Model.is_trained unit Strict.fresh = false /\
  exists msg,
    Model.save_model unit Strict.fresh Strict.unstamped_dir Strict.save_time
      None
    = (Py.Raise (Py.ValueError msg), Strict.unstamped_dir).
Proof.
  split; [reflexivity |].
  apply (C10_save_untrained unit Strict.fresh). reflexivity.
Defined.

(** C6, as stated, fails: with two artifacts in the directory stamped
    later than the clock, [save_model()] writes the new artifact and its
    own cleanup deletes it at once; [load_model] of the returned path
    reports failure, and the instance it was meant to restore still
    refuses to predict. *)
Lemma C6_counterexample :
  let r := Model.save_model unit Strict.trained Strict.future_dir
             Strict.save_time None in
  let path := "models/aji_xgboost_20250730_163124.pkl"%string in
  r.1 = Py.Ok path /\
  r.2 !! path = None /\
  Model.load_model unit Strict.fresh r.2 path = (false, Strict.fresh) /\
  Model.predict unit Strict.trained Strict.sample_X = Py.Ok [0; 30]%Q /\
  (exists msg,
      Model.predict unit (Model.load_model unit Strict.fresh r.2 path).2
        Strict.sample_X = Py.Raise (Py.ValueError msg)).
Proof.
  cbv zeta. split; [vm_compute; reflexivity |].
  split; [vm_compute; reflexivity |].
  split; [vm_compute; reflexivity |].
  split; [vm_compute; reflexivity |].
  eexists. vm_compute. reflexivity.
Qed.

Lemma C6_save_load_round_trip_witness :
  exists fs' flag q',
    Model.save_model unit Strict.trained Strict.unstamped_dir
      Strict.save_time None
    = (Py.Ok "models/aji_xgboost_20250730_163124.pkl"%string, fs') /\
    Model.load_model unit Strict.fresh fs'
      "models/aji_xgboost_20250730_163124.pkl" = (flag, q') /\
    flag = true /\
    Model.predict unit q' Strict.sample_X = Py.Ok [0; 30]%Q.
Proof.
  destruct (C6_save_load_round_trip unit Strict.trained Strict.fresh
              Strict.unstamped_dir Strict.save_time)
    as (fs' & flag & q' & Hs & _ & Hl & Hflag & Hp).
  - reflexivity.
  - intros e He _.
    set (l := Model.glob unit _ _ _) in He. vm_compute in l. subst l.
    repeat (apply elem_of_cons in He as [-> | He];
            [vm_compute; reflexivity |]).
    now apply elem_of_nil in He.
  - exists fs', flag, q'. split; [exact Hs |]. split; [exact Hl |].
    split; [apply Hflag; now eexists |].
    rewrite Hp. vm_compute. reflexivity.
Defined.

(* --------------------------------------------------------------------- *)
(** ** Visitor statistics *)
(* --------------------------------------------------------------------- *)

Section VisitorFacts.
Context `{PD : Py.Pandas} `{DL : Py.DateLib}.

Lemma weekday_range (d : Py.date) : 0 <= Py.weekday d < 7.
Proof. unfold Py.weekday. apply Z.mod_pos_bound. lia. Qed.

Lemma weekday_name_total (d : Py.date) :
  exists wd, Visitors.weekday_name (Py.weekday d) = Some wd /\
             wd ∈ Visitors.weekday_types.
Proof.
  assert (Hc : Py.weekday d = 0 \/ Py.weekday d = 1 \/ Py.weekday d = 2 \/
               Py.weekday d = 3 \/ Py.weekday d = 4 \/ Py.weekday d = 5 \/
               Py.weekday d = 6) by (pose proof (weekday_range d); lia).
  unfold Visitors.weekday_types.
  destruct Hc as [Hc | [Hc | [Hc | [Hc | [Hc | [Hc | Hc]]]]]]; rewrite Hc;
    eexists; (split; [reflexivity |]); clear Hc;
    repeat (first [apply list_elem_of_here | apply list_elem_of_further]).
Qed.

Lemma estimate_no_data (sheet : option (list Visitors.raw_row))
    (date weather : string) (d : Py.date) (wd : string) :
  Visitors.fetch_latest_data sheet = [] ->
  Py.strptime_dash date = Some d ->
  Visitors.weekday_name (Py.weekday d) = Some wd ->
  Visitors.get_visitor_estimate sheet date weather
  = Visitors.Estimate date weather (Some wd) 300 (Some 0) "low"
      (Some (Visitors.pattern weather wd)) None.
Proof.
  intros Hempty Hd Hwd.
  unfold Visitors.get_visitor_estimate, Visitors.calculate_visitor_averages.
  rewrite Hempty.
  unfold Py.of_option, mbind, Py.result_bind, Py.try_except.
  rewrite Hd. cbv beta iota. rewrite Hwd. reflexivity.
Qed.

Lemma estimate_bad_date (sheet : option (list Visitors.raw_row))
    (date weather : string) :
  Py.strptime_dash date = None ->
  exists msg,
    Visitors.get_visitor_estimate sheet date weather
    = Visitors.Estimate date weather None 300 None "low" None (Some msg).
Proof.
  intros Hd. unfold Visitors.get_visitor_estimate.
  unfold Py.of_option, mbind, Py.result_bind, Py.try_except.
  rewrite Hd. eexists. reflexivity.
Qed.

(** C2, amended: when no data can be obtained, [calculate_visitor_averages]
    returns the explicit error result, with an empty table and no
    fabricated average; [get_visitor_estimate] does not report the
    failure: for a well-formed date it answers the fixed baseline 300
    with sample count 0 and confidence low and no error entry, and for a
    malformed date it answers 300 together with the error text. *)
Theorem C2_no_data (sheet : option (list Visitors.raw_row))
    (date weather : string) :
  Visitors.fetch_latest_data sheet = [] ->
  Visitors.calculate_visitor_averages sheet
    = Visitors._get_fallback_averages /\
  Visitors.status (Visitors.calculate_visitor_averages sheet)
    = "error"%string /\
  Visitors.averages (Visitors.calculate_visitor_averages sheet) = [] /\
  Visitors.estimated_visitors
    (Visitors.get_visitor_estimate sheet date weather) = 300%Q /\
  Visitors.confidence
    (Visitors.get_visitor_estimate sheet date weather) = "low"%string /\
  match Py.strptime_dash date with
  | Some d =>
      exists wd,
        Visitors.weekday_name (Py.weekday d) = Some wd /\
        Visitors.get_visitor_estimate sheet date weather
        = Visitors.Estimate date weather (Some wd) 300 (Some 0) "low"
            (Some (Visitors.pattern weather wd)) None
  | None =>
      exists msg,
        Visitors.get_visitor_estimate sheet date weather
        = Visitors.Estimate date weather None 300 None "low" None (Some msg)
  end.
Proof.
  intros Hempty.
  assert (Hcalc : Visitors.calculate_visitor_averages sheet
                  = Visitors._get_fallback_averages).
  { unfold Visitors.calculate_visitor_averages. now rewrite Hempty. }
  rewrite Hcalc. split; [reflexivity |]. split; [reflexivity |].
  split; [reflexivity |].
  destruct (Py.strptime_dash date) as [d |] eqn:Hd.
  - destruct (weekday_name_total d) as (wd & Hwd & _).
    rewrite (estimate_no_data sheet date weather d wd Hempty Hd Hwd).
    split; [reflexivity |]. split; [reflexivity |].
    exists wd. split; [exact Hwd | reflexivity].
  - destruct (estimate_bad_date sheet date weather Hd) as [msg ->].
    split; [reflexivity |]. split; [reflexivity |]. now exists msg.
Qed.

(** The table grows at its end: what the loop has inserted stays where it
    is. *)
Lemma add_patterns_prefix (df : list Visitors.row)
    (ps : list (string * string))
    (acc : list (string * Visitors.cell) * list (string * Z)) :
  exists suffix,
    (foldl (Visitors.add_pattern df) acc ps).1 = acc.1 ++ suffix.
Proof.
  revert acc. induction ps as [| [w d] ps IH]; intros acc; cbn [foldl].
  - exists []. now rewrite app_nil_r.
  - destruct (IH (Visitors.add_pattern df acc (w, d))) as [suf Hs].
    rewrite Hs. unfold Visitors.add_pattern.
    destruct (Visitors.r_visitors <$> filter _ df); cbn [fst];
      eexists; rewrite <- app_assoc; reflexivity.
Qed.

(** What the code reports for every pattern without a sample: the
    estimate computed from the cells inserted before it, marked estimated
    with count 0. *)
Lemma estimated_cell_uses_earlier_cells (df : list Visitors.row)
    (ps : list (string * string)) (w d : string)
    (acc : list (string * Visitors.cell) * list (string * Z)) :
  (w, d) ∈ ps ->
  filter (fun r => Visitors.r_weather r = w /\ Visitors.r_weekday r = d) df
    = [] ->
  exists earlier later,
    (foldl (Visitors.add_pattern df) acc ps).1
    = earlier ++
      (Visitors.pattern w d,
       Visitors.Cell (Visitors._estimate_missing_pattern w d earlier)
                     0 0 0 0 true) :: later.
Proof.
  intros Hin Hnone. revert acc.
  induction ps as [| p ps IH]; intros acc; [now apply elem_of_nil in Hin |].
  cbn [foldl]. apply elem_of_cons in Hin as [<- | Hin].
  - destruct (add_patterns_prefix df ps
                (Visitors.add_pattern df acc (w, d))) as [suf Hs].
    rewrite Hs. unfold Visitors.add_pattern. rewrite Hnone. cbn.
    exists acc.1, suf. now rewrite <- app_assoc.
  - apply IH, Hin.
Qed.

End VisitorFacts.

Lemma C2_no_data_witness :
  Visitors.fetch_latest_data None = [] /\
  Visitors.status (Visitors.calculate_visitor_averages None)
    = "error"%string /\
  Visitors.estimated_visitors
    (Visitors.get_visitor_estimate None "2024-08-10" "sunny") = 300%Q.
Proof.
  split; [reflexivity |].
  destruct (C2_no_data None "2024-08-10" "sunny" eq_refl)
    as (_ & Hs & _ & He & _).
  split; [exact Hs | exact He].
Defined.

(** C2, as stated, fails for the point estimate: with no data at all it
    answers 300 visitors and carries no error entry, while the averages
    operation reports the error. *)
Lemma C2_counterexample :
  let r := Visitors.get_visitor_estimate None "2024-08-10" "sunny" in
  Visitors.status (Visitors.calculate_visitor_averages None)
    = "error"%string /\
  Visitors.error r = None /\
  Visitors.estimated_visitors r = 300%Q /\
  Visitors.data_count r = Some 0.
Proof. cbv zeta. repeat split; vm_compute; reflexivity. Qed.

(** C5, evaluated on a ledger whose only usable day is a sunny Tuesday
    with 500 visitors: the empty cell sunny/monday is filled while the
    table holds no sunny cell yet, so it gets the baseline
    300 * 0.8 * 1.1 = 264, although an observed sunny cell exists and the
    sentence asks for 500 * 0.8 * 1.1 = 440; the empty cell
    sunny/wednesday, filled after the Tuesday cell, gets
    500 * 0.9 * 1.1 = 495 as the sentence asks. *)
Theorem C5_estimate_ignores_later_cells :
  let table :=
    Visitors.averages (Visitors.calculate_visitor_averages Strict.one_tuesday)
  in
  Py.dict_get table "sunny_tuesday"
    = Some (Visitors.Cell 500 0 1 500 500 false) /\
  Py.dict_get table "sunny_monday"
    = Some (Visitors.Cell 264 0 0 0 0 true) /\
  Visitors.spec_estimate table "sunny" "monday" = 440%Q /\
  Py.dict_get table "sunny_wednesday"
    = Some (Visitors.Cell 495 0 0 0 0 true) /\
  Visitors.spec_estimate table "sunny" "wednesday" = 495%Q.
Proof. cbv zeta. repeat split; vm_compute; reflexivity. Qed.

(* --------------------------------------------------------------------- *)
(** ** The historical query *)
(* --------------------------------------------------------------------- *)

Section HistoricalFacts.
Context `{PD : Py.Pandas} `{DL : Py.DateLib}.




(** Rows are preprocessed one at a time by the training loader: what it
    keeps of a ledger does not depend on the other rows. *)
Lemma preprocess_app (l1 l2 : list Historical.raw_record) :
  DataLoader._preprocess_fishing_data (l1 ++ l2)
  = DataLoader._preprocess_fishing_data l1
    ++ DataLoader._preprocess_fishing_data l2.
Proof. unfold DataLoader._preprocess_fishing_data. apply omap_app. Qed.

(** One cell without a digit in the visitor column makes the query's
    loader raise, whatever the other rows hold. *)
Lemma load_raises_without_digits (data : list Historical.raw_record)
    (r : Historical.raw_record) :
  r ∈ data ->
  Py.extract_int (Historical.raw_visitors r) = None ->
  Historical.load_fishing_data (Some data) = Py.Raise Py.nan_to_int.
Proof.
  intros Hin Hnone. unfold Historical.load_fishing_data. cbn.
  destruct data as [| r0 data0] eqn:Hdata; [now apply elem_of_nil in Hin |].
  rewrite <- Hdata in *. clear Hdata r0 data0.
  assert (Hm : mapM (M := Py.result)
                 (fun r => Py.of_option
                             (Py.extract_int (Historical.raw_visitors r))
                             Py.nan_to_int) data
               = Py.Raise Py.nan_to_int).
  { induction data as [| x data IH]; [now apply elem_of_nil in Hin |].
    cbn. destruct (Py.extract_int (Historical.raw_visitors x)) eqn:Hx; cbn;
      [| reflexivity].
    apply elem_of_cons in Hin as [-> | Hin]; [congruence |].
    now rewrite (IH Hin). }
  now rewrite Hm.
Qed.

End HistoricalFacts.



(** C8, evaluated on a ledger in which one day has a blank visitor cell:
    the three good days load, but with the fourth day added the loader of
    the historical query raises on the whole column and the query answers
    with a failure and no record; the training loader keeps all four
    days and leaves only that day's visitor count empty. *)
Theorem C8_blank_cell_fails_whole_query :
  (exists df, Historical.load_fishing_data Strict.ledger = Py.Ok df /\
              length df = 3%nat) /\
  Historical.load_fishing_data Strict.ledger_with_blank
    = Py.Raise Py.nan_to_int /\
  (exists msg,
      Historical.get_historical_data Strict.ledger_with_blank "all" None
        None 50 None None = Historical.Failure msg) /\
  DataLoader.visitors_value
    <$> DataLoader._preprocess_fishing_data
          [ Strict.day1; Strict.day2; Strict.day3; Strict.blank_visitors ]
  = [ Some 174; Some 320; Some 95; None ].
Proof.
  split; [eexists; split; vm_compute; reflexivity |].
  split; [vm_compute; reflexivity |].
  split; [eexists; vm_compute; reflexivity |].
  vm_compute; reflexivity.
Qed.

(* ===================================================================== *)
(** * Further properties of the code *)
(* ===================================================================== *)

(* --------------------------------------------------------------------- *)
(** ** Encodings at training time and at serving time *)
(* --------------------------------------------------------------------- *)

Lemma dict_get_cons {V} (k : string) (v : V) (d : list (string * V))
    (s : string) :
  Py.dict_get ((k, v) :: d) s
  = if String.eqb k s then Some v else Py.dict_get d s.
Proof. reflexivity. Qed.

Ltac split_on_keys s :=
  repeat match goal with
         | |- context [String.eqb ?k s] =>
             let E := fresh "E" in
             destruct (String.eqb k s) eqn:E;
             [apply String.eqb_eq in E; subst s |]
         end.

(** X1: The season code is the same in the three places that compute it, for
    every month of the calendar: the feature builder, the prediction
    service and the request preparation. *)
Theorem season_code_consistent (month : Z) :
  1 <= month <= 12 ->
  Features.encode_season (Features.get_season month)
    = Some (Main.season_of_month month) /\
  default 1 (Py.dict_get Api.season_encoding (Api.get_season month))
    = Main.season_of_month month.
Proof.
  intros H.
  assert (Hc : month = 1 \/ month = 2 \/ month = 3 \/ month = 4 \/
               month = 5 \/ month = 6 \/ month = 7 \/ month = 8 \/
               month = 9 \/ month = 10 \/ month = 11 \/ month = 12) by lia.
  clear H.
  repeat (destruct Hc as [Hc | Hc]; [subst month; split; reflexivity |]).
  subst month; split; reflexivity.
Qed.

Lemma season_code_consistent_witness :
  1 <= 8 <= 12 /\
  Features.encode_season (Features.get_season 8) = Some 1 /\
  default 1 (Py.dict_get Api.season_encoding (Api.get_season 8)) = 1.
Proof.
  split; [lia |]. exact (season_code_consistent 8 ltac:(lia)).
Defined.

(** X2: The prediction service encodes every tide text as the feature
    builder does, unknown text included (both fall back to 中潮, code
    1). *)
Theorem tide_code_service_matches_training (tide : string) :
  default 1 (Py.dict_get Api.tide_encoding (Api.map_tide tide))
  = Features.encode_tide tide.
Proof.
  unfold Api.map_tide, Features.encode_tide, Features.tide_mapping.
  rewrite !dict_get_cons. split_on_keys tide; reflexivity.
Qed.

(** X3: The prediction service encodes a weather text as the feature builder
    does, except for three texts: 晴 (trained as sunny, served as cloudy),
    快晴 (trained as cloudy, served as sunny) and 小雨 (trained as cloudy,
    served as rainy). *)
Theorem weather_code_service_vs_training (weather : string) :
  (weather ∉ [ "晴"; "快晴"; "小雨" ]%string ->
   Weather.weather_encoded weather = Weather.encode_weather weather) /\
  (Weather.encode_weather "晴" = 0 /\ Weather.weather_encoded "晴" = 1) /\
  (Weather.encode_weather "快晴" = 1 /\ Weather.weather_encoded "快晴" = 0) /\
  (Weather.encode_weather "小雨" = 1 /\ Weather.weather_encoded "小雨" = 2).
Proof.
  split; [| repeat split].
  intros Hn.
  unfold Weather.weather_encoded, Weather.map_weather, Weather.encode_weather,
    Weather.feature_weather_mapping.
  rewrite !dict_get_cons. split_on_keys weather; try reflexivity;
    exfalso; apply Hn; set_solver.
Qed.

Lemma weather_code_service_vs_training_witness :
  ("曇りのち晴れ"%string ∉ [ "晴"; "快晴"; "小雨" ]%string) /\
  Weather.weather_encoded "曇りのち晴れ" = Weather.encode_weather "曇りのち晴れ".
Proof.
  assert (H : "曇りのち晴れ"%string ∉ [ "晴"; "快晴"; "小雨" ]%string).
  { intros Hin. repeat (apply elem_of_cons in Hin as [Hin | Hin];
                        [discriminate Hin |]).
    now apply elem_of_nil in Hin. }
  split; [exact H |].
  exact (proj1 (weather_code_service_vs_training "曇りのち晴れ") H).
Defined.

Section PrepareFacts.
Context `{DL : Py.DateLib}.

(** X4: The request preparation of the main interface passes temperature
    and visitors through, encodes the season as training does, and uses
    the training tables for weather and tide but another default: a
    listed text gets its training code, and every other text is sent to
    the model as 0 (sunny, 大潮) although training encoded it as 1
    (cloudy, 中潮). *)
Theorem prepare_codes_vs_training (request : Main.prediction_request)
    (data : Main.prediction_data) :
  Main.prepare_prediction_data request = Py.Ok data ->
  Main.pd_temp data = Main.req_water_temp request /\
  Main.pd_visitors data = Main.req_visitors request /\
  Features.encode_season (Features.get_season (Main.pd_month data))
    = Some (Main.pd_season data) /\
  match Py.dict_get Weather.feature_weather_mapping
          (Main.req_weather request) with
  | Some c => Main.pd_weather data = c
              /\ Weather.encode_weather (Main.req_weather request) = c
  | None => Main.pd_weather data = 0
            /\ Weather.encode_weather (Main.req_weather request) = 1
  end /\
  match Py.dict_get Features.tide_mapping (Main.req_tide request) with
  | Some c => Main.pd_tide data = c
              /\ Features.encode_tide (Main.req_tide request) = c
  | None => Main.pd_tide data = 0
            /\ Features.encode_tide (Main.req_tide request) = 1
  end.
Proof.
  unfold Main.prepare_prediction_data.
  unfold Py.of_option, mbind, Py.result_bind.
  destruct (Py.strptime_slash _) as [d |]; [| discriminate].
  unfold Weather.encode_weather, Features.encode_tide.
  change Main.weather_mapping with Weather.feature_weather_mapping.
  change Main.tide_mapping with Features.tide_mapping.
  assert (Hs : Features.encode_season (Features.get_season (Py.month d))
               = Some (Main.season_of_month (Py.month d))).
  { unfold Features.get_season, Main.season_of_month.
    repeat case_bool_decide; reflexivity. }
  destruct (Py.dict_get Weather.feature_weather_mapping
              (Main.req_weather request));
    destruct (Py.dict_get Features.tide_mapping (Main.req_tide request));
    intros [= <-]; repeat split; exact Hs.
Qed.

End PrepareFacts.

Lemma prepare_codes_vs_training_witness :
  exists data,
    Main.prepare_prediction_data
      (Main.PredictionRequest "2025-08-06" "快晴" 200 27 "大潮")
    = Py.Ok data /\
    Main.pd_weather data = 0 /\ Weather.encode_weather "快晴" = 1.
Proof.
  eexists. split; [vm_compute; reflexivity |].
  eapply (fun H =>
            proj1 (proj2 (proj2 (proj2
              (prepare_codes_vs_training
                 (Main.PredictionRequest "2025-08-06" "快晴" 200 27 "大潮")
                 _ H))))).
  vm_compute; reflexivity.
Defined.

(* --------------------------------------------------------------------- *)
(** ** api/main.py: accuracy figures and confidence *)
(* --------------------------------------------------------------------- *)

(** X5: The direction flag of the accuracy figures is false only when the
    two numbers differ and neither is positive; for a prediction and an
    actual catch that are not negative it is always true, whatever the
    error. *)
Theorem direction_flag_characterised (predicted actual : Z) :
  Main.direction_correct (Main.calculate_accuracy_metrics predicted actual)
    = true
  <-> predicted = actual \/ 0 < Z.max predicted actual.
Proof.
  unfold Main.calculate_accuracy_metrics.
  destruct (actual =? 0); cbn [Main.direction_correct];
    rewrite !orb_true_iff, !andb_true_iff, !Z.ltb_lt, Z.eqb_eq; lia.
Qed.

(** X6: The confidence label counts the favourable factors among the five
    (season, weather, water temperature, visitors, predicted catch):
    High with at least four, Low with at most one, Medium with two or
    three. *)
Theorem confidence_counts_factors (data : Main.prediction_data)
    (catch_count : Q) :
  let favourable :=
    length (filter (fun b : bool => b = true)
              (Main.confidence_factors data catch_count)) in
  Main.get_prediction_confidence data catch_count
  = if (4 <=? favourable)%nat then "High"%string
    else if (favourable <=? 1)%nat then "Low"%string
    else "Medium"%string.
Proof.
  unfold Main.get_prediction_confidence, Main.confidence_factors.
  destruct (bool_decide (Main.pd_season data ∈ [0; 1]));
    destruct (bool_decide (Main.pd_weather data ∈ [0; 1]));
    destruct (Qle_bool 15 (Main.pd_temp data) &&
              Qle_bool (Main.pd_temp data) 25);
    destruct ((100 <=? Main.pd_visitors data) &&
              (Main.pd_visitors data <=? 500));
    destruct (Qle_bool 50 catch_count && Qle_bool catch_count 500);
    reflexivity.
Qed.

(* --------------------------------------------------------------------- *)
(** ** Orders: strings, and the ascending sort *)
(* --------------------------------------------------------------------- *)

Lemma string_leb_refl (a : string) : String.leb a a = true.
Proof. destruct (String.leb_total a a); assumption. Qed.

Lemma string_leb_trans (a b c : string) :
  String.leb a b = true -> String.leb b c = true -> String.leb a c = true.
Proof.
  unfold String.leb. intros Hab Hbc.
  destruct (String.compare a b) eqn:E1; try discriminate;
    destruct (String.compare b c) eqn:E2; try discriminate.
  - apply String.compare_eq_iff in E1. subst. now rewrite E2.
  - apply String.compare_eq_iff in E1. subst. now rewrite E2.
  - apply String.compare_eq_iff in E2. subst. now rewrite E1.
  - assert (H : OrdersEx.String_as_OT.lt a c).
    { transitivity b; [exact E1 | exact E2]. }
    unfold OrdersEx.String_as_OT.lt in H.
    change (String.compare a c = Lt) in H. now rewrite H.
Qed.

Lemma insert_string_perm (x : string) (l : list string) :
  Py.insert_string x l ≡ₚ x :: l.
Proof.
  induction l as [| y l IH]; cbn; [reflexivity |].
  destruct (String.leb x y); [reflexivity |].
  rewrite IH. apply Permutation_swap.
Qed.

Lemma sorted_strings_perm (l : list string) : Py.sorted_strings l ≡ₚ l.
Proof.
  induction l as [| x l IH]; cbn; [reflexivity |].
  rewrite insert_string_perm. now rewrite IH.
Qed.

Lemma insert_string_sorted (x : string) (l : list string) :
  StronglySorted (fun a b => String.leb a b = true) l ->
  StronglySorted (fun a b => String.leb a b = true) (Py.insert_string x l).
Proof.
  induction l as [| y l IH]; cbn; intros Hs.
  - repeat constructor.
  - apply StronglySorted_inv in Hs as [Hl Hy].
    destruct (String.leb x y) eqn:Hxy.
    + constructor; [constructor; assumption |].
      constructor; [exact Hxy |].
      eapply Forall_impl; [exact Hy |]. cbn. intros z Hz.
      eapply string_leb_trans; eassumption.
    + constructor; [apply IH; exact Hl |].
      rewrite insert_string_perm. constructor; [| exact Hy].
      destruct (String.leb_total x y) as [H | H]; [congruence | exact H].
Qed.

Lemma sorted_strings_sorted (l : list string) :
  StronglySorted (fun a b => String.leb a b = true) (Py.sorted_strings l).
Proof.
  induction l as [| x l IH]; cbn; [constructor |].
  apply insert_string_sorted, IH.
Qed.



Lemma starts_with_split (p s : string) :
  Py.starts_with p s = true -> exists r, s = (p ++ r)%string.
Proof.
  revert s. induction p as [| a p IH]; intros s H; cbn in *.
  - now exists s.
  - destruct s as [| b s]; [discriminate |].
    apply andb_true_iff in H as [Hab Hps].
    apply Ascii.eqb_eq in Hab. subst b.
    destruct (IH s Hps) as [r ->]. now exists r.
Qed.

(* --------------------------------------------------------------------- *)
(** ** api/predict.py: the artifact the service loads *)
(* --------------------------------------------------------------------- *)

Lemma elem_of_aji_models (names : list string) (f : string) :
  f ∈ Serving.aji_models names
  <-> f ∈ names /\ Py.starts_with "aji_" f = true
      /\ Py.ends_with ".pkl" f = true.
Proof.
  unfold Serving.aji_models. rewrite list_elem_of_filter. tauto.
Qed.

Lemma latest_model_spec (names : list string) :
  match Serving.latest_model names with
  | Some m =>
      m ∈ Serving.aji_models names /\
      forall f, f ∈ Serving.aji_models names -> String.leb f m = true
  | None => Serving.aji_models names = []
  end.
Proof.
  unfold Serving.latest_model.
  pose proof (sorted_strings_sorted (Serving.aji_models names)) as Hs.
  pose proof (sorted_strings_perm (Serving.aji_models names)) as Hp.
  destruct (last (Py.sorted_strings (Serving.aji_models names)))
    as [m |] eqn:Hl.
  - split.
    + rewrite <- Hp. eapply last_Some_elem_of, Hl.
    + intros f Hf. rewrite <- Hp in Hf.
      apply last_Some in Hl as [l' Hl']. rewrite Hl' in Hs, Hf.
      apply elem_of_app in Hf as [Hf | Hf].
      * eapply (StronglySorted_app_1_elem_of _ _ _ f m Hs Hf).
        apply list_elem_of_here.
      * apply list_elem_of_singleton in Hf. subst f.
        apply string_leb_refl.
  - apply last_None in Hl. rewrite Hl in Hp.
    symmetry in Hp. now apply Permutation_nil_r in Hp.
Qed.

(** X7: The one artifact the service selects for loading is the greatest
    name, in code-point order, among the directory entries that start
    with aji_ and end with .pkl; it selects none exactly when the
    directory has no such entry. (Whether the selected file then loads
    is another matter: when it does not, the service builds its
    fallback model and tries no other artifact.) *)
Theorem latest_model_is_greatest_name (names : list string) :
  match Serving.latest_model names with
  | Some m =>
      m ∈ Serving.aji_models names /\
      forall f, f ∈ Serving.aji_models names -> String.leb f m = true
  | None => Serving.aji_models names = []
  end.
Proof. exact (latest_model_spec names). Qed.

(** X8: The choice goes by name, not by age: as soon as the directory holds
    one aji_xgboost_ artifact, no aji_random_forest_ artifact is loaded,
    whatever the time stamps in the names. *)
Theorem xgboost_shadows_random_forest (names : list string) (f m : string) :
  f ∈ names ->
  Py.starts_with "aji_xgboost_" f = true ->
  Py.ends_with ".pkl" f = true ->
  Serving.latest_model names = Some m ->
  Py.starts_with "aji_random_forest_" m = false.
Proof.
  intros Hf Hx Hpkl Hm.
  pose proof (latest_model_spec names) as H.
  rewrite Hm in H. destruct H as [_ Hmax].
  assert (Hin : f ∈ Serving.aji_models names).
  { apply elem_of_aji_models. repeat split; [exact Hf | | exact Hpkl].
    apply starts_with_split in Hx as [r ->]. reflexivity. }
  specialize (Hmax f Hin).
  destruct (Py.starts_with "aji_random_forest_" m) eqn:Hr; [| reflexivity].
  apply starts_with_split in Hx as [r1 ->].
  apply starts_with_split in Hr as [r2 ->].
  vm_compute in Hmax. discriminate Hmax.
Qed.

Lemma xgboost_shadows_random_forest_witness :
  Serving.latest_model
    [ "aji_xgboost_20250101_000000.pkl"%string;
      "aji_random_forest_20250801_120000.pkl"%string ]
    = Some "aji_xgboost_20250101_000000.pkl"%string /\
  Py.starts_with "aji_random_forest_" "aji_xgboost_20250101_000000.pkl"
    = false.
Proof.
  split; [vm_compute; reflexivity |].
  apply (xgboost_shadows_random_forest
           [ "aji_xgboost_20250101_000000.pkl"%string;
             "aji_random_forest_20250801_120000.pkl"%string ]
           "aji_xgboost_20250101_000000.pkl"
           "aji_xgboost_20250101_000000.pkl").
  - apply list_elem_of_here.
  - vm_compute; reflexivity.
  - vm_compute; reflexivity.
  - vm_compute; reflexivity.
Defined.

(* --------------------------------------------------------------------- *)
(** ** api/scraping_core.py: appending scraped rows *)
(* --------------------------------------------------------------------- *)

Lemma filter_none {A} (P : A -> Prop) `{forall x, Decision (P x)}
    (l : list A) :
  (forall x, x ∈ l -> ~ P x) -> filter P l = [].
Proof.
  induction l as [| a l IH]; intros Hall; [reflexivity |].
  rewrite filter_cons_False by (apply Hall, list_elem_of_here).
  apply IH. intros x Hx. apply Hall. now apply list_elem_of_further.
Qed.

Section ScrapingFacts.
Context `{DL : Py.DateLib}.






End ScrapingFacts.

(* --------------------------------------------------------------------- *)
(** ** ml/data_loader.py: numbers read from text *)
(* --------------------------------------------------------------------- *)

Lemma digit_of_range (a : ascii) (d : Z) :
  Py.digit_of a = Some d -> 0 <= d <= 9.
Proof.
  unfold Py.digit_of. 
  destruct ((48 <=? nat_of_ascii a)%nat && (nat_of_ascii a <=? 57)%nat) eqn:E;
    [| discriminate].
  apply andb_true_iff in E as [H1 H2].
  apply Nat.leb_le in H1, H2. intros [= <-]. lia.
Qed.

Lemma is_digit_spec (a : ascii) :
  Py.is_digit a = true <-> exists d, Py.digit_of a = Some d.
Proof.
  unfold Py.is_digit. rewrite bool_decide_eq_true. reflexivity.
Qed.

Lemma digit_of_digit_char (n : Z) :
  Py.digit_of (Py.digit_char n) = Some (n mod 10).
Proof.
  unfold Py.digit_of, Py.digit_char.
  pose proof (Z.mod_pos_bound n 10 ltac:(lia)) as Hm.
  rewrite nat_ascii_embedding by lia.
  destruct (Nat.leb_spec 48 (48 + Z.to_nat (n mod 10))); [| lia].
  destruct (Nat.leb_spec (48 + Z.to_nat (n mod 10)) 57); [| lia].
  cbn [andb]. f_equal. lia.
Qed.

Lemma parse_digits_app (s t : string) (acc : Z) :
  Py.parse_digits acc (s ++ t)
  = match Py.parse_digits acc s with
    | Some acc' => Py.parse_digits acc' t
    | None => None
    end.
Proof.
  revert acc. induction s as [| a s IH]; intros acc; [reflexivity |].
  change (String a s ++ t)%string with (String a (s ++ t)).
  cbn [Py.parse_digits].
  destruct (Py.digit_of a); [apply IH | reflexivity].
Qed.

Lemma parse_digits_digits (w : nat) (n acc : Z) :
  Py.parse_digits acc (Py.digits w n)
  = Some (acc * 10 ^ Z.of_nat w + n mod 10 ^ Z.of_nat w).
Proof.
  revert n acc. induction w as [| w IH]; intros n acc.
  - cbn. f_equal. rewrite Z.mod_1_r. lia.
  - cbn [Py.digits]. rewrite parse_digits_app, IH.
    cbn [Py.parse_digits]. rewrite digit_of_digit_char. f_equal.
    rewrite Nat2Z.inj_succ, Z.pow_succ_r by lia.
    assert (Hp : 0 < 10 ^ Z.of_nat w) by (apply Z.pow_pos_nonneg; lia).
    pose proof (Z.div_mod n 10 ltac:(lia)) as Hn.
    pose proof (Z.mod_pos_bound n 10 ltac:(lia)) as Hb.
    rewrite (Z.rem_mul_r n 10 (10 ^ Z.of_nat w)) by lia.
    ring.
Qed.

Lemma append_cons (a : ascii) (s t : string) :
  (String a s ++ t)%string = String a (s ++ t).
Proof. reflexivity. Qed.

Lemma parse_digits_ge (s : string) (acc n : Z) :
  0 <= acc -> Py.parse_digits acc s = Some n -> 0 <= n.
Proof.
  revert acc. induction s as [| a s IH]; intros acc Hacc; cbn.
  - now intros [= <-].
  - destruct (Py.digit_of a) as [d |] eqn:Hd; [| discriminate].
    apply digit_of_range in Hd. apply IH. lia.
Qed.


Lemma take_digits_digits (ds suffix : string) :
  Forall (fun a => Py.is_digit a = true) (list_ascii_of_string ds) ->
  match suffix with
  | EmptyString => True
  | String a _ => Py.is_digit a = false
  end ->
  Py.take_digits (ds ++ suffix) = (ds, suffix).
Proof.
  intros Hds Hsuf. induction ds as [| a ds IH].
  - change (EmptyString ++ suffix)%string with suffix.
    destruct suffix as [| b t]; [reflexivity |].
    cbn [Py.take_digits]. now rewrite Hsuf.
  - rewrite append_cons. cbn in Hds. apply Forall_cons in Hds as [Ha Hds].
    cbn [Py.take_digits]. rewrite Ha, (IH Hds). reflexivity.
Qed.

Lemma is_digit_digit_char (n : Z) : Py.is_digit (Py.digit_char n) = true.
Proof. apply is_digit_spec. eexists. apply digit_of_digit_char. Qed.

Lemma list_ascii_app (s t : string) :
  list_ascii_of_string (s ++ t)
  = (list_ascii_of_string s ++ list_ascii_of_string t)%list.
Proof.
  induction s as [| a s IH]; [reflexivity |].
  rewrite append_cons. cbn. now rewrite IH.
Qed.

Lemma digits_all_digits (w : nat) (n : Z) :
  Forall (fun a => Py.is_digit a = true) (list_ascii_of_string (Py.digits w n)).
Proof.
  revert n. induction w as [| w IH]; intros n; cbn [Py.digits].
  - constructor.
  - rewrite list_ascii_app. apply Forall_app. split; [apply IH |].
    cbn. constructor; [apply is_digit_digit_char | constructor].
Qed.

Lemma drop_non_digits_head (ds suffix : string) :
  Forall (fun a => Py.is_digit a = true) (list_ascii_of_string ds) ->
  ds <> EmptyString ->
  Py.drop_non_digits (ds ++ suffix) = (ds ++ suffix)%string.
Proof.
  intros Hds Hne. destruct ds as [| a ds]; [congruence |].
  cbn in Hds. apply Forall_cons in Hds as [Ha _].
  rewrite append_cons. cbn [Py.drop_non_digits]. now rewrite Ha.
Qed.

Lemma digits_nonempty (w : nat) (n : Z) :
  (0 < w)%nat -> Py.digits w n <> EmptyString.
Proof.
  destruct w as [| w]; [lia |]. intros _. cbn [Py.digits].
  destruct (Py.digits w (n / 10)); discriminate.
Qed.

Lemma length_append (s t : string) :
  String.length (s ++ t) = (String.length s + String.length t)%nat.
Proof.
  induction s as [| a s IH]; [reflexivity |].
  rewrite append_cons. cbn. now rewrite IH.
Qed.

Lemma length_digits (w : nat) (n : Z) : String.length (Py.digits w n) = w.
Proof.
  revert n. induction w as [| w IH]; intros n; [reflexivity |].
  cbn [Py.digits]. rewrite length_append, IH. cbn. lia.
Qed.




Lemma drop_non_digits_head_digit (s : string) :
  match Py.drop_non_digits s with
  | EmptyString => True
  | String b _ => Py.is_digit b = true
  end.
Proof.
  induction s as [| a s IH]; [exact I |].
  cbn [Py.drop_non_digits]. destruct (Py.is_digit a) eqn:Ha; assumption.
Qed.




Lemma extract_decimal_digits (w v : nat) (i f : Z) (rest : string) :
  (0 < w)%nat -> 0 <= i < 10 ^ Z.of_nat w -> 0 <= f < 10 ^ Z.of_nat v ->
  Py.extract_decimal (Py.digits w i ++ "." ++ Py.digits v f ++ "℃" ++ rest)
  = Some (Qred (inject_Z i + inject_Z f / inject_Z (10 ^ Z.of_nat v))).
Proof.
  intros Hw Hi Hf. unfold Py.extract_decimal.
  rewrite drop_non_digits_head
    by (apply digits_all_digits || now apply digits_nonempty).
  rewrite take_digits_digits by (apply digits_all_digits || reflexivity).
  unfold Py.parse_number.
  destruct (Py.digits w i) eqn:Hd; [now apply digits_nonempty in Hd |].
  rewrite <- Hd, parse_digits_digits.
  change ("." ++ Py.digits v f ++ "℃" ++ rest)%string
    with (String "." (Py.digits v f ++ "℃" ++ rest)).
  cbv beta iota.
  rewrite take_digits_digits by (apply digits_all_digits || reflexivity).
  cbn [fst]. rewrite parse_digits_digits, length_digits.
  rewrite !Z.mod_small by lia. rewrite !Z.mul_0_l, !Z.add_0_l. reflexivity.
Qed.

Lemma extract_decimal_whole (w : nat) (i : Z) (rest : string) :
  (0 < w)%nat -> 0 <= i < 10 ^ Z.of_nat w ->
  Py.extract_decimal (Py.digits w i ++ "℃" ++ rest) = Some (inject_Z i).
Proof.
  intros Hw Hi. unfold Py.extract_decimal.
  rewrite drop_non_digits_head
    by (apply digits_all_digits || now apply digits_nonempty).
  rewrite take_digits_digits by (apply digits_all_digits || reflexivity).
  unfold Py.parse_number.
  destruct (Py.digits w i) eqn:Hd; [now apply digits_nonempty in Hd |].
  rewrite <- Hd, parse_digits_digits.
  rewrite Z.mod_small by lia. rewrite Z.mul_0_l, Z.add_0_l. reflexivity.
Qed.

(** X14: [_extract_temperature] reads back whole and half degrees: a
    reading written as a whole number below 2^52, alone or followed by a
    point and the single decimal 0 or 5, then the degree glyph and any
    further text, gives exactly that number. These values are held
    exactly by the binary64 that [float] returns, so the rational of the
    model and the float of the code are the same number here. *)
Theorem temperature_round_trip (w : nat) (i f : Z) (rest : string) :
  (0 < w)%nat -> 0 <= i < 10 ^ Z.of_nat w -> i < 2 ^ 52 ->
  f = 0 \/ f = 5 ->
  DataLoader._extract_temperature
    (Py.digits w i ++ "." ++ Py.digits 1 f ++ "℃" ++ rest)
  = Some (Qred (inject_Z i + inject_Z f / 10)) /\
  DataLoader._extract_temperature (Py.digits w i ++ "℃" ++ rest)
  = Some (inject_Z i).
Proof.
  intros Hw Hi _ Hf. unfold DataLoader._extract_temperature. split.
  - apply (extract_decimal_digits w 1 i f rest Hw Hi).
    change (10 ^ Z.of_nat 1) with 10. lia.
  - now apply extract_decimal_whole.
Qed.

Lemma temperature_round_trip_witness :
  DataLoader._extract_temperature "26.5℃" = Some (53 # 2) /\
  DataLoader._extract_temperature "26℃" = Some 26%Q.
Proof.
  exact (temperature_round_trip 2 26 5 "" ltac:(lia) ltac:(lia) ltac:(lia)
           ltac:(lia)).
Defined.

(** X15: [_extract_temperature] never yields a negative temperature: the
    pattern has no sign, so a reading below zero comes out positive. *)
Theorem temperature_never_negative (temp_str : string) (q : Q) :
  DataLoader._extract_temperature temp_str = Some q -> (0 <= q)%Q.
Proof.
  unfold DataLoader._extract_temperature, Py.extract_decimal.
  destruct (Py.take_digits (Py.drop_non_digits temp_str)) as [ip rest].
  destruct (Py.parse_number ip) as [i |] eqn:Hi; [| discriminate].
  assert (H0 : 0 <= i).
  { unfold Py.parse_number in Hi. destruct ip; [discriminate |].
    eapply parse_digits_ge; [| exact Hi]. lia. }
  assert (Hq : (0 <= inject_Z i)%Q).
  { unfold Qle. cbn. lia. }
  destruct rest as [| c rest']; [now intros [= <-] |].
  destruct (Ascii.eqb_spec c "."%char) as [-> | Hne].
  - destruct (Py.parse_digits 0 (Py.take_digits rest').1) as [f |] eqn:Hfp;
      [| now intros [= <-]].
    intros [= <-]. rewrite Qred_correct.
    assert (Hf0 : 0 <= f) by (eapply parse_digits_ge; [| exact Hfp]; lia).
    assert (Hp : 0 < 10 ^ Z.of_nat (String.length (Py.take_digits rest').1))
      by (apply Z.pow_pos_nonneg; lia).
    apply Qle_trans with (inject_Z i); [exact Hq |].
    rewrite <- (Qplus_0_r (inject_Z i)) at 1.
    apply Qplus_le_r. apply Qle_shift_div_l.
    + unfold Qlt. cbn. lia.
    + rewrite Qmult_0_l. unfold Qle. cbn. lia.
  - intros H. 
    destruct c as [[] [] [] [] [] [] [] []]; try (now inversion H; subst);
      congruence.
Qed.

Lemma temperature_never_negative_witness :
  DataLoader._extract_temperature "-5.5℃" = Some (11 # 2) /\ (0 <= 11 # 2)%Q.
Proof.
  split; [vm_compute; reflexivity |].
  apply (temperature_never_negative "-5.5℃"). vm_compute; reflexivity.
Defined.

(* --------------------------------------------------------------------- *)
(** ** api/historical.py: loader, filters and summary *)
(* --------------------------------------------------------------------- *)

Lemma mapM_result_inv {A B} (f : A -> Py.result B) (l : list A)
    (vs : list B) :
  mapM (M := Py.result) f l = Py.Ok vs ->
  Forall2 (fun x v => f x = Py.Ok v) l vs.
Proof.
  revert vs. induction l as [| x l IH]; intros vs; cbn.
  - intros [= <-]. constructor.
  - destruct (f x) as [v | e] eqn:Hx; cbn; [| discriminate].
    destruct (mapM f l) as [vs' | e]; cbn; [| discriminate].
    intros [= <-]. constructor; [exact Hx | now apply IH].
Qed.

Lemma Forall2_zip_elem {A B} (P : A -> B -> Prop) (l : list A) (k : list B)
    (x : A) (y : B) :
  Forall2 P l k -> (x, y) ∈ zip l k -> P x y.
Proof.
  induction 1 as [| a b l k Hab _ IH]; cbn; intros Hin.
  - now apply elem_of_nil in Hin.
  - apply elem_of_cons in Hin as [[= -> ->] | Hin]; [exact Hab | now apply IH].
Qed.

Lemma length_omap_le {A B} (f : A -> option B) (l : list A) :
  (length (omap f l) <= length l)%nat.
Proof.
  induction l as [| x l IH]; cbn; [lia |].
  destruct (f x); cbn; lia.
Qed.

Lemma extract_int_nonneg (s : string) (n : Z) :
  Py.extract_int s = Some n -> 0 <= n.
Proof.
  unfold Py.extract_int, Py.parse_number.
  destruct (Py.take_digits (Py.drop_non_digits s)).1; [discriminate |].
  apply parse_digits_ge. lia.
Qed.

Lemma string_ltb_trans (a b c : string) :
  String.ltb a b = true -> String.ltb b c = true -> String.ltb a c = true.
Proof.
  unfold String.ltb. intros Hab Hbc.
  destruct (String.compare a b) eqn:E1; try discriminate.
  destruct (String.compare b c) eqn:E2; try discriminate.
  assert (H : OrdersEx.String_as_OT.lt a c).
  { transitivity b; [exact E1 | exact E2]. }
  unfold OrdersEx.String_as_OT.lt in H.
  change (String.compare a c = Lt) in H. now rewrite H.
Qed.

Lemma string_ltb_irrefl (a : string) : String.ltb a a = false.
Proof.
  unfold String.ltb. destruct (String.compare a a) eqn:E; try reflexivity.
  pose proof (String.compare_antisym a a) as H. rewrite E in H. discriminate.
Qed.

Lemma string_ltb_total (a b : string) :
  a <> b -> String.ltb a b = false -> String.ltb b a = true.
Proof.
  unfold String.ltb. intros Hne H.
  rewrite String.compare_antisym.
  destruct (String.compare a b) eqn:E; try discriminate; [| reflexivity].
  apply String.compare_eq_iff in E. contradiction.
Qed.

Lemma elem_of_insert_key (x k : string) (ks : list string) :
  x ∈ Historical.insert_key k ks <-> x = k \/ x ∈ ks.
Proof.
  induction ks as [| k' ks IH]; cbn.
  - rewrite list_elem_of_singleton, elem_of_nil. tauto.
  - destruct (String.eqb_spec k k') as [-> | Hne].
    + rewrite elem_of_cons. tauto.
    + destruct (String.ltb k k').
      * rewrite !elem_of_cons. tauto.
      * rewrite !elem_of_cons, IH. tauto.
Qed.

Lemma insert_key_sorted (k : string) (ks : list string) :
  StronglySorted (fun a b => String.ltb a b = true) ks ->
  StronglySorted (fun a b => String.ltb a b = true)
    (Historical.insert_key k ks).
Proof.
  induction ks as [| k' ks IH]; cbn; intros Hs.
  - repeat constructor.
  - apply StronglySorted_inv in Hs as [Hl Hy].
    destruct (String.eqb_spec k k') as [-> | Hne].
    + now constructor.
    + destruct (String.ltb k k') eqn:Hlt.
      * constructor; [now constructor |].
        constructor; [exact Hlt |].
        eapply Forall_impl; [exact Hy |]. cbn. intros z Hz.
        eapply string_ltb_trans; eassumption.
      * constructor; [apply IH; exact Hl |].
        apply Forall_forall. intros z Hz.
        apply elem_of_insert_key in Hz as [-> | Hz].
        -- apply string_ltb_total; [congruence | exact Hlt].
        -- rewrite Forall_forall in Hy. now apply Hy.
Qed.

Lemma sorted_ltb_NoDup (ks : list string) :
  StronglySorted (fun a b => String.ltb a b = true) ks -> NoDup ks.
Proof.
  induction 1 as [| k ks Hs IH Hk]; constructor; [| exact IH].
  intros Hin. rewrite Forall_forall in Hk. specialize (Hk _ Hin).
  now rewrite string_ltb_irrefl in Hk.
Qed.

Lemma group_keys_spec (l : list string) :
  StronglySorted (fun a b => String.ltb a b = true)
    (foldr Historical.insert_key [] l) /\
  forall x, x ∈ foldr Historical.insert_key [] l <-> x ∈ l.
Proof.
  induction l as [| k l [IHs IHe]]; cbn.
  - split; [constructor | reflexivity].
  - split; [now apply insert_key_sorted |].
    intros x. rewrite elem_of_insert_key, elem_of_cons, IHe. reflexivity.
Qed.

(** Counting a list by the classes of a key. *)
Lemma count_by_classes {A K} `{EqDecision K} (key : A -> K) (ks : list K)
    (l : list A) :
  NoDup ks -> (forall x, x ∈ l -> key x ∈ ks) ->
  foldr Z.add 0
    ((fun k => Z.of_nat (length (filter (fun x => key x = k) l))) <$> ks)
  = Z.of_nat (length l).
Proof.
  intros Hnd Hall.
  assert (Hgen : foldr Z.add 0
            ((fun k => Z.of_nat (length (filter (fun x => key x = k) l)))
               <$> ks)
          = Z.of_nat (length (filter (fun x => key x ∈ ks) l))).
  { clear Hall. induction Hnd as [| k ks Hk Hnd IH]; cbn.
    - rewrite filter_none; [reflexivity |]. intros x _. apply not_elem_of_nil.
    - rewrite IH. clear IH.
      induction l as [| a l IHl]; [reflexivity |].
      rewrite !filter_cons.
      repeat case_decide; cbn [length]; try lia; exfalso;
        repeat match goal with
               | Hy : _ ∈ _ :: _ |- _ => apply elem_of_cons in Hy as [? | ?]
               | Hn : _ ∉ _ :: _ |- _ =>
                   rewrite not_elem_of_cons in Hn; destruct Hn
               end; subst; try contradiction; congruence. }
  rewrite Hgen. f_equal. f_equal.
  clear Hgen. induction l as [| a l IH]; [reflexivity |].
  rewrite filter_cons_True by (apply Hall, list_elem_of_here).
  f_equal. apply IH. intros x Hx. apply Hall. now apply list_elem_of_further.
Qed.

Lemma group_by_counts (key : Historical.record -> string)
    (df : list Historical.record) :
  NoDup (Historical.group_by key df).*1 /\
  (forall k, k ∈ (Historical.group_by key df).*1 <-> k ∈ key <$> df) /\
  Forall (fun g => 1 <= Historical.days g.2) (Historical.group_by key df) /\
  foldr Z.add 0 ((fun g => Historical.days g.2) <$> Historical.group_by key df)
  = Z.of_nat (length df).
Proof.
  unfold Historical.group_by.
  destruct (group_keys_spec (key <$> df)) as [Hs He].
  set (ks := foldr Historical.insert_key [] (key <$> df)) in *.
  match goal with
  | |- context [(map ?f ks).*1] => assert (Hfst : (map f ks).*1 = ks)
  end.
  { clearbody ks. clear. induction ks as [| k ks IH]; cbn; [reflexivity |].
    f_equal. exact IH. }
  rewrite Hfst. split; [now apply sorted_ltb_NoDup |]. split; [exact He |].
  split.
  - apply Forall_forall. intros g Hg.
    apply list_elem_of_fmap in Hg as (k & -> & Hk). cbn.
    rewrite length_fmap. apply He, list_elem_of_fmap in Hk as (r & Hr & Hin).
    assert (Hin' : r ∈ filter (fun r => key r = k) df)
      by (apply list_elem_of_filter; split; [now symmetry | exact Hin]).
    destruct (filter (fun r => key r = k) df);
      [now apply elem_of_nil in Hin' | cbn; lia].
  - rewrite <- list_fmap_compose.
    rewrite <- (count_by_classes key ks df).
    + f_equal. apply list_fmap_ext. intros i k _. cbn.
      now rewrite length_fmap.
    + now apply sorted_ltb_NoDup.
    + intros x Hx. apply He. now apply list_elem_of_fmap_2.
Qed.

(** X18: Each breakdown of the summary (by month, by species, by weather)
    partitions the matching records: its keys are distinct, every line
    counts at least one record, and the lines together count every
    record exactly once. *)
Theorem summary_breakdowns_partition (df : list Historical.record)
    (original_count : Z) tr orig total mx mn avg range bm bf bw :
  Historical.generate_summary df original_count
    = Historical.Summary tr orig total mx mn avg range bm bf bw ->
  tr = Z.of_nat (length df) /\ orig = original_count /\
  Forall (fun b : list (string * Historical.group_stats) =>
            NoDup b.*1 /\
            Forall (fun g => 1 <= Historical.days g.2) b /\
            foldr Z.add 0 ((fun g => Historical.days g.2) <$> b) = tr)
         [bm; bf; bw].
Proof.
  unfold Historical.generate_summary.
  destruct df as [| r rest] eqn:Hdf; [discriminate |]. rewrite <- Hdf.
  intros [= <- <- _ _ _ _ _ <- <- <-].
  split; [reflexivity |]. split; [reflexivity |].
  repeat constructor;
    match goal with
    | |- context [Historical.group_by ?key df] =>
        pose proof (group_by_counts key df) as (H1 & _ & H3 & H4)
    end; assumption.
Qed.

Section HistoricalMore.
Context `{PD : Py.Pandas} `{DL : Py.DateLib}.

(** X16: Every record the query loader returns has a visitor count and a
    catch that are not negative, and the loader returns at most one
    record per ledger row. An empty ledger is an error, not an empty
    result. *)
Theorem loaded_records_invariant (data : list Historical.raw_record)
    (df : list Historical.record) :
  Historical.load_fishing_data (Some data) = Py.Ok df ->
  Forall (fun r => 0 <= Historical.visitors r
                   /\ (0 <= Historical.catch r)%Q) df /\
  (length df <= length data)%nat /\
  data <> [].
Proof.
  unfold Historical.load_fishing_data. cbn.
  destruct data as [| r0 data0] eqn:Hdata; [discriminate |].
  rewrite <- Hdata.
  assert (Hne : data <> []) by (rewrite Hdata; discriminate).
  clear Hdata.
  destruct (mapM _ data) as [col | e] eqn:Hm; cbn; [| discriminate].
  intros [= <-]. apply mapM_result_inv in Hm.
  split; [| split; [| exact Hne]].
  - apply Forall_forall. intros r Hr.
    apply list_elem_of_omap in Hr as ([x v] & Hin & Hsome).
    cbn in Hsome.
    destruct (Py.strptime_slash _) as [d |]; cbn in Hsome; [| discriminate].
    destruct (Py.to_numeric _) as [c |]; cbn in Hsome; [| discriminate].
    destruct (Qle_bool 0 c) eqn:Hc; [| discriminate].
    injection Hsome as <-. cbn. split; [| now apply Qle_bool_iff].
    pose proof (Forall2_zip_elem _ _ _ _ _ Hm Hin) as Hv. cbn in Hv.
    destruct (Py.extract_int (Historical.raw_visitors x)) as [n |] eqn:Hn;
      [| discriminate].
    injection Hv as <-. eapply extract_int_nonneg, Hn.
  - etransitivity; [apply length_omap_le |].
    rewrite length_zip_with. lia.
Qed.

(** X17: The filters of the query act together and independently: a record
    is returned exactly when it is in the loaded frame and passes every
    filter that is switched on (the species filter is off for the empty
    text and for all in any letter case; the others are off for a
    missing or empty text). *)
Theorem filters_are_conjunctive (df out : list Historical.record)
    (fish : string) (start_date end_date weather tide : option string) :
  Historical.filtered_records df fish start_date end_date weather tide
    = Py.Ok out ->
  forall r,
    r ∈ out <->
    r ∈ df /\
    (fish = ""%string \/ Py.lower fish = "all"%string
     \/ Historical.fish r = fish) /\
    (forall s d, Historical.given start_date = Some s ->
                 Py.to_datetime s = Some d ->
                 Py.days_from_civil d <= Historical.date_key r) /\
    (forall s d, Historical.given end_date = Some s ->
                 Py.to_datetime s = Some d ->
                 Historical.date_key r <= Py.days_from_civil d) /\
    (forall w, Historical.given weather = Some w ->
               Historical.weather r = w) /\
    (forall t, Historical.given tide = Some t -> Historical.tide r = t).
Proof.
  unfold Historical.filtered_records.
  unfold mbind, Py.result_bind, Py.of_option.
  intros H r.
  destruct (String.eqb_spec fish "") as [Hf1 | Hf1];
    destruct (String.eqb_spec (Py.lower fish) "all") as [Hf2 | Hf2];
    cbn [negb andb] in H;
    destruct (Historical.given start_date) as [s |];
    try (destruct (Py.to_datetime s) as [sd |] eqn:Hsd; [| discriminate H]);
    destruct (Historical.given end_date) as [e |];
    try (destruct (Py.to_datetime e) as [ed |] eqn:Hed; [| discriminate H]);
    destruct (Historical.given weather) as [w |];
    destruct (Historical.given tide) as [t |];
    injection H as <-;
    rewrite sort_desc_perm, ?list_elem_of_filter;
    (split;
     [ intros Hin;
       repeat match goal with Hc : _ /\ _ |- _ => destruct Hc end;
       repeat split; auto; intros; simplify_eq; auto
     | intros (Hin & Hfish & Hs & He & Hw & Ht);
       repeat split; eauto;
       destruct Hfish as [? | [? | ?]]; try congruence; auto ]).
Qed.
End HistoricalMore.

Lemma loaded_records_invariant_witness :
  Forall (fun r => 0 <= Historical.visitors r
                   /\ (0 <= Historical.catch r)%Q) Strict.loaded /\
  (length Strict.loaded <= 3)%nat /\
  [ Strict.day1; Strict.day2; Strict.day3 ] <> [].
Proof.
  apply (loaded_records_invariant
           [ Strict.day1; Strict.day2; Strict.day3 ] Strict.loaded).
  vm_compute; reflexivity.
Defined.

Lemma filters_are_conjunctive_witness :
  Strict.loaded_day2 ∈ [ Strict.loaded_day2 ] <->
  Strict.loaded_day2 ∈ Strict.loaded /\
  ("アジ"%string = ""%string \/ Py.lower "アジ" = "all"%string
   \/ Historical.fish Strict.loaded_day2 = "アジ"%string) /\
  (forall s d, Historical.given (Some "2025/02/01"%string) = Some s ->
               Py.to_datetime s = Some d ->
               Py.days_from_civil d
               <= Historical.date_key Strict.loaded_day2) /\
  (forall s d, Historical.given None = Some s ->
               Py.to_datetime s = Some d ->
               Historical.date_key Strict.loaded_day2
               <= Py.days_from_civil d) /\
  (forall w, Historical.given (Some ""%string) = Some w ->
             Historical.weather Strict.loaded_day2 = w) /\
  (forall t, Historical.given None = Some t ->
             Historical.tide Strict.loaded_day2 = t).
Proof.
  apply (filters_are_conjunctive Strict.loaded [ Strict.loaded_day2 ]
           "アジ" (Some "2025/02/01"%string) None (Some ""%string) None).
  vm_compute; reflexivity.
Defined.

Lemma summary_breakdowns_partition_witness :
  exists total mx mn avg range bm bf bw,
    Historical.generate_summary Strict.loaded 3
      = Historical.Summary 3 3 total mx mn avg range bm bf bw /\
    Forall (fun b : list (string * Historical.group_stats) =>
              NoDup b.*1 /\
              Forall (fun g => 1 <= Historical.days g.2) b /\
              foldr Z.add 0 ((fun g => Historical.days g.2) <$> b) = 3)
           [bm; bf; bw].
Proof.
  do 8 eexists. split; [vm_compute; reflexivity |].
  eapply (fun H => proj2 (proj2 (summary_breakdowns_partition
                                   Strict.loaded 3 _ _ _ _ _ _ _ _ _ _ H))).
  vm_compute; reflexivity.
Defined.

(* --------------------------------------------------------------------- *)
(** ** api/visitor_analysis.py: cleaning, the table and the estimate *)
(* --------------------------------------------------------------------- *)

Lemma visitor_weather_in_types (raw : string) :
  Weather.visitor_weather raw ∈ Visitors.weather_types.
Proof.
  unfold Weather.visitor_weather, Weather.weather_mapping,
    Visitors.weather_types.
  rewrite !dict_get_cons. split_on_keys raw; cbn [default Py.dict_get];
    repeat (first [apply list_elem_of_here | apply list_elem_of_further]).
Qed.

Lemma dict_get_NoDup {V} (l : list (string * V)) (k : string) (v : V) :
  NoDup l.*1 -> (k, v) ∈ l -> Py.dict_get l k = Some v.
Proof.
  induction l as [| [k' v'] l IH]; cbn; intros Hnd Hin.
  - now apply elem_of_nil in Hin.
  - apply NoDup_cons in Hnd as [Hk Hnd].
    apply elem_of_cons in Hin as [[= -> ->] | Hin].
    + now rewrite String.eqb_refl.
    + destruct (String.eqb_spec k' k) as [-> | Hne]; [| now apply IH].
      exfalso. apply Hk. apply list_elem_of_fmap. now exists (k, v).
Qed.

Lemma dict_get_None {V} (l : list (string * V)) (k : string) :
  k ∉ l.*1 -> Py.dict_get l k = None.
Proof.
  induction l as [| [k' v'] l IH]; cbn; intros Hk; [reflexivity |].
  rewrite not_elem_of_cons in Hk. destruct Hk as [Hne Hk].
  destruct (String.eqb_spec k' k) as [-> | _]; [congruence | now apply IH].
Qed.

Lemma patterns_NoDup : NoDup Visitors.patterns.
Proof. refine (bool_decide_unpack _ _). vm_compute. exact I. Qed.

Lemma pattern_keys_NoDup :
  NoDup ((fun wk : string * string => Visitors.pattern wk.1 wk.2)
           <$> Visitors.patterns).
Proof. refine (bool_decide_unpack _ _). vm_compute. exact I. Qed.

Lemma elem_of_patterns (w d : string) :
  (w, d) ∈ Visitors.patterns
  <-> w ∈ Visitors.weather_types /\ d ∈ Visitors.weekday_types.
Proof.
  unfold Visitors.patterns. rewrite list_elem_of_bind. split.
  - intros (w' & Hin & Hw). apply list_elem_of_bind in Hin as (d' & Hin & Hd).
    apply list_elem_of_singleton in Hin. injection Hin as -> ->. now split.
  - intros [Hw Hd]. exists w. split; [| exact Hw].
    apply list_elem_of_bind. exists d. split; [| exact Hd].
    apply list_elem_of_here.
Qed.

Lemma ends_with_app (pre suf : string) :
  Py.ends_with suf (pre ++ suf) = true.
Proof.
  unfold Py.ends_with. rewrite length_append.
  replace (String.length pre + String.length suf - String.length suf)%nat
    with (String.length pre) by lia.
  apply andb_true_iff. split; [| apply Nat.leb_le; lia].
  induction pre as [| a pre IH]; cbn [String.length Py.ends_with_aux].
  - apply String.eqb_refl.
  - rewrite append_cons. exact IH.
Qed.

Lemma append_inv_r (p q suf : string) :
  (p ++ suf)%string = (q ++ suf)%string -> p = q.
Proof.
  revert q. induction p as [| a p IH]; intros [| b q] H.
  - reflexivity.
  - apply (f_equal String.length) in H.
    rewrite !length_append in H. cbn [String.length] in H. lia.
  - apply (f_equal String.length) in H.
    rewrite !length_append in H. cbn [String.length] in H. lia.
  - rewrite !append_cons in H. injection H as -> H. f_equal. now apply IH.
Qed.

(** A pattern key determines its weather part: a weather text outside
    the four classes never produces a key of the table. *)
Lemma unlisted_key_not_in_table (weather wd : string) :
  weather ∉ Visitors.weather_types ->
  wd ∈ Visitors.weekday_types ->
  Visitors.pattern weather wd
    ∉ (fun wk : string * string => Visitors.pattern wk.1 wk.2)
        <$> Visitors.patterns.
Proof.
  intros Hw Hwd Hin.
  apply list_elem_of_fmap in Hin as ([w' d'] & Hk & Hin). cbn in Hk.
  assert (He : Py.ends_with ("_" ++ wd) (Visitors.pattern w' d') = true).
  { rewrite <- Hk. apply ends_with_app. }
  assert (Hw' : w' ∈ Visitors.weather_types)
    by (now apply elem_of_patterns in Hin).
  assert (Hd' : d' ∈ Visitors.weekday_types)
    by (now apply elem_of_patterns in Hin).
  assert (Heq : wd = d').
  { clear Hk Hin Hw. unfold Visitors.weather_types in Hw'.
    unfold Visitors.weekday_types in Hwd, Hd'.
    repeat (apply elem_of_cons in Hw' as [-> | Hw']);
      try (now apply elem_of_nil in Hw');
      repeat (apply elem_of_cons in Hd' as [-> | Hd']);
      try (now apply elem_of_nil in Hd');
      repeat (apply elem_of_cons in Hwd as [-> | Hwd]);
      try (now apply elem_of_nil in Hwd);
      first [reflexivity | vm_compute in He; discriminate He]. }
  subst d'. unfold Visitors.pattern in Hk.
  apply append_inv_r in Hk. subst w'. contradiction.
Qed.

Section VisitorMore.
Context `{PD : Py.Pandas} `{DL : Py.DateLib}.

Lemma clean_data_row (records : list Visitors.raw_row)
    (r : Visitors.row) :
  r ∈ Visitors._clean_data records ->
  (0 <= Visitors.r_visitors r <= 2000)%Q /\
  Visitors.r_weather r ∈ Visitors.weather_types /\
  Visitors.weekday_name (Py.weekday (Visitors.r_date r))
    = Some (Visitors.r_weekday r) /\
  Visitors.r_weekday r ∈ Visitors.weekday_types.
Proof.
  unfold Visitors._clean_data. intros Hr.
  apply list_elem_of_omap in Hr as (x & _ & Hx). cbv beta in Hx.
  apply bind_Some in Hx as (d & _ & Hx).
  apply bind_Some in Hx as (wd & Hwd & Hx).
  apply bind_Some in Hx as (v & _ & Hx).
  destruct (Qle_bool 0 v && Qle_bool v 2000) eqn:Hv; [| discriminate Hx].
  injection Hx as <-.
  cbn [Visitors.r_visitors Visitors.r_weather Visitors.r_date
       Visitors.r_weekday].
  apply andb_true_iff in Hv as [H0 H1]. apply Qle_bool_iff in H0, H1.
  split; [split; assumption |].
  split; [apply visitor_weather_in_types |]. split; [exact Hwd |].
  destruct (weekday_name_total d) as (wd' & Hwd' & Hin). congruence.
Qed.

(** X19: Every row that survives the cleaning has a visitor count between 0
    and 2000, one of the four weather classes, and the weekday name of
    its own date. *)
Theorem clean_data_invariant (records : list Visitors.raw_row)
    (r : Visitors.row) :
  r ∈ Visitors._clean_data records ->
  (0 <= Visitors.r_visitors r <= 2000)%Q /\
  Visitors.r_weather r ∈ Visitors.weather_types /\
  Visitors.weekday_name (Py.weekday (Visitors.r_date r))
    = Some (Visitors.r_weekday r) /\
  Visitors.r_weekday r ∈ Visitors.weekday_types.
Proof. exact (clean_data_row records r). Qed.

Lemma fold_add_pattern (df : list Visitors.row)
    (ps : list (string * string))
    (acc : list (string * Visitors.cell) * list (string * Z)) :
  exists cells,
    (foldl (Visitors.add_pattern df) acc ps).1 = acc.1 ++ cells /\
    Forall2
      (fun (wk : string * string) (e : string * Visitors.cell) =>
         e.1 = Visitors.pattern wk.1 wk.2 /\
         Visitors.count e.2
         = Z.of_nat (length (filter (fun r => Visitors.r_weather r = wk.1
                                              /\ Visitors.r_weekday r = wk.2)
                               df)) /\
         Visitors.estimated e.2 = bool_decide (Visitors.count e.2 = 0))
      ps cells.
Proof.
  revert acc. induction ps as [| [w d] ps IH]; intros acc; cbn [foldl].
  - exists []. rewrite app_nil_r. split; [reflexivity | constructor].
  - destruct (IH (Visitors.add_pattern df acc (w, d))) as (cells & Hc & Hf).
    rewrite Hc. unfold Visitors.add_pattern.
    set (n := length (filter (fun r => Visitors.r_weather r = w
                                       /\ Visitors.r_weekday r = d) df)).
    assert (Hn : n = length (Visitors.r_visitors <$>
                   filter (fun r => Visitors.r_weather r = w
                                    /\ Visitors.r_weekday r = d) df))
      by now rewrite length_fmap.
    destruct (Visitors.r_visitors <$> filter _ df) as [| v vs];
      cbn [fst]; eexists (_ :: cells); rewrite <- app_assoc;
      (split; [reflexivity |]); (constructor; [| exact Hf]);
      cbn [fst snd Visitors.count Visitors.estimated]; fold n; rewrite Hn;
      repeat split.
Qed.


Lemma Forall2_elem_l {A B} (P : A -> B -> Prop) (l : list A) (k : list B)
    (x : A) :
  Forall2 P l k -> x ∈ l -> exists y, y ∈ k /\ P x y.
Proof.
  induction 1 as [| a b l k Hab _ IH]; intros Hin.
  - now apply elem_of_nil in Hin.
  - apply elem_of_cons in Hin as [-> | Hin].
    + exists b. split; [apply list_elem_of_here | exact Hab].
    + destruct (IH Hin) as (y & Hy & HP). exists y.
      split; [now apply list_elem_of_further | exact HP].
Qed.

(** The table of a successful calculation, as one statement: its cells
    are those of the 28 patterns in loop order, each with the number of
    ledger rows of its pattern as count and marked estimated exactly
    when that number is 0. *)
Lemma table_cells (sheet : option (list Visitors.raw_row)) :
  Visitors.fetch_latest_data sheet <> [] ->
  Visitors.status (Visitors.calculate_visitor_averages sheet)
    = "success"%string /\
  Visitors.total_records
    (Visitors.stats (Visitors.calculate_visitor_averages sheet))
    = Z.of_nat (length (Visitors.fetch_latest_data sheet)) /\
  Forall2
    (fun (wk : string * string) (e : string * Visitors.cell) =>
       e.1 = Visitors.pattern wk.1 wk.2 /\
       Visitors.count e.2
       = Z.of_nat (length (filter (fun r => Visitors.r_weather r = wk.1
                                            /\ Visitors.r_weekday r = wk.2)
                             (Visitors.fetch_latest_data sheet))) /\
       Visitors.estimated e.2 = bool_decide (Visitors.count e.2 = 0))
    Visitors.patterns
    (Visitors.averages (Visitors.calculate_visitor_averages sheet)).
Proof.
  intros Hne. unfold Visitors.calculate_visitor_averages.
  destruct (Visitors.fetch_latest_data sheet) as [| r0 df0] eqn:Hdf;
    [congruence |].
  rewrite <- Hdf.
  destruct (fold_add_pattern (Visitors.fetch_latest_data sheet)
              Visitors.patterns ([], [])) as (cells & Hc & Hf).
  destruct (foldl _ _ Visitors.patterns) as [avgs pcounts].
  cbn [fst app] in Hc. subst avgs. cbn.
  split; [reflexivity |]. split; [reflexivity | exact Hf].
Qed.

Lemma table_keys (sheet : option (list Visitors.raw_row)) :
  Visitors.fetch_latest_data sheet <> [] ->
  (Visitors.averages (Visitors.calculate_visitor_averages sheet)).*1
  = (fun wk : string * string => Visitors.pattern wk.1 wk.2)
      <$> Visitors.patterns.
Proof.
  intros Hne. destruct (table_cells sheet Hne) as (_ & _ & Hf).
  induction Hf as [| wk e ps cells (He & _) _ IH]; cbn; [reflexivity |].
  now rewrite He, IH.
Qed.

(** X20: A successful calculation returns a table with exactly the 28
    pattern keys, in loop order; a cell is marked estimated exactly when
    it has no sample; and the sample counts of the cells add up to the
    number of cleaned ledger rows: every row is counted in one cell. *)
Theorem visitor_table_shape (sheet : option (list Visitors.raw_row)) :
  Visitors.fetch_latest_data sheet <> [] ->
  let res := Visitors.calculate_visitor_averages sheet in
  Visitors.status res = "success"%string /\
  (Visitors.averages res).*1
    = (fun wk : string * string => Visitors.pattern wk.1 wk.2)
        <$> Visitors.patterns /\
  length (Visitors.averages res) = 28%nat /\
  Forall (fun e : string * Visitors.cell =>
            Visitors.estimated e.2 = true <-> Visitors.count e.2 = 0)
         (Visitors.averages res) /\
  foldr Z.add 0 ((fun e : string * Visitors.cell => Visitors.count e.2)
                   <$> Visitors.averages res)
  = Visitors.total_records (Visitors.stats res).
Proof.
  intros Hne res. destruct (table_cells sheet Hne) as (Hst & Htot & Hf).
  fold res in Hst, Htot, Hf.
  split; [exact Hst |].
  pose proof (table_keys sheet Hne) as Hkeys. fold res in Hkeys.
  split; [exact Hkeys |]. split.
  { rewrite <- (length_fmap fst), Hkeys, length_fmap. reflexivity. }
  split.
  { clear -Hf. induction Hf as [| wk e ps cells (_ & _ & He) _ IH];
      constructor; [| exact IH].
    rewrite He. apply bool_decide_eq_true. }
  rewrite Htot.
  rewrite <- (count_by_classes
                (fun r => (Visitors.r_weather r, Visitors.r_weekday r))
                Visitors.patterns (Visitors.fetch_latest_data sheet)).
  - clear -Hf. induction Hf as [| wk e ps cells (_ & He & _) _ IH]; cbn;
      [reflexivity |].
    rewrite IH, He. f_equal. f_equal. f_equal.
    apply list_filter_iff. intros r. destruct wk as [w d]. cbn.
    split; [intros [-> ->]; reflexivity | intros [= -> ->]; now split].
  - exact patterns_NoDup.
  - intros r Hr. apply elem_of_patterns.
    destruct sheet as [records |]; [| now apply elem_of_nil in Hr].
    apply clean_data_row in Hr as (_ & Hw & _ & Hd). now split.
Qed.

(** X21: With data in the ledger and one of the four weather classes, the
    estimate is read from the table: the visitor number is the average
    of the cell of that weather and weekday, the sample count is the
    number of ledger rows of the pattern, and the confidence is high
    from 5 samples, medium from 2, low below. *)
Theorem estimate_reads_table_cell (sheet : option (list Visitors.raw_row))
    (date weather : string) (d : Py.date) :
  Visitors.fetch_latest_data sheet <> [] ->
  Py.strptime_dash date = Some d ->
  weather ∈ Visitors.weather_types ->
  exists wd c,
    Visitors.weekday_name (Py.weekday d) = Some wd /\
    (Visitors.pattern weather wd, c)
      ∈ Visitors.averages (Visitors.calculate_visitor_averages sheet) /\
    Visitors.count c
    = Z.of_nat (length (filter (fun r => Visitors.r_weather r = weather
                                         /\ Visitors.r_weekday r = wd)
                          (Visitors.fetch_latest_data sheet))) /\
    Visitors.get_visitor_estimate sheet date weather
    = Visitors.Estimate date weather (Some wd) (Visitors.average c)
        (Some (Visitors.count c))
        (if 5 <=? Visitors.count c then "high"%string
         else if 2 <=? Visitors.count c then "medium"%string
         else "low"%string)
        (Some (Visitors.pattern weather wd)) None.
Proof.
  intros Hne Hd Hw.
  destruct (weekday_name_total d) as (wd & Hwd & Hwdin).
  destruct (table_cells sheet Hne) as (_ & _ & Hf).
  assert (Hin : (weather, wd) ∈ Visitors.patterns)
    by now apply elem_of_patterns.
  destruct (Forall2_elem_l _ _ _ _ Hf Hin) as ([k c] & Hc & Hk & Hcount & _).
  cbn in Hk, Hcount. subst k.
  exists wd, c. split; [exact Hwd |]. split; [exact Hc |].
  split; [exact Hcount |].
  assert (Hget : Py.dict_get
                   (Visitors.averages
                      (Visitors.calculate_visitor_averages sheet))
                   (Visitors.pattern weather wd) = Some c).
  { apply dict_get_NoDup; [| exact Hc].
    rewrite (table_keys sheet Hne). exact pattern_keys_NoDup. }
  unfold Visitors.get_visitor_estimate.
  unfold Py.of_option, mbind, Py.result_bind, Py.try_except.
  rewrite Hd. cbv beta iota. rewrite Hwd. cbv beta iota zeta.
  rewrite Hget. reflexivity.
Qed.


(** X22: The estimate does not normalise the weather it is given: for any
    text outside sunny, cloudy, rainy and snowy (the ledger's own
    Japanese texts included) and a well-formed date, it answers the
    fixed 300 with sample count 0 and confidence low, without an error
    entry, whatever the ledger holds. *)
Theorem estimate_unlisted_weather (sheet : option (list Visitors.raw_row))
    (date weather : string) (d : Py.date) :
  weather ∉ Visitors.weather_types ->
  Py.strptime_dash date = Some d ->
  exists wd,
    Visitors.weekday_name (Py.weekday d) = Some wd /\
    Visitors.get_visitor_estimate sheet date weather
    = Visitors.Estimate date weather (Some wd) 300 (Some 0) "low"
        (Some (Visitors.pattern weather wd)) None.
Proof.
  intros Hw Hd.
  destruct (weekday_name_total d) as (wd & Hwd & Hwdin).
  exists wd. split; [exact Hwd |].
  destruct (Visitors.fetch_latest_data sheet) as [| r0 df0] eqn:Hdf.
  - now apply estimate_no_data with d.
  - assert (Hne : Visitors.fetch_latest_data sheet <> [])
      by (rewrite Hdf; discriminate).
    assert (Hget : Py.dict_get
                     (Visitors.averages
                        (Visitors.calculate_visitor_averages sheet))
                     (Visitors.pattern weather wd) = None).
    { apply dict_get_None.
      rewrite (table_keys sheet Hne).
      now apply unlisted_key_not_in_table. }
    unfold Visitors.get_visitor_estimate.
    unfold Py.of_option, mbind, Py.result_bind, Py.try_except.
    rewrite Hd. cbv beta iota. rewrite Hwd. cbv beta iota zeta.
    rewrite Hget. reflexivity.
Qed.

End VisitorMore.

Lemma clean_data_invariant_witness :
  (0 <= 500 <= 2000)%Q /\
  "sunny"%string ∈ Visitors.weather_types /\
  Visitors.weekday_name (Py.weekday (Py.Date 2024 8 6))
    = Some "tuesday"%string /\
  "tuesday"%string ∈ Visitors.weekday_types.
Proof.
  apply (clean_data_invariant
           [ Visitors.RawRow "2024/08/06(火)" "晴れ" "500名" ]
           (Visitors.Row (Py.Date 2024 8 6) "sunny" "tuesday" 500)).
  assert (Heq : Visitors._clean_data
                  [ Visitors.RawRow "2024/08/06(火)" "晴れ" "500名" ]
                = [ Visitors.Row (Py.Date 2024 8 6) "sunny" "tuesday" 500 ])
    by (vm_compute; reflexivity).
  rewrite Heq. apply list_elem_of_here.
Defined.

Lemma visitor_table_shape_witness :
  let res := Visitors.calculate_visitor_averages Strict.one_tuesday in
  Visitors.status res = "success"%string /\
  (Visitors.averages res).*1
    = (fun wk : string * string => Visitors.pattern wk.1 wk.2)
        <$> Visitors.patterns /\
  length (Visitors.averages res) = 28%nat /\
  Forall (fun e : string * Visitors.cell =>
            Visitors.estimated e.2 = true <-> Visitors.count e.2 = 0)
         (Visitors.averages res) /\
  foldr Z.add 0 ((fun e : string * Visitors.cell => Visitors.count e.2)
                   <$> Visitors.averages res)
  = Visitors.total_records (Visitors.stats res).
Proof.
  apply (visitor_table_shape Strict.one_tuesday).
  vm_compute. discriminate.
Defined.

Lemma estimate_reads_table_cell_witness :
  exists wd c,
    Visitors.weekday_name (Py.weekday (Py.Date 2024 8 13)) = Some wd /\
    (Visitors.pattern "sunny" wd, c)
      ∈ Visitors.averages
          (Visitors.calculate_visitor_averages Strict.one_tuesday) /\
    Visitors.count c
    = Z.of_nat (length (filter (fun r => Visitors.r_weather r = "sunny"%string
                                         /\ Visitors.r_weekday r = wd)
                          (Visitors.fetch_latest_data Strict.one_tuesday))) /\
    Visitors.get_visitor_estimate Strict.one_tuesday "2024-08-13" "sunny"
    = Visitors.Estimate "2024-08-13" "sunny" (Some wd) (Visitors.average c)
        (Some (Visitors.count c))
        (if 5 <=? Visitors.count c then "high"%string
         else if 2 <=? Visitors.count c then "medium"%string
         else "low"%string)
        (Some (Visitors.pattern "sunny" wd)) None.
Proof.
  apply (estimate_reads_table_cell Strict.one_tuesday "2024-08-13" "sunny"
           (Py.Date 2024 8 13)).
  - vm_compute. discriminate.
  - vm_compute. reflexivity.
  - apply list_elem_of_here.
Defined.

Lemma estimate_unlisted_weather_witness :
  exists wd,
    Visitors.weekday_name (Py.weekday (Py.Date 2024 8 13)) = Some wd /\
    Visitors.get_visitor_estimate Strict.one_tuesday "2024-08-13" "晴れ"
    = Visitors.Estimate "2024-08-13" "晴れ" (Some wd) 300 (Some 0) "low"
        (Some (Visitors.pattern "晴れ" wd)) None.
Proof.
  apply (estimate_unlisted_weather Strict.one_tuesday "2024-08-13" "晴れ"
           (Py.Date 2024 8 13)).
  - intros Hin. unfold Visitors.weather_types in Hin.
    repeat (apply elem_of_cons in Hin as [Hin | Hin];
            [discriminate Hin |]).
    now apply elem_of_nil in Hin.
  - vm_compute. reflexivity.
Defined.

(* --------------------------------------------------------------------- *)
(** ** ml/feature_engineering.py: the daily target and the features *)
(* --------------------------------------------------------------------- *)

Lemma elem_of_insert_Z (x k : Z) (ks : list Z) :
  x ∈ Py.insert_Z k ks <-> x = k \/ x ∈ ks.
Proof.
  induction ks as [| k' ks IH]; cbn.
  - rewrite list_elem_of_singleton, elem_of_nil. tauto.
  - destruct (Z.eqb_spec k k') as [-> | Hne].
    + rewrite elem_of_cons. tauto.
    + destruct (k <? k').
      * rewrite !elem_of_cons. tauto.
      * rewrite !elem_of_cons, IH. tauto.
Qed.

Lemma insert_Z_sorted (k : Z) (ks : list Z) :
  StronglySorted Z.lt ks -> StronglySorted Z.lt (Py.insert_Z k ks).
Proof.
  induction ks as [| k' ks IH]; cbn; intros Hs.
  - repeat constructor.
  - apply StronglySorted_inv in Hs as [Hl Hy].
    destruct (Z.eqb_spec k k') as [-> | Hne]; [now constructor |].
    destruct (Z.ltb_spec k k') as [Hlt | Hge].
    + constructor; [now constructor |].
      constructor; [exact Hlt |].
      eapply Forall_impl; [exact Hy |]. cbn. intros z Hz. lia.
    + constructor; [apply IH; exact Hl |].
      apply Forall_forall. intros z Hz.
      apply elem_of_insert_Z in Hz as [-> | Hz]; [lia |].
      rewrite Forall_forall in Hy. now apply Hy.
Qed.

Lemma group_keys_sorted (l : list Z) :
  StronglySorted Z.lt (Py.group_keys l) /\
  forall x, x ∈ Py.group_keys l <-> x ∈ l.
Proof.
  unfold Py.group_keys. induction l as [| k l [IHs IHe]]; cbn.
  - split; [constructor | reflexivity].
  - split; [now apply insert_Z_sorted |].
    intros x. rewrite elem_of_insert_Z, elem_of_cons, IHe. reflexivity.
Qed.

Lemma sorted_lt_NoDup (ks : list Z) : StronglySorted Z.lt ks -> NoDup ks.
Proof.
  induction 1 as [| k ks Hs IH Hk]; constructor; [| exact IH].
  intros Hin. rewrite Forall_forall in Hk. specialize (Hk _ Hin). lia.
Qed.

Lemma Qsum_app (l1 l2 : list Q) :
  (Py.Qsum (l1 ++ l2) == Py.Qsum l1 + Py.Qsum l2)%Q.
Proof.
  induction l1 as [| x l1 IH]; cbn.
  - now rewrite Qplus_0_l.
  - rewrite IH. now rewrite Qplus_assoc.
Qed.

(** Summing a list class by class gives the sum of the list. *)
Lemma sum_by_classes {A} (key : A -> Z) (f : A -> Q) (ks : list Z)
    (l : list A) :
  NoDup ks -> (forall x, x ∈ l -> key x ∈ ks) ->
  (Py.Qsum ((fun k => Py.Qsum (f <$> filter (fun x => key x = k) l)) <$> ks)
   == Py.Qsum (f <$> l))%Q.
Proof.
  intros Hnd Hall.
  assert (Hgen : (Py.Qsum ((fun k => Py.Qsum
                              (f <$> filter (fun x => key x = k) l)) <$> ks)
                  == Py.Qsum (f <$> filter (fun x => key x ∈ ks) l))%Q).
  { clear Hall. induction Hnd as [| k ks Hk Hnd IH]; cbn.
    - rewrite filter_none; [reflexivity |]. intros x _. apply not_elem_of_nil.
    - rewrite IH. clear IH.
      induction l as [| a l IHl]; [reflexivity |].
      rewrite !filter_cons.
      repeat case_decide; cbn [fmap list_fmap Py.Qsum foldr];
        try (exfalso;
             repeat match goal with
                    | Hy : _ ∈ _ :: _ |- _ =>
                        apply elem_of_cons in Hy as [? | ?]
                    | Hn : _ ∉ _ :: _ |- _ =>
                        rewrite not_elem_of_cons in Hn; destruct Hn
                    end; subst; try contradiction; congruence);
        fold (Py.Qsum (f <$> filter (fun x => key x = k) l));
        fold (Py.Qsum (f <$> filter (fun x => key x ∈ ks) l));
        fold (Py.Qsum (f <$> filter (fun x => key x ∈ k :: ks) l));
        rewrite <- IHl; ring. }
  rewrite Hgen.
  assert (Heq : filter (fun x => key x ∈ ks) l = l).
  { clear Hgen. induction l as [| a l IH]; [reflexivity |].
    rewrite filter_cons_True by (apply Hall, list_elem_of_here).
    f_equal. apply IH. intros x Hx. apply Hall. now apply list_elem_of_further. }
  now rewrite Heq.
Qed.

Lemma StronglySorted_fmap_inv {A B} (f : A -> B) (R : relation B)
    (l : list A) :
  StronglySorted R (f <$> l) -> StronglySorted (fun x y => R (f x) (f y)) l.
Proof.
  induction l as [| a l IH]; cbn; intros Hs; [constructor |].
  apply StronglySorted_inv in Hs as [Hl Ha].
  constructor; [now apply IH |].
  rewrite Forall_forall in Ha. apply Forall_forall.
  intros y Hy. apply Ha. now apply list_elem_of_fmap_2.
Qed.

Lemma fill_column_length (col : list (option Q)) :
  length (Features.fill_column col) = length col.
Proof.
  unfold Features.fill_column.
  destruct (Features.column_mean col); [apply length_map | reflexivity].
Qed.

Lemma column_mean_None (col : list (option Q)) :
  Features.column_mean col = None -> Forall (fun o => o = None) col.
Proof.
  unfold Features.column_mean.
  destruct (omap id col) as [| v vs] eqn:Ho; [| discriminate]. intros _.
  apply Forall_forall. intros [v |] Hin; [| reflexivity].
  assert (Hv : v ∈ omap id col)
    by (apply list_elem_of_omap; exists (Some v); now split).
  rewrite Ho in Hv. now apply elem_of_nil in Hv.
Qed.

(** [fillna] with the column mean: afterwards the column has no null,
    unless it held nothing but nulls, in which case it is unchanged;
    known values are never altered. *)
Lemma fill_column_spec (col : list (option Q)) :
  (Forall is_Some (Features.fill_column col)
   \/ (Forall (fun o => o = None) col /\ Features.fill_column col = col)) /\
  forall i v, col !! i = Some (Some v) ->
              Features.fill_column col !! i = Some (Some v).
Proof.
  unfold Features.fill_column.
  destruct (Features.column_mean col) as [m |] eqn:Hm.
  - split.
    + left. apply Forall_forall. intros o Ho.
      apply list_elem_of_fmap in Ho as (o' & -> & _). eauto.
    + intros i v Hi. change (map ?f col) with (f <$> col).
      rewrite list_lookup_fmap, Hi. reflexivity.
  - split; [| tauto]. right. split; [now apply column_mean_None | reflexivity].
Qed.

Lemma fillna_mean_columns (X : list Features.feature_row)
    (cs ct cv : list (option Q)) :
  length cs = length X -> length ct = length X -> length cv = length X ->
  let X' :=
    zip_with
      (fun r (c : option Q * option Q * option Q) =>
         Features.FeatureRow (Features.f_month r) c.1.1 (Features.f_weather r)
           c.1.2 (Features.f_tide r) c.2)
      X (zip (zip cs ct) cv) in
  Features.f_season <$> X' = cs /\ Features.f_temp <$> X' = ct /\
  Features.f_visitors <$> X' = cv /\ length X' = length X.
Proof.
  revert cs ct cv. induction X as [| r X IH]; intros cs ct cv Hs Ht Hv.
  - destruct cs, ct, cv; try discriminate. cbn. repeat split.
  - destruct cs as [| s cs], ct as [| t ct], cv as [| v cv];
      try discriminate.
    cbn in Hs, Ht, Hv.
    specialize (IH cs ct cv ltac:(lia) ltac:(lia) ltac:(lia)).
    cbv zeta in IH. destruct IH as (H1 & H2 & H3 & H4).
    cbn. rewrite H1, H2, H3, H4. repeat split.
Qed.

Lemma season_code_total (month : Z) :
  is_Some (Features.encode_season (Features.get_season month)).
Proof.
  unfold Features.get_season.
  repeat case_bool_decide; cbn; eauto.
Qed.

Section FeatureFacts.
Context `{PD : Py.Pandas} `{DL : Py.DateLib}.

Lemma aggregate_days (rows : list (Py.date * DataLoader.row))
    (ks : list Z) :
  (forall k, k ∈ ks -> k ∈ Features.day_of <$> rows) ->
  Forall2
    (fun k d =>
       Py.days_from_civil (Features.d_date d) = k /\
       Features.d_catch d
       = Py.Qsum ((fun x : Py.date * DataLoader.row => DataLoader.catch x.2)
                    <$> filter (fun e => Features.day_of e = k) rows))
    ks (omap (Features.aggregate_day rows) ks).
Proof.
  induction ks as [| k ks IH]; intros Hin; cbn; [constructor |].
  assert (Hk : k ∈ Features.day_of <$> rows)
    by apply Hin, list_elem_of_here.
  apply list_elem_of_fmap in Hk as (e & He & Hk).
  assert (Hf : e ∈ filter (fun e => Features.day_of e = k) rows)
    by (apply list_elem_of_filter; split; [now symmetry | exact Hk]).
  unfold Features.aggregate_day at 1.
  destruct (filter (fun e => Features.day_of e = k) rows) as [| x xs] eqn:Hfl;
    [now apply elem_of_nil in Hf |].
  cbn. constructor.
  - cbn. split; [| rewrite Hfl; reflexivity].
    assert (Hx : x ∈ filter (fun e => Features.day_of e = k) rows)
      by (rewrite Hfl; apply list_elem_of_here).
    apply list_elem_of_filter in Hx as [Hx _]. exact Hx.
  - apply IH. intros k' Hk'. apply Hin. now apply list_elem_of_further.
Qed.

Lemma create_target_variable_inv (fishing_df : list DataLoader.row)
    (daily : list Features.daily) :
  Features.create_target_variable fishing_df = Py.Ok daily ->
  Forall2
    (fun k d =>
       Py.days_from_civil (Features.d_date d) = k /\
       Features.d_catch d
       = Py.Qsum ((fun x : Py.date * DataLoader.row => DataLoader.catch x.2)
                    <$> filter (fun e => Features.day_of e = k)
                          (Features.dated_rows fishing_df)))
    (Py.group_keys (Features.day_of <$> Features.dated_rows fishing_df))
    daily.
Proof.
  unfold Features.create_target_variable.
  destruct (filter _ fishing_df); [discriminate |].
  intros [= <-]. apply aggregate_days.
  intros k Hk. now apply group_keys_sorted.
Qed.

(** X23: The daily frame has one row per date, in strictly ascending date
    order, and every dated row of the species is counted on its date:
    the rows are ready for a chronological split. *)
Theorem daily_rows_ascending (fishing_df : list DataLoader.row)
    (daily : list Features.daily) :
  Features.create_target_variable fishing_df = Py.Ok daily ->
  StronglySorted
    (fun a b => Py.days_from_civil (Features.d_date a)
                < Py.days_from_civil (Features.d_date b)) daily /\
  forall e, e ∈ Features.dated_rows fishing_df ->
            exists d, d ∈ daily /\
                      Py.days_from_civil (Features.d_date d)
                      = Py.days_from_civil e.1.
Proof.
  intros H. apply create_target_variable_inv in H.
  set (rows := Features.dated_rows fishing_df) in *.
  destruct (group_keys_sorted (Features.day_of <$> rows)) as [Hs He].
  assert (Hk : (fun d => Py.days_from_civil (Features.d_date d)) <$> daily
               = Py.group_keys (Features.day_of <$> rows)).
  { clear -H. induction H as [| k d ks ds (Hd & _) _ IH]; cbn;
      [reflexivity |]. now rewrite Hd, IH. }
  split.
  - rewrite <- Hk in Hs.
    now apply StronglySorted_fmap_inv in Hs.
  - intros e Hin.
    assert (Hke : Features.day_of e ∈ Py.group_keys (Features.day_of <$> rows))
      by (apply He; now apply list_elem_of_fmap_2).
    rewrite <- Hk in Hke. apply list_elem_of_fmap in Hke as (d & Hd & Hin').
    exists d. split; [exact Hin' | now symmetry].
Qed.

(** X24: Grouping by date loses no catch: the daily targets add up to the
    catch of all rows of the species that carry a readable date. *)
Theorem daily_catch_total (fishing_df : list DataLoader.row)
    (daily : list Features.daily) :
  Features.create_target_variable fishing_df = Py.Ok daily ->
  (Py.Qsum (Features.d_catch <$> daily)
   == Py.Qsum ((fun e : Py.date * DataLoader.row => DataLoader.catch e.2)
                 <$> Features.dated_rows fishing_df))%Q.
Proof.
  intros H. apply create_target_variable_inv in H.
  set (rows := Features.dated_rows fishing_df) in *.
  destruct (group_keys_sorted (Features.day_of <$> rows)) as [Hs He].
  rewrite <- (sum_by_classes Features.day_of
                (fun e : Py.date * DataLoader.row => DataLoader.catch e.2)
                (Py.group_keys (Features.day_of <$> rows)) rows).
  - assert (Hk : Features.d_catch <$> daily
                 = (fun k => Py.Qsum
                      ((fun e : Py.date * DataLoader.row =>
                          DataLoader.catch e.2)
                         <$> filter (fun x => Features.day_of x = k) rows))
                     <$> Py.group_keys (Features.day_of <$> rows)).
    { clear -H. induction H as [| k d ks ds (_ & Hd) _ IH]; cbn;
        [reflexivity |]. now rewrite Hd, IH. }
    rewrite Hk. reflexivity.
  - now apply sorted_lt_NoDup.
  - intros x Hx. apply He. now apply list_elem_of_fmap_2.
Qed.

(** X25: The feature matrix has one row per daily target and at least one
    row; the season code is never null; and after the mean fill the
    water temperature column, like the visitor column, has no null left
    unless no day at all had a value, in which case the whole column
    stays null. *)
Theorem feature_matrix_shape (fishing_df : list DataLoader.row)
    (X : list Features.feature_row) (y : list Q) :
  Features.create_features fishing_df = Py.Ok (Some (X, y)) ->
  length X = length y /\ X <> [] /\
  Forall (fun r => is_Some (Features.f_season r)) X /\
  (Forall (fun r => is_Some (Features.f_temp r)) X
   \/ Forall (fun r => Features.f_temp r = None) X) /\
  (Forall (fun r => is_Some (Features.f_visitors r)) X
   \/ Forall (fun r => Features.f_visitors r = None) X).
Proof.
  unfold Features.create_features.
  destruct (Features.dated_rows fishing_df) as [| e0 es] eqn:Hrows;
    [discriminate |].
  destruct (Features.create_target_variable fishing_df) as [daily | err]
    eqn:Hd; cbn; [| discriminate].
  intros [= <- <-].
  set (F := Features.features_of <$> daily).
  destruct (fillna_mean_columns F
              (Features.fill_column (Features.f_season <$> F))
              (Features.fill_column (Features.f_temp <$> F))
              (Features.fill_column (Features.f_visitors <$> F)))
    as (Hs & Ht & Hv & Hlen);
    try (rewrite fill_column_length; apply length_fmap).
  fold (Features.fillna_mean F) in Hs, Ht, Hv, Hlen.
  assert (HlenF : length F = length daily) by apply length_fmap.
  split; [rewrite Hlen, HlenF, length_fmap; reflexivity |].
  split.
  { pose proof (create_target_variable_inv fishing_df daily Hd) as Hinv.
    destruct (group_keys_sorted
                (Features.day_of <$> Features.dated_rows fishing_df))
      as [_ He].
    assert (Hk : Features.day_of e0
                 ∈ Py.group_keys
                     (Features.day_of <$> Features.dated_rows fishing_df)).
    { apply He, list_elem_of_fmap_2. rewrite Hrows.
      apply list_elem_of_here. }
    intros Hnil. apply (f_equal length) in Hnil.
    rewrite Hlen, HlenF in Hnil.
    destruct daily; [| discriminate]. apply Forall2_nil_inv_r in Hinv.
    rewrite Hinv in Hk. now apply elem_of_nil in Hk. }
  assert (Hcol : forall (g : Features.feature_row -> option Q)
                        (col : list (option Q)) (P : option Q -> Prop),
             g <$> Features.fillna_mean F = col -> Forall P col ->
             Forall (fun r => P (g r)) (Features.fillna_mean F)).
  { intros g col P Hg HP. rewrite <- Hg in HP.
    rewrite Forall_forall in HP. apply Forall_forall.
    intros r Hr. apply HP. now apply list_elem_of_fmap_2. }
  split; [| split].
  - apply (Hcol _ _ is_Some Hs).
    destruct (fill_column_spec (Features.f_season <$> F))
      as [[Hall | [Hnone Heq]] _]; [exact Hall |].
    rewrite Heq. apply Forall_forall. intros o Ho.
    apply list_elem_of_fmap in Ho as (r & -> & Hr).
    apply list_elem_of_fmap in Hr as (d & -> & _).
    unfold Features.features_of. cbn [Features.f_season].
    destruct (season_code_total (Py.month (Features.d_date d))) as [c ->].
    cbn [fmap option_fmap option_map]. eauto.
  - destruct (fill_column_spec (Features.f_temp <$> F))
      as [[Hall | [Hnone Heq]] _].
    + left. apply (Hcol _ _ is_Some Ht Hall).
    + right. rewrite Heq in Ht.
      apply (Hcol _ _ (fun o => o = None) Ht Hnone).
  - destruct (fill_column_spec (Features.f_visitors <$> F))
      as [[Hall | [Hnone Heq]] _].
    + left. apply (Hcol _ _ is_Some Hv Hall).
    + right. rewrite Heq in Hv.
      apply (Hcol _ _ (fun o => o = None) Hv Hnone).
Qed.

End FeatureFacts.

Lemma daily_rows_ascending_witness :
  exists daily,
    Features.create_target_variable Strict.training_rows = Py.Ok daily /\
    StronglySorted
      (fun a b => Py.days_from_civil (Features.d_date a)
                  < Py.days_from_civil (Features.d_date b)) daily.
Proof.
  eexists. split; [vm_compute; reflexivity |].
  eapply (fun H => proj1 (daily_rows_ascending Strict.training_rows _ H)).
  vm_compute; reflexivity.
Defined.

Lemma daily_catch_total_witness :
  exists daily,
    Features.create_target_variable Strict.training_rows = Py.Ok daily /\
    (Py.Qsum (Features.d_catch <$> daily)
     == Py.Qsum ((fun e : Py.date * DataLoader.row => DataLoader.catch e.2)
                   <$> Features.dated_rows Strict.training_rows))%Q.
Proof.
  eexists. split; [vm_compute; reflexivity |].
  eapply (daily_catch_total Strict.training_rows).
  vm_compute; reflexivity.
Defined.

Lemma feature_matrix_shape_witness :
  exists X y,
    Features.create_features Strict.training_rows = Py.Ok (Some (X, y)) /\
    length X = length y /\ X <> [] /\
    Forall (fun r => is_Some (Features.f_season r)) X /\
    (Forall (fun r => is_Some (Features.f_temp r)) X
     \/ Forall (fun r => Features.f_temp r = None) X) /\
    (Forall (fun r => is_Some (Features.f_visitors r)) X
     \/ Forall (fun r => Features.f_visitors r = None) X).
Proof.
  do 2 eexists. split; [vm_compute; reflexivity |].
  eapply (feature_matrix_shape Strict.training_rows).
  vm_compute; reflexivity.
Defined.

(* --------------------------------------------------------------------- *)
(** ** ml/models.py: cleanup, saving and the columns of a DataFrame *)
(* --------------------------------------------------------------------- *)

Section CleanupMore.
Context `{TL : Model.TimeLib} `{RG : Model.Regression}.
Variable History : Type.

Lemma remove_files_report (fs : gmap string (Model.file History))
    (paths : list string) :
  NoDup paths ->
  (forall k, k ∈ paths ->
             exists f, fs !! k = Some f /\ Model.f_locked History f = false) ->
  (Model.remove_files History fs paths).1 = Py.basename <$> paths.
Proof.
  unfold Model.remove_files.
  enough (Hgen : forall (acc : list string * gmap string (Model.file History)),
             NoDup paths ->
             (forall k, k ∈ paths ->
                        exists f, acc.2 !! k = Some f
                                  /\ Model.f_locked History f = false) ->
             (foldl (fun (acc : list string * gmap string (Model.file History))
                         path =>
                       match acc.2 !! path with
                       | Some f =>
                           if Model.f_locked History f then acc
                           else ((acc.1 ++ [Py.basename path])%list,
                                 delete path acc.2)
                       | None => acc
                       end) acc paths).1
             = (acc.1 ++ (Py.basename <$> paths))%list)
    by (intros Hnd Hall; apply (Hgen ([], fs) Hnd Hall)).
  induction paths as [| path paths IH]; intros acc Hnd Hall; cbn [foldl].
  - cbn. now rewrite app_nil_r.
  - apply NoDup_cons in Hnd as [Hnotin Hnd].
    destruct (Hall path) as (f & Hf & Hl); [apply list_elem_of_here |].
    rewrite Hf, Hl. rewrite IH; [| exact Hnd |].
    + cbn [fst fmap list_fmap]. now rewrite <- app_assoc.
    + intros k Hk. cbn [snd].
      destruct (Hall k) as (g & Hg & Hgl); [now apply list_elem_of_further |].
      exists g. split; [| exact Hgl].
      rewrite lookup_delete_ne; [exact Hg |]. intros ->. contradiction.
Qed.

(** For any keep count that is not negative, and with no artifact of
    the kind locked, a cleanup leaves the newest [keep_count] artifacts
    (all of them when there are fewer), reports exactly as many deleted
    names as artifacts went away, and a second cleanup finds nothing to
    delete and changes nothing. *)
Lemma cleanup_effect (p : Model.predictor History)
    (fs : gmap string (Model.file History)) (keep_count : Z) :
  let dir := Model.model_dir History p in
  let kind := Model.model_type History p in
  let res := Model.cleanup_old_models History p fs keep_count in
  0 <= keep_count ->
  (forall e, e ∈ Model.glob History fs dir kind ->
             Model.f_locked History e.2 = false) ->
  length (Model.glob History res.2 dir kind)
    = Nat.min (Z.to_nat keep_count) (length (Model.glob History fs dir kind))
  /\
  (length (Model.deleted_files res.1)
   + length (Model.glob History res.2 dir kind)
   = length (Model.glob History fs dir kind))%nat /\
  Model.cleanup_old_models History p res.2 keep_count
  = (Model.CleanupResult [] (Model.glob History res.2 dir kind).*1, res.2).
Proof.
  intros dir kind res Hk Hfree. subst res.
  remember (Model.cleanup_old_models History p fs keep_count) as r eqn:Hr.
  unfold Model.cleanup_old_models in Hr. fold dir kind in Hr.
  destruct (Z.leb_spec (Z.of_nat (length (Model.glob History fs dir kind)))
              keep_count) as [Hle | Hgt].
  - subst r. cbn [fst snd Model.deleted_files length].
    split; [lia |]. split; [lia |].
    unfold Model.cleanup_old_models. fold dir kind.
    destruct (Z.leb_spec (Z.of_nat (length (Model.glob History fs dir kind)))
                keep_count); [reflexivity | lia].
  - set (sorted := Py.sort_desc (Model.extract_datetime History)
                     (Model.glob History fs dir kind)).
    assert (Hperm : sorted ≡ₚ Model.glob History fs dir kind)
      by apply sort_desc_perm.
    set (n := Z.to_nat keep_count).
    assert (Hto : Py.slice_to sorted keep_count = take n sorted).
    { unfold Py.slice_to, Py.slice_bound.
      destruct (Z.leb_spec 0 keep_count); [reflexivity | lia]. }
    assert (Hfrom : Py.slice_from sorted keep_count = drop n sorted).
    { unfold Py.slice_from, Py.slice_bound.
      destruct (Z.leb_spec 0 keep_count); [reflexivity | lia]. }
    fold sorted in Hr. rewrite Hto, Hfrom in Hr.
    assert (Hfree' : forall x, x ∈ drop n sorted ->
                               Model.f_locked History x.2 = false).
    { intros x Hx. apply Hfree. rewrite <- Hperm.
      rewrite <- (take_drop n sorted), elem_of_app. now right. }
    pose proof (NoDup_glob_keys History fs dir kind) as Hkeys.
    rewrite <- Hperm, <- (take_drop n sorted), fmap_app in Hkeys.
    apply NoDup_app in Hkeys as (Hk1 & _ & Hk2).
    assert (Hrep : (Model.remove_files History fs (drop n sorted).*1).1
                   = Py.basename <$> (drop n sorted).*1).
    { apply remove_files_report; [exact Hk2 |].
      intros k Hin. apply list_elem_of_fmap in Hin as (e & -> & He).
      exists e.2. split; [| now apply Hfree'].
      assert (Hs : e ∈ Model.glob History fs dir kind).
      { rewrite <- Hperm, <- (take_drop n sorted), elem_of_app. now right. }
      now apply elem_of_glob in Hs as [Hl _]. }
    destruct (Model.remove_files History fs (drop n sorted).*1)
      as [deleted fs'] eqn:Hrm.
    cbn [fst snd] in *. subst deleted. subst r. cbn [fst snd].
    assert (Hfs' : fs' = (Model.remove_files History fs (drop n sorted).*1).2)
      by (now rewrite Hrm).
    assert (Hpa : Model.glob History fs' dir kind ≡ₚ take n sorted).
    { apply NoDup_Permutation; [apply NoDup_glob | |].
      - exact (NoDup_fmap_1 fst _ Hk1).
      - intros e. rewrite Hfs'. now apply glob_after_remove. }
    assert (Hlen : length sorted = length (Model.glob History fs dir kind))
      by (now rewrite Hperm).
    assert (Hl' : length (Model.glob History fs' dir kind) = n).
    { rewrite Hpa, length_take. lia. }
    split; [lia |]. split.
    + cbn [Model.deleted_files]. rewrite !length_fmap, length_drop. lia.
    + unfold Model.cleanup_old_models. fold dir kind.
      destruct (Z.leb_spec (Z.of_nat (length (Model.glob History fs' dir kind)))
                  keep_count); [reflexivity | lia].
Qed.

(** X26: For any keep count that is not negative, and with no artifact of
    the kind locked, a cleanup leaves the newest [keep_count] artifacts
    (all of them when there are fewer), reports exactly as many deleted
    names as artifacts went away, and a second cleanup finds nothing to
    delete and changes nothing. *)
Theorem cleanup_idempotent (p : Model.predictor History)
    (fs : gmap string (Model.file History)) (keep_count : Z) :
  let dir := Model.model_dir History p in
  let kind := Model.model_type History p in
  let res := Model.cleanup_old_models History p fs keep_count in
  0 <= keep_count ->
  (forall e, e ∈ Model.glob History fs dir kind ->
             Model.f_locked History e.2 = false) ->
  length (Model.glob History res.2 dir kind)
    = Nat.min (Z.to_nat keep_count) (length (Model.glob History fs dir kind))
  /\
  (length (Model.deleted_files res.1)
   + length (Model.glob History res.2 dir kind)
   = length (Model.glob History fs dir kind))%nat /\
  Model.cleanup_old_models History p res.2 keep_count
  = (Model.CleanupResult [] (Model.glob History res.2 dir kind).*1, res.2).
Proof. exact (cleanup_effect p fs keep_count). Qed.

(** X27: Saving never lets the artifacts pile up: after a successful
    [save_model], whatever the file name, at most two artifacts of the
    instance's kind are in the model directory (none of the earlier
    ones being locked). *)
Theorem save_leaves_at_most_two (p : Model.predictor History)
    (fs fs' : gmap string (Model.file History)) (now : Z)
    (filename : option string) (path : string) :
  (forall e, e ∈ Model.glob History fs (Model.model_dir History p)
                   (Model.model_type History p) ->
             Model.f_locked History e.2 = false) ->
  Model.save_model History p fs now filename = (Py.Ok path, fs') ->
  (length (Model.glob History fs' (Model.model_dir History p)
             (Model.model_type History p)) <= 2)%nat.
Proof.
  intros Hfree. unfold Model.save_model.
  destruct (Model.is_trained History p); cbn [negb]; [| discriminate].
  match goal with
  | |- context [Model.cleanup_old_models History p ?m 2] =>
      pose proof (cleanup_effect p m 2) as Hc; cbv zeta in Hc;
      destruct (Model.cleanup_old_models History p m 2) as [r fs2] eqn:Hcl
  end.
  intros [= _ <-]. cbn [snd] in Hc.
  destruct Hc as (Hlen & _); [lia | | rewrite Hlen; lia].
  intros e He. apply elem_of_glob in He as [Hl Hm].
  match type of Hl with
  | <[?k := ?f]> _ !! _ = _ =>
      destruct (decide (k = e.1)) as [Heq | Hne]
  end.
  - rewrite <- Heq, lookup_insert_eq in Hl. injection Hl as <-. reflexivity.
  - rewrite lookup_insert_ne in Hl by exact Hne.
    apply Hfree. apply elem_of_glob. now split.
Qed.

End CleanupMore.

Lemma cleanup_idempotent_witness :
  let res :=
    Model.cleanup_old_models unit Strict.fresh Strict.unstamped_dir 1 in
  length (Model.glob unit res.2 "models" "xgboost")
    = Nat.min (Z.to_nat 1)
        (length (Model.glob unit Strict.unstamped_dir "models" "xgboost")) /\
  (length (Model.deleted_files res.1)
   + length (Model.glob unit res.2 "models" "xgboost")
   = length (Model.glob unit Strict.unstamped_dir "models" "xgboost"))%nat /\
  Model.cleanup_old_models unit Strict.fresh res.2 1
  = (Model.CleanupResult [] (Model.glob unit res.2 "models" "xgboost").*1,
     res.2).
Proof.
  apply (cleanup_idempotent unit Strict.fresh Strict.unstamped_dir 1);
    [lia |].
  intros e He.
  set (l := Model.glob unit _ _ _) in He. vm_compute in l. subst l.
  repeat (apply elem_of_cons in He as [-> | He]; [reflexivity |]).
  now apply elem_of_nil in He.
Defined.

Lemma save_leaves_at_most_two_witness :
  (length
     (Model.glob unit
        (Model.save_model unit Strict.trained Strict.unstamped_dir
           Strict.save_time None).2
        "models" "xgboost") <= 2)%nat.
Proof.
  apply (save_leaves_at_most_two unit Strict.trained Strict.unstamped_dir
           (Model.save_model unit Strict.trained Strict.unstamped_dir
              Strict.save_time None).2
           Strict.save_time None
           "models/aji_xgboost_20250730_163124.pkl").
  - intros e He.
    set (l := Model.glob unit _ _ _) in He. vm_compute in l. subst l.
    repeat (apply elem_of_cons in He as [-> | He]; [reflexivity |]).
    now apply elem_of_nil in He.
  - vm_compute. reflexivity.
Defined.

Lemma column_index_app (pre post : list string) (c : string) :
  c ∉ pre ->
  Model.column_index (pre ++ c :: post) c = Some (length pre).
Proof.
  induction pre as [| a pre IH]; intros Hc; cbn.
  - now rewrite String.eqb_refl.
  - rewrite not_elem_of_cons in Hc. destruct Hc as [Hne Hc].
    destruct (String.eqb_spec a c) as [-> | _]; [congruence |].
    now rewrite (IH Hc).
Qed.

Lemma column_index_all (pre fc extra : list string) :
  NoDup (pre ++ fc) ->
  mapM (M := Py.result)
    (fun c => Py.of_option (Model.column_index (pre ++ fc ++ extra) c)
                (Py.KeyError c)) fc
  = Py.Ok (seq (length pre) (length fc)).
Proof.
  revert pre. induction fc as [| c fc IH]; intros pre Hnd; [reflexivity |].
  cbn [mapM length seq].
  assert (Hc : c ∉ pre).
  { apply NoDup_app in Hnd as (_ & Hd & _). intros Hin.
    apply (Hd c Hin), list_elem_of_here. }
  change ((c :: fc) ++ extra) with (c :: fc ++ extra).
  rewrite (column_index_app pre (fc ++ extra) c Hc). cbn.
  specialize (IH (pre ++ [c])).
  rewrite <- !app_assoc in IH. cbn [app] in IH.
  rewrite IH by exact Hnd. rewrite length_app. cbn.
  now rewrite Nat.add_1_r.
Qed.

Lemma project_prefix (pre row ex : list Q) :
  omap (M := list) (fun i => (pre ++ row ++ ex) !! i)
    (seq (length pre) (length row)) = row.
Proof.
  revert pre. induction row as [| x row IH]; intros pre; [reflexivity |].
  cbn [length seq omap list_omap].
  rewrite lookup_app_r by lia. rewrite Nat.sub_diag. cbn.
  f_equal. specialize (IH (pre ++ [x])).
  rewrite <- !app_assoc, length_app in IH. cbn [app length] in IH.
  rewrite Nat.add_1_r in IH. exact IH.
Qed.

Lemma column_index_None (columns : list string) (c : string) :
  Model.column_index columns c = None <-> c ∉ columns.
Proof.
  induction columns as [| a cols IH]; cbn.
  - split; [intros _; apply not_elem_of_nil | reflexivity].
  - rewrite not_elem_of_cons.
    destruct (String.eqb_spec a c) as [-> | Hne].
    + split; [discriminate | intros [? _]; congruence].
    + destruct (Model.column_index cols c); cbn.
      * split; [discriminate |]. intros [_ Hn]. now apply IH in Hn.
      * split; [| reflexivity]. intros _. split; [congruence | now apply IH].
Qed.

Lemma first_missing_column (fc columns : list string) (c : string) :
  c ∈ fc -> c ∉ columns ->
  exists key,
    (key ∈ fc) /\ (key ∉ columns) /\
    mapM (M := Py.result)
      (fun c => Py.of_option (Model.column_index columns c) (Py.KeyError c))
      fc
    = Py.Raise (Py.KeyError key).
Proof.
  intros Hc Hmiss.
  induction fc as [| a fc IH]; [now apply elem_of_nil in Hc |].
  cbn [mapM].
  destruct (Model.column_index columns a) as [i |] eqn:Ha.
  - assert (Hc' : c ∈ fc).
    { apply elem_of_cons in Hc as [-> | Hc]; [| exact Hc].
      apply column_index_None in Hmiss. congruence. }
    destruct (IH Hc') as (key & Hk1 & Hk2 & Hk3).
    exists key. split; [now apply list_elem_of_further |].
    split; [exact Hk2 |]. cbn. now rewrite Hk3.
  - exists a. split; [apply list_elem_of_here |].
    split; [now apply column_index_None | reflexivity].
Qed.

Section PredictMore.
Context `{TL : Model.TimeLib} `{RG : Model.Regression}.
Variable History : Type.

(** X28: Given a DataFrame that carries the feature columns first and other
    columns after them, [predict] answers as on the feature columns
    alone: the extra columns never reach the model. *)
Theorem predict_ignores_extra_columns (p : Model.predictor History)
    (fc extra : list string) (rows extras : list (list Q)) :
  Model.feature_columns History p = Some fc ->
  NoDup fc ->
  Forall (fun row => length row = length fc) rows ->
  Forall (fun ex => length ex = length extra) extras ->
  length extras = length rows ->
  Model.predict History p
    (Model.DataFrame (fc ++ extra) (zip_with app rows extras))
  = Model.predict History p (Model.DataFrame fc rows).
Proof.
  intros Hfc Hnd Hrows Hex Hlen. unfold Model.predict.
  destruct (Model.is_trained History p); cbn [negb]; [| reflexivity].
  rewrite Hfc. unfold Model.string_list_eqb.
  rewrite (bool_decide_eq_true_2 (fc = fc)) by reflexivity.
  destruct (decide (fc ++ extra = fc)) as [Heq | Hne].
  - rewrite (bool_decide_eq_true_2 _ Heq).
    assert (Hnil : extra = []).
    { apply (f_equal length) in Heq. rewrite length_app in Heq.
      destruct extra; [reflexivity | cbn in Heq; lia]. }
    subst extra.
    assert (Hsame : zip_with app rows extras = rows).
    { clear -Hex Hlen. revert rows Hlen.
      induction Hex as [| ex extras Hx _ IH]; intros [| row rows] Hlen;
        try discriminate; [reflexivity |].
      cbn. destruct ex; [| discriminate]. rewrite app_nil_r.
      f_equal. apply IH. now injection Hlen. }
    now rewrite Hsame.
  - rewrite (bool_decide_eq_false_2 _ Hne).
    unfold Model.select_columns.
    pose proof (column_index_all [] fc extra Hnd) as Hidx.
    cbn [app length] in Hidx. rewrite Hidx. cbn.
    assert (Hsel : map (fun row : list Q =>
                          omap (M := list) (fun i => row !! i)
                            (seq 0 (length fc)))
                     (zip_with app rows extras) = rows).
    { clear -Hrows Hlen. revert extras Hlen.
      induction Hrows as [| row rows Hrow _ IH]; intros [| ex extras] Hlen;
        try discriminate; [reflexivity |].
      cbn. f_equal; [| apply IH; now injection Hlen].
      rewrite <- Hrow. apply (project_prefix [] row ex). }
    rewrite Hsel. reflexivity.
Qed.

(** X29: Given a DataFrame that lacks one of the feature columns, a trained
    instance raises KeyError for a missing column and the model is never
    asked. *)
Theorem predict_missing_column (p : Model.predictor History)
    (fc columns : list string) (rows : list (list Q)) (c : string) :
  Model.is_trained History p = true ->
  Model.feature_columns History p = Some fc ->
  c ∈ fc -> c ∉ columns ->
  exists key,
    (key ∈ fc) /\ (key ∉ columns) /\
    Model.predict History p (Model.DataFrame columns rows)
    = Py.Raise (Py.KeyError key).
Proof.
  intros Ht Hfc Hc Hmiss.
  destruct (first_missing_column fc columns c Hc Hmiss)
    as (key & Hk1 & Hk2 & Hk3).
  exists key. split; [exact Hk1 |]. split; [exact Hk2 |].
  unfold Model.predict.
  rewrite Ht, Hfc. cbn [negb]. unfold Model.string_list_eqb.
  rewrite bool_decide_eq_false_2 by (intros ->; contradiction).
  unfold Model.select_columns. rewrite Hk3. reflexivity.
Qed.

End PredictMore.

Lemma predict_ignores_extra_columns_witness :
  Model.predict unit Strict.trained
    (Model.DataFrame
       (app [ "月"; "季節_エンコード"; "天気_エンコード"; "水温"; "潮_エンコード";
              "来場者数" ]%string [ "日付"%string ])
       (zip_with app [ [8; 1; 0; 27; 0; 200]%Q ] [ [20250806%Q] ]))
  = Model.predict unit Strict.trained
      (Model.DataFrame
         [ "月"; "季節_エンコード"; "天気_エンコード"; "水温"; "潮_エンコード";
           "来場者数" ]%string
         [ [8; 1; 0; 27; 0; 200]%Q ]).
Proof.
  apply (predict_ignores_extra_columns unit Strict.trained).
  - reflexivity.
  - refine (bool_decide_unpack _ _). vm_compute. exact I.
  - repeat constructor.
  - repeat constructor.
  - reflexivity.
Defined.

Lemma predict_missing_column_witness :
  exists key,
    (key ∈ [ "月"; "季節_エンコード"; "天気_エンコード"; "水温";
             "潮_エンコード"; "来場者数" ]%string) /\
    (key ∉ [ "月"%string ]) /\
    Model.predict unit Strict.trained
      (Model.DataFrame [ "月"%string ] [ [8%Q] ])
    = Py.Raise (Py.KeyError key).
Proof.
  apply (predict_missing_column unit Strict.trained _ [ "月"%string ]
           [ [8%Q] ] "水温"%string).
  - reflexivity.
  - reflexivity.
  - repeat (first [apply list_elem_of_here | apply list_elem_of_further]).
  - intros Hin. apply list_elem_of_singleton in Hin. discriminate Hin.
Defined.
